(** * milvusmanager: a semantic result cache over a vector store

    A shallow embedding of [cache_manager.py], [vector_store.py], the
    singleton client of [milvus_client.py] and the manager, the search and
    the statistics of [manage_cache.py], with the properties of the
    natural-language specification stated over it.

    Python values are a small dynamically typed universe ([pyval]); floats are
    IEEE binary64 ([PrimFloat.float], as Python's [float]); a Python [int] is a
    [Z]; a [str] is a [string] whose characters stand for code points below
    256.  Exceptions are values of [exn] carried by [result]; code that talks
    to the vector store threads the store through a state-and-exception
    monad. *)

From Stdlib Require Import ZArith List String Ascii Bool Lia.
From Stdlib Require Import Floats QArith Qround.
Import ListNotations.
Open Scope string_scope.
Open Scope Z_scope.

Set Implicit Arguments.
Set Warnings "-inexact-float,-register-all".

(** ** Python values and exceptions *)

Inductive pyval : Type :=
| PyNone
| PyBool (b : bool)
| PyInt (z : Z)
| PyFloat (f : float)
| PyStr (s : string)
| PyList (l : list pyval)
| PyTuple (l : list pyval)
| PyDict (d : list (string * pyval)).

Inductive exn : Type :=
| TypeError
| ValueError
| IndexError
| KeyError
| AttributeError
| OverflowError
| ZeroDivisionError
| MilvusException.

Inductive result (A : Type) : Type :=
| Ok (a : A)
| Raise (e : exn).
Arguments Raise {A} e.

Definition rbind {A B} (r : result A) (k : A -> result B) : result B :=
  match r with
  | Ok a => k a
  | Raise e => Raise e
  end.

Declare Scope result_scope.
Delimit Scope result_scope with result.
Notation "'try!' x <- r ; k" := (rbind r (fun x => k))
  (at level 10, x name, r at level 100, k at level 200) : result_scope.
Open Scope result_scope.

Definition raises {A} (r : result A) : bool :=
  match r with
  | Ok _ => false
  | Raise _ => true
  end.

(** What the interpreter, its libraries and the surroundings compute and this
    development does not: [repr] of floats and containers (reached through
    [str]), the parsers behind [float(str)] and [int(str)],
    [datetime.fromisoformat] (a [datetime] is kept as its ISO-8601 text, so
    [isoformat] is the identity), the SHA-256 digest, the embedding provider
    ([None] when [embed_query] raises) and the clock (what the n-th call of
    [datetime.now()] returns).  The statements below hold for whatever these
    are. *)
Record Runtime : Type := {
  repr_other : pyval -> string;
  float_of_str : string -> option float;
  int_of_str : string -> option Z;
  fromisoformat : string -> option string;
  sha256_hexdigest : string -> string;
  embed_query : string -> option (list float);
  clock : nat -> string
}.

(** Decimal digits of a natural number, most significant first. *)
Fixpoint digits (fuel : nat) (n : N) (acc : string) : string :=
  match fuel with
  | O => acc
  | S fuel' =>
    let acc' := String (ascii_of_N (48 + N.modulo n 10)) acc in
    if (N.div n 10 =? 0)%N then acc' else digits fuel' (N.div n 10) acc'
  end.

Definition str_of_int (z : Z) : string :=
  let n := Z.to_N (Z.abs z) in
  let body := digits (S (N.to_nat (N.log2 n))) n "" in
  if z <? 0 then "-" ++ body else body.

(** [bool(v)]: the truth value of a Python object. *)
Definition truthy (v : pyval) : bool :=
  match v with
  | PyNone => false
  | PyBool b => b
  | PyInt z => negb (z =? 0)
  | PyFloat f => negb (PrimFloat.eqb f 0%float)
  | PyStr s => negb (String.eqb s "")
  | PyList l | PyTuple l => negb (Nat.eqb (List.length l) 0)
  | PyDict d => negb (Nat.eqb (List.length d) 0)
  end.

Section Conversions.
Variable rt : Runtime.

(** [str(v)]. *)
Definition py_str (v : pyval) : string :=
  match v with
  | PyStr s => s
  | PyNone => "None"
  | PyBool true => "True"
  | PyBool false => "False"
  | PyInt z => str_of_int z
  | _ => repr_other rt v
  end.

(** [float(int)]: the integer rounded to the nearest binary64, ties to even;
    [OverflowError] beyond the largest finite float. *)
Definition float_of_int (z : Z) : result float :=
  let sf := binary_normalize prec emax z 0 false in
  match sf with
  | S754_infinity _ => Raise OverflowError
  | _ => Ok (SF2Prim sf)
  end.

(** [float(v)]. *)
Definition py_float (v : pyval) : result float :=
  match v with
  | PyFloat f => Ok f
  | PyInt z => float_of_int z
  | PyBool b => Ok (if b then 1%float else 0%float)
  | PyStr s =>
    match float_of_str rt s with
    | Some f => Ok f
    | None => Raise ValueError
    end
  | _ => Raise TypeError
  end.

(** [int(float)]: truncation toward zero. *)
Definition int_of_float (f : float) : result Z :=
  match Prim2SF f with
  | S754_zero _ => Ok 0
  | S754_infinity _ => Raise OverflowError
  | S754_nan => Raise ValueError
  | S754_finite s m e =>
    let a := if 0 <=? e then Z.pos m * 2 ^ e else Z.pos m / 2 ^ (- e) in
    Ok (if s then - a else a)
  end.

(** [int(v)]. *)
Definition py_int (v : pyval) : result Z :=
  match v with
  | PyInt z => Ok z
  | PyBool b => Ok (if b then 1 else 0)
  | PyFloat f => int_of_float f
  | PyStr s =>
    match int_of_str rt s with
    | Some z => Ok z
    | None => Raise ValueError
    end
  | _ => Raise TypeError
  end.

End Conversions.

(** [len(v)] and [v[i]] for a non-negative literal index, on sequences. *)
Definition py_len (l : list pyval) : Z := Z.of_nat (List.length l).

Definition py_getitem (l : list pyval) (i : nat) : result pyval :=
  match nth_error l i with
  | Some v => Ok v
  | None => Raise IndexError
  end.

(** [iter(v)]: what a [for] loop over [v] visits. *)
Definition py_iter (v : pyval) : result (list pyval) :=
  match v with
  | PyList l | PyTuple l => Ok l
  | PyDict d => Ok (map (fun kv => PyStr (fst kv)) d)
  | PyStr s => Ok (map (fun c => PyStr (String c "")) (list_ascii_of_string s))
  | _ => Raise TypeError
  end.

(** Dictionaries keep insertion order; [d[k] = v] overwrites in place. *)
Fixpoint dict_get (d : list (string * pyval)) (k : string) : option pyval :=
  match d with
  | [] => None
  | (k', v) :: d' => if String.eqb k' k then Some v else dict_get d' k
  end.

Fixpoint dict_set (d : list (string * pyval)) (k : string) (v : pyval) : list (string * pyval) :=
  match d with
  | [] => [(k, v)]
  | (k', v') :: d' => if String.eqb k' k then (k, v) :: d' else (k', v') :: dict_set d' k v
  end.

(** [d.update(other)]. *)
Definition dict_update (d other : list (string * pyval)) : list (string * pyval) :=
  fold_left (fun acc kv => dict_set acc (fst kv) (snd kv)) other d.

(** ** Division of integers

    [a / b] on two [int]s is a [float]: the binary64 number nearest to the
    exact quotient, a tie going to the even mantissa (IEEE 754), a
    [ZeroDivisionError] for a zero divisor and an [OverflowError] when the
    quotient is beyond the largest float.  The float is given as the rational
    number it is. *)

(** The integer nearest to [n / d] for [0 < d], a tie going to the even
    one. *)
Definition round_half_even (n d : Z) : Z :=
  let q := n / d in
  let r := n mod d in
  if 2 * r <? d then q
  else if d <? 2 * r then q + 1
  else if Z.even q then q else q + 1.

(** The exponent of the unit in the last place of the binary64 numbers
    around [a / b], for [0 < a] and [0 < b]: 52 below the exponent of the
    quotient, and never below that of the subnormal numbers. *)
Definition ulp_exponent (a b : Z) : Z :=
  let l := Z.log2 a - Z.log2 b in
  let reaches := if 0 <=? l then b * 2 ^ l <=? a else b <=? a * 2 ^ (- l) in
  Z.max (-1074) ((if reaches then l else l - 1) - 52).

(** The binary64 number nearest to [a / b] for [0 < a] and [0 < b], or
    nothing when it is out of range. *)
Definition nearest_binary64 (a b : Z) : option Q :=
  let e := ulp_exponent a b in
  if 0 <=? e
  then let m := round_half_even a (b * 2 ^ e) in
       if 2 ^ 1024 <=? m * 2 ^ e then None else Some (inject_Z (m * 2 ^ e))
  else let m := round_half_even (a * 2 ^ (- e)) b in
       Some (Qmake m (Z.to_pos (2 ^ (- e)))).

(** [a / b]. *)
Definition py_true_div (a b : Z) : result Q :=
  if b =? 0 then Raise ZeroDivisionError
  else if a =? 0 then Ok 0%Q
  else match nearest_binary64 (Z.abs a) (Z.abs b) with
       | Some q => Ok (if Bool.eqb (a <? 0) (b <? 0) then q else Qopp q)
       | None => Raise OverflowError
       end.

(** [math.ceil(x)] of a finite float: the least integer not below it. *)
Definition math_ceil (x : Q) : Z := Qceiling x.

(** ** The input normaliser of [add_to_cache] *)

Section Normalizer.
Variable rt : Runtime.

Definition is_sequence (v : pyval) : option (list pyval) :=
  match v with
  | PyList l | PyTuple l => Some l
  | _ => None
  end.

(** The dictionary built for a list or tuple [ref], its four values evaluated
    in the order the literal lists them. *)
Definition reference_of_sequence (ref : list pyval) : result pyval :=
  try! text <-
    (if 1 <? py_len ref
     then try! r1 <- py_getitem ref 1; Ok (PyStr (py_str rt r1))
     else Ok (PyStr ""));
  try! r0 <- py_getitem ref 0;
  try! score <- (if truthy r0 then py_float rt r0 else Ok 0%float);
  try! file_name <-
    (if 2 <? py_len ref
     then try! r2 <- py_getitem ref 2; Ok (PyStr (py_str rt r2))
     else Ok PyNone);
  try! page <-
    (if 3 <? py_len ref
     then try! r3 <- py_getitem ref 3;
          if truthy r3 then try! z <- py_int rt r3; Ok (PyInt z) else Ok PyNone
     else Ok PyNone);
  Ok (PyDict [("text", text); ("score", PyFloat score);
              ("file_name", file_name); ("page", page)]).

(** One turn of the loop [for ref in references]. *)
Definition process_reference (ref : pyval) : result pyval :=
  match ref with
  | PyDict d => Ok (PyDict d)
  | PyList l | PyTuple l => reference_of_sequence l
  | _ => Ok (PyDict [("text", PyStr (py_str rt ref)); ("score", PyFloat 0%float);
                     ("file_name", PyNone); ("page", PyNone)])
  end.

(** A loop that appends one processed element per visited element and stops
    at the first exception. *)
Fixpoint for_each (f : pyval -> result pyval) (l : list pyval) : result (list pyval) :=
  match l with
  | [] => Ok []
  | x :: l' => try! y <- f x; try! ys <- for_each f l'; Ok (y :: ys)
  end.

Definition processed_references (references : pyval) : result (list pyval) :=
  try! refs <- py_iter references; for_each process_reference refs.

(** [processed_pdf_info]: a list has its dictionaries merged, later keys
    overwriting earlier ones, and its other elements skipped. *)
Definition processed_pdf_info (pdf_info : pyval) : pyval :=
  match pdf_info with
  | PyList items =>
    PyDict (fold_left
              (fun acc item => match item with
                               | PyDict d => dict_update acc d
                               | _ => acc
                               end) items [])
  | PyDict d => PyDict d
  | _ => PyDict [("info", PyStr (py_str rt pdf_info))]
  end.

(** One turn of the loop [for ref in cited_refs]; [isinstance(ref, int)] holds
    of booleans too. *)
Definition process_cited_ref (ref : pyval) : result pyval :=
  match ref with
  | PyDict d => Ok (PyDict d)
  | PyInt _ | PyBool _ =>
    Ok (PyDict [("index", ref); ("text", PyNone); ("page", PyNone); ("file_name", PyNone)])
  | _ =>
    Ok (PyDict [("text", PyStr (py_str rt ref)); ("index", PyNone);
                ("page", PyNone); ("file_name", PyNone)])
  end.

Definition processed_cited_refs (cited_refs : pyval) : result (list pyval) :=
  try! refs <- py_iter cited_refs; for_each process_cited_ref refs.

(** The three normalisations in the order [add_to_cache] runs them. *)
Definition normalize_inputs (references cited_refs pdf_info : pyval)
  : result (list pyval * pyval * list pyval) :=
  try! refs <- processed_references references;
  let info := processed_pdf_info pdf_info in
  try! cited <- processed_cited_refs cited_refs;
  Ok (refs, info, cited).

(** Reference normalisation as the specification words it: a sequence is read
    positionally, a missing element defaulting to [0.0] (the score) or
    [None]. *)
Definition reference_by_spec (ref : pyval) : pyval :=
  match ref with
  | PyDict d => PyDict d
  | PyList l | PyTuple l =>
    PyDict [("text", nth 1 l PyNone); ("score", nth 0 l (PyFloat 0%float));
            ("file_name", nth 2 l PyNone); ("page", nth 3 l PyNone)]
  | _ => PyDict [("text", PyStr (py_str rt ref)); ("score", PyFloat 0%float);
                 ("file_name", PyNone); ("page", PyNone)]
  end.

End Normalizer.

(** ** The vector store

    The collection the code talks to is Milvus, an external service.  The
    model keeps what the code relies on: the schema [milvus_client.py]
    declares, boolean filter expressions (the fragment the code builds:
    comparisons of a text field with a string literal by [==], [!=] and
    [like], joined by [&&]/[and] and [||]/[or], parentheses), nearest
    neighbour search under the L2 metric (squared distance, smaller is
    nearer), and calls that can fail: [faults] holds, for each coming call to
    the service, whether it raises. *)

Module Milvus.

Record row : Type := {
  id : string;
  query_vector : list float;
  query_text : string;
  result_vector : list float;
  result_text : string;
  email : string;
  metadata : pyval;
  created_at : string;
  project_id : string
}.

Record collection : Type := {
  rows : list row;
  faults : list bool
}.

(** The double quote that delimits a string literal. *)
Definition dquote : ascii := ascii_of_nat 34.

(** The embedding dimension of the schema. *)
Definition dim : nat := 768.

Inductive cmp : Type := CEq | CNe | CLike.

Inductive filter : Type :=
| FCmp (field : string) (op : cmp) (lit : string)
| FAnd (l r : filter)
| FOr (l r : filter).

Inductive token : Type :=
| TIdent (s : string)
| TString (s : string)
| TOp (op : cmp)
| TAnd
| TOr
| TLParen
| TRParen.

(** *** Lexing: one pass over the characters *)

Inductive mode : Type :=
| Start
| Ident (acc : string)
| Lit (acc : string)
| Esc (acc : string)
| Op (c : ascii).

Definition is_ident_char (c : ascii) : bool :=
  let n := nat_of_ascii c in
  ((48 <=? n) && (n <=? 57) || (65 <=? n) && (n <=? 90)
   || (97 <=? n) && (n <=? 122) || (n =? 95))%nat.

Definition is_space (c : ascii) : bool :=
  let n := nat_of_ascii c in ((n =? 32) || (n =? 9) || (n =? 10) || (n =? 13))%nat.

Definition word (s : string) : token :=
  if String.eqb s "and" then TAnd
  else if String.eqb s "or" then TOr
  else if String.eqb s "like" then TOp CLike
  else TIdent s.

Definition snoc (s : string) (c : ascii) : string := s ++ String c "".

Definition start_char (c : ascii) : option (list token * mode) :=
  if is_space c then Some ([], Start)
  else if Ascii.eqb c "(" then Some ([TLParen], Start)
  else if Ascii.eqb c ")" then Some ([TRParen], Start)
  else if Ascii.eqb c dquote then Some ([], Lit "")
  else if Ascii.eqb c "=" || Ascii.eqb c "!" || Ascii.eqb c "&" || Ascii.eqb c "|"
       then Some ([], Op c)
  else if is_ident_char c then Some ([], Ident (String c ""))
  else None.

Definition lex_step (m : mode) (c : ascii) : option (list token * mode) :=
  match m with
  | Start => start_char c
  | Ident acc =>
    if is_ident_char c then Some ([], Ident (snoc acc c))
    else match start_char c with
         | Some (ts, m') => Some (word acc :: ts, m')
         | None => None
         end
  | Lit acc =>
    if Ascii.eqb c dquote then Some ([TString acc], Start)
    else if Ascii.eqb c "\" then Some ([], Esc acc)
    else Some ([], Lit (snoc acc c))
  | Esc acc => Some ([], Lit (snoc acc c))
  | Op o =>
    if Ascii.eqb o "=" && Ascii.eqb c "=" then Some ([TOp CEq], Start)
    else if Ascii.eqb o "!" && Ascii.eqb c "=" then Some ([TOp CNe], Start)
    else if Ascii.eqb o "&" && Ascii.eqb c "&" then Some ([TAnd], Start)
    else if Ascii.eqb o "|" && Ascii.eqb c "|" then Some ([TOr], Start)
    else None
  end.

Fixpoint lex_from (m : mode) (s : string) : option (list token) :=
  match s with
  | EmptyString =>
    match m with
    | Start => Some []
    | Ident acc => Some [word acc]
    | _ => None
    end
  | String c s' =>
    match lex_step m c with
    | Some (ts, m') => option_map (app ts) (lex_from m' s')
    | None => None
    end
  end.

Definition lex (s : string) : option (list token) := lex_from Start s.

(** The tokens completed and the mode reached after a prefix of the text. *)
Fixpoint lex_run (m : mode) (s : string) : option (list token * mode) :=
  match s with
  | EmptyString => Some ([], m)
  | String c s' =>
    match lex_step m c with
    | Some (ts, m') =>
      match lex_run m' s' with
      | Some (ts', m'') => Some ((ts ++ ts')%list, m'')
      | None => None
      end
    | None => None
    end
  end.

(** *** Parsing: [&&] binds tighter than [||] *)

Fixpoint parse_or (fuel : nat) (ts : list token) : option (filter * list token) :=
  match fuel with
  | O => None
  | S fuel' =>
    match parse_and fuel' ts with
    | Some (l, TOr :: rest) =>
      match parse_or fuel' rest with
      | Some (r, rest') => Some (FOr l r, rest')
      | None => None
      end
    | other => other
    end
  end
with parse_and (fuel : nat) (ts : list token) : option (filter * list token) :=
  match fuel with
  | O => None
  | S fuel' =>
    match parse_atom fuel' ts with
    | Some (l, TAnd :: rest) =>
      match parse_and fuel' rest with
      | Some (r, rest') => Some (FAnd l r, rest')
      | None => None
      end
    | other => other
    end
  end
with parse_atom (fuel : nat) (ts : list token) : option (filter * list token) :=
  match fuel with
  | O => None
  | S fuel' =>
    match ts with
    | TLParen :: ts' =>
      match parse_or fuel' ts' with
      | Some (e, TRParen :: rest) => Some (e, rest)
      | _ => None
      end
    | TIdent f :: TOp op :: TString lit :: rest => Some (FCmp f op lit, rest)
    | _ => None
    end
  end.

(** The filter an expression denotes; [None] when the text is not an
    expression of the fragment. *)
Definition parse (expr : string) : option filter :=
  match lex expr with
  | Some ts =>
    match parse_or (3 * List.length ts + 3) ts with
    | Some (f, []) => Some f
    | _ => None
    end
  | None => None
  end.

(** *** Evaluation *)

Definition field_of (name : string) (r : row) : option string :=
  if String.eqb name "id" then Some (id r)
  else if String.eqb name "query_text" then Some (query_text r)
  else if String.eqb name "result_text" then Some (result_text r)
  else if String.eqb name "email" then Some (email r)
  else if String.eqb name "created_at" then Some (created_at r)
  else if String.eqb name "project_id" then Some (project_id r)
  else None.

(** [like]: [%] stands for any run of characters. *)
Fixpoint like (p : string) : string -> bool :=
  match p with
  | EmptyString => fun s => String.eqb s ""
  | String c p' =>
    if Ascii.eqb c "%"
    then fix any (s : string) : bool :=
           like p' s || match s with
                        | EmptyString => false
                        | String _ s' => any s'
                        end
    else fun s => match s with
                  | EmptyString => false
                  | String d s' => Ascii.eqb d c && like p' s'
                  end
  end.

Fixpoint eval (f : filter) (r : row) : option bool :=
  match f with
  | FCmp name op lit =>
    match field_of name r with
    | Some v =>
      Some match op with
           | CEq => String.eqb v lit
           | CNe => negb (String.eqb v lit)
           | CLike => like lit v
           end
    | None => None
    end
  | FAnd a b =>
    match eval a r, eval b r with
    | Some x, Some y => Some (x && y)
    | _, _ => None
    end
  | FOr a b =>
    match eval a r, eval b r with
    | Some x, Some y => Some (x || y)
    | _, _ => None
    end
  end.

(** The rows an expression selects: all of them for no expression or the
    empty one; an exception for text that does not parse or names no field. *)
Fixpoint select (f : filter) (l : list row) : option (list row) :=
  match l with
  | [] => Some []
  | r :: l' =>
    match eval f r, select f l' with
    | Some b, Some rs => Some (if b then r :: rs else rs)
    | _, _ => None
    end
  end.

Definition matching (expr : option string) (l : list row) : result (list row) :=
  match expr with
  | None => Ok l
  | Some e =>
    if String.eqb e "" then Ok l
    else match parse e with
         | Some f =>
           match select f l with
           | Some rs => Ok rs
           | None => Raise MilvusException
           end
         | None => Raise MilvusException
         end
  end.

(** *** Calls to the service *)

(** Every call consumes one entry of the fault schedule. *)
Definition tick (c : collection) : bool * collection :=
  match faults c with
  | [] => (false, c)
  | b :: fs => (b, {| rows := rows c; faults := fs |})
  end.

Definition call {A} (c : collection) (body : collection -> result A * collection)
  : result A * collection :=
  let (fail, c') := tick c in
  if fail then (Raise MilvusException, c') else body c'.

Definition load (c : collection) : result unit * collection :=
  call c (fun c' => (Ok tt, c')).

Definition flush (c : collection) : result unit * collection :=
  call c (fun c' => (Ok tt, c')).

Definition num_entities (c : collection) : result Z * collection :=
  call c (fun c' => (Ok (Z.of_nat (List.length (rows c'))), c')).

(** The schema of [_init_collection]: two vectors of [dim] floats and bounded
    text fields. *)
Definition fits_schema (r : row) : bool :=
  let len s := Z.of_nat (String.length s) in
  Nat.eqb (List.length (query_vector r)) dim
  && Nat.eqb (List.length (result_vector r)) dim
  && (len (id r) <=? 100)
  && (len (query_text r) <=? 2000)
  && (len (result_text r) <=? 65535)
  && (len (email r) <=? 100)
  && (len (created_at r) <=? 30)
  && (len (project_id r) <=? 100).

Definition insert (c : collection) (r : row) : result unit * collection :=
  call c (fun c' =>
    if fits_schema r
    then (Ok tt, {| rows := rows c' ++ [r]; faults := faults c' |})
    else (Raise MilvusException, c')).

(** The L2 metric as the index reports it: the squared Euclidean distance. *)
Fixpoint l2 (a b : list float) : float :=
  match a, b with
  | x :: a', y :: b' => ((x - y) * (x - y) + l2 a' b')%float
  | _, _ => 0%float
  end.

Record hit : Type := {
  hit_id : string;
  score : float;
  entity : row
}.

Fixpoint insert_hit (h : hit) (l : list hit) : list hit :=
  match l with
  | [] => [h]
  | x :: l' => if PrimFloat.leb (score h) (score x) then h :: x :: l' else x :: insert_hit h l'
  end.

(** Nearest first. *)
Definition rank (l : list hit) : list hit := fold_right insert_hit [] l.

(** The vector fields an index exists on. *)
Definition vector_field (anns_field : string) : option (row -> list float) :=
  if String.eqb anns_field "query_vector" then Some query_vector
  else if String.eqb anns_field "result_vector" then Some result_vector
  else None.

(** [collection.search(data=[v], anns_field, param, limit, expr, output_fields)]:
    the hits of the one query vector, nearest first, at most [limit] of
    them. *)
Definition search (c : collection) (v : list float) (anns_field : string)
  (limit : Z) (expr : option string) : result (list hit) * collection :=
  call c (fun c' =>
    if negb (Nat.eqb (List.length v) dim) || (limit <? 1) || (16384 <? limit)
    then (Raise MilvusException, c')
    else match vector_field anns_field with
         | None => (Raise MilvusException, c')
         | Some get =>
           match matching expr (rows c') with
           | Raise e => (Raise e, c')
           | Ok rs =>
             let hits := map (fun r => {| hit_id := id r; score := l2 v (get r); entity := r |}) rs in
             (Ok (firstn (Z.to_nat limit) (rank hits)), c')
           end
         end).

Fixpoint insert_newest (r : row) (l : list row) : list row :=
  match l with
  | [] => [r]
  | x :: l' => if String.leb (created_at x) (created_at r) then r :: x :: l' else x :: insert_newest r l'
  end.

(** [collection.query(expr, output_fields, limit, offset, sort)]: the selected
    rows, newest [created_at] first when [newest_first] is asked, [limit]
    of them after the first [offset]. *)
Definition query (c : collection) (expr : string) (limit : option Z) (offset : Z)
  (newest_first : bool) : result (list row) * collection :=
  call c (fun c' =>
    match matching (Some expr) (rows c') with
    | Raise e => (Raise e, c')
    | Ok rs =>
      let sorted := if newest_first then fold_right insert_newest [] rs else rs in
      let rest := skipn (Z.to_nat offset) sorted in
      (Ok match limit with
          | Some n => firstn (Z.to_nat n) rest
          | None => rest
          end, c')
    end).

Definition set_metadata (m : pyval) (r : row) : row :=
  {| id := id r; query_vector := query_vector r; query_text := query_text r;
     result_vector := result_vector r; result_text := result_text r;
     email := email r; metadata := m; created_at := created_at r;
     project_id := project_id r |}.

(** [collection.update(expr, data={"metadata": m})]: the selected rows get
    the new metadata, every other row and field stays. *)
Definition update (c : collection) (expr : string) (m : pyval) : result unit * collection :=
  call c (fun c' =>
    match parse expr with
    | None => (Raise MilvusException, c')
    | Some f =>
      match select f (rows c') with
      | None => (Raise MilvusException, c')
      | Some _ =>
        (Ok tt,
         {| rows := map (fun r => match eval f r with
                                  | Some true => set_metadata m r
                                  | _ => r
                                  end) (rows c');
            faults := faults c' |})
      end
    end).

(** [collection.delete(expr)]: the selected rows are removed, the others stay
    in their order. *)
Definition delete (c : collection) (expr : string) : result unit * collection :=
  call c (fun c' =>
    match parse expr with
    | None => (Raise MilvusException, c')
    | Some f =>
      match select f (rows c') with
      | None => (Raise MilvusException, c')
      | Some _ =>
        (Ok tt,
         {| rows := List.filter (fun r => match eval f r with
                                          | Some true => false
                                          | _ => true
                                          end) (rows c');
            faults := faults c' |})
      end
    end).

End Milvus.

(** ** [milvus_client.py]

    The client is a process-wide singleton.  The model keeps the two class
    attributes [_instance] and [_initialized], the heap of the objects
    [__new__] allocates with the attributes [__init__] has set on them, and
    of the server what the client asks of it: whether the alias of the
    connection is registered, which collections exist, which of their fields
    have an index, which collections are loaded, and whether a GPU is there.
    As in the store, [faults] holds for each coming call to the server
    whether it raises. *)

Module MilvusClient.

Inductive failure : Type :=
| MilvusError
| ConnectionError
| AttributeError.

Record server : Type := {
  connected : bool;
  collections : list string;
  indexes : list (string * string);
  loaded : list string;
  cuda : bool;
  faults : list bool
}.

Record attributes : Type := {
  collection_name : string;
  dim : Z;
  host : string;
  port : string
}.

Record state : Type := {
  _instance : option nat;
  _initialized : bool;
  heap : list (option attributes);
  srv : server
}.

Definition K (A : Type) : Type := state -> (A + failure) * state.

Definition kret {A} (a : A) : K A := fun s => (inl a, s).

Definition kraise {A} (e : failure) : K A := fun s => (inr e, s).

Definition kbind {A B} (m : K A) (k : A -> K B) : K B :=
  fun s => match m s with
           | (inl a, s') => k a s'
           | (inr e, s') => (inr e, s')
           end.

(** [try: m  except Exception as e: h e]. *)
Definition except {A} (m : K A) (h : failure -> K A) : K A :=
  fun s => match m s with
           | (inl a, s') => (inl a, s')
           | (inr e, s') => h e s'
           end.

Notation "m >>= k" := (kbind m k) (at level 50, left associativity).
Notation "m >> k" := (kbind m (fun _ => k)) (at level 50, left associativity).

Definition on_server (s : state) (v : server) : state :=
  {| _instance := _instance s; _initialized := _initialized s; heap := heap s; srv := v |}.

Definition set_faults (fs : list bool) (v : server) : server :=
  {| connected := connected v; collections := collections v; indexes := indexes v;
     loaded := loaded v; cuda := cuda v; faults := fs |}.

(** A call to the server: it consumes one entry of the fault schedule. *)
Definition remote {A} (body : server -> (A + failure) * server) : K A :=
  fun s =>
    match faults (srv s) with
    | true :: fs => (inr MilvusError, on_server s (set_faults fs (srv s)))
    | false :: fs => let (r, v) := body (set_faults fs (srv s)) in (r, on_server s v)
    | [] => let (r, v) := body (srv s) in (r, on_server s v)
    end.

(** What happens in the process, without a call to the server. *)
Definition local (f : server -> server) : K unit :=
  fun s => (inl tt, on_server s (f (srv s))).

Definition set_connected (b : bool) (v : server) : server :=
  {| connected := b; collections := collections v; indexes := indexes v;
     loaded := loaded v; cuda := cuda v; faults := faults v |}.

Definition add_collection (name : string) (v : server) : server :=
  {| connected := connected v; collections := name :: collections v; indexes := indexes v;
     loaded := loaded v; cuda := cuda v; faults := faults v |}.

Definition add_index (name field : string) (v : server) : server :=
  {| connected := connected v; collections := collections v;
     indexes := (name, field) :: indexes v;
     loaded := loaded v; cuda := cuda v; faults := faults v |}.

Definition add_loaded (name : string) (v : server) : server :=
  {| connected := connected v; collections := collections v; indexes := indexes v;
     loaded := name :: loaded v; cuda := cuda v; faults := faults v |}.

Definition mem (name : string) (l : list string) : bool :=
  existsb (String.eqb name) l.

(** [connections.disconnect("default")] inside [try: ... except: pass]. *)
Definition disconnect : K unit := local (set_connected false).

(** [connections.connect(alias="default", host, port, timeout, grpc_options)]. *)
Definition connect (host port : string) : K unit :=
  remote (fun v => (inl tt, set_connected true v)).

(** [utility.list_collections()]. *)
Definition list_collections : K (list string) :=
  remote (fun v => (inl (collections v), v)).

(** [utility.has_collection(name)]. *)
Definition has_collection (name : string) : K bool :=
  remote (fun v => (inl (mem name (collections v)), v)).

(** [Collection(name, schema)]: the collection is created when it is not
    there. *)
Definition Collection_with_schema (name : string) : K string :=
  remote (fun v => (inl name, if mem name (collections v) then v else add_collection name v)).

(** [Collection(name=name)]: the handle of a collection that is there, over
    a connection that is there. *)
Definition Collection_named (name : string) : K string :=
  remote (fun v => if connected v && mem name (collections v)
                   then (inl name, v)
                   else (inr MilvusError, v)).

(** [collection.create_index(field_name, index_params)]. *)
Definition create_index (name field : string) : K unit :=
  remote (fun v => (inl tt, add_index name field v)).

(** [collection.load(...)]. *)
Definition load (name : string) : K unit :=
  remote (fun v => (inl tt, add_loaded name v)).

Definition remove_collection (name : string) (v : server) : server :=
  {| connected := connected v;
     collections := List.filter (fun n => negb (String.eqb n name)) (collections v);
     indexes := List.filter (fun i => negb (String.eqb (fst i) name)) (indexes v);
     loaded := List.filter (fun n => negb (String.eqb n name)) (loaded v);
     cuda := cuda v; faults := faults v |}.

(** [utility.drop_collection(name)]. *)
Definition utility_drop_collection (name : string) : K unit :=
  remote (fun v => (inl tt, remove_collection name v)).

(** [self.<attribute>]: an object has the attributes [__init__] has set on
    it. *)
Definition attr {A} (self : nat) (get : attributes -> A) : K A :=
  fun s => match nth_error (heap s) self with
           | Some (Some a) => (inl (get a), s)
           | _ => (inr AttributeError, s)
           end.

Fixpoint store {A} (l : list A) (i : nat) (a : A) : list A :=
  match l, i with
  | [], _ => []
  | _ :: l', O => a :: l'
  | x :: l', S i' => x :: store l' i' a
  end.

Definition set_attributes (self : nat) (a : attributes) : K unit :=
  fun s => (inl tt, {| _instance := _instance s; _initialized := _initialized s;
                       heap := store (heap s) self (Some a); srv := srv s |}).

Definition set_initialized (b : bool) : K unit :=
  fun s => (inl tt, {| _instance := _instance s; _initialized := b;
                       heap := heap s; srv := srv s |}).

Definition set_instance (self : nat) : K unit :=
  fun s => (inl tt, {| _instance := Some self; _initialized := _initialized s;
                       heap := heap s; srv := srv s |}).

(** The attributes [__init__] sets before it connects. *)
Definition defaults : attributes :=
  {| collection_name := "logos_cache"; dim := 768; host := "localhost"; port := "19530" |}.

Definition __new__ : K nat :=
  fun s => match _instance s with
           | None =>
             let self := List.length (heap s) in
             (inl self, {| _instance := Some self; _initialized := _initialized s;
                           heap := (heap s ++ [None])%list; srv := srv s |})
           | Some self => (inl self, s)
           end.

Definition _connect (self : nat) : K unit :=
  except
    (disconnect >>
     (attr self host >>= fun h =>
      attr self port >>= fun p =>
      connect h p) >>
     except (list_collections >> attr self host >> attr self port >> kret tt)
            (fun _ => kraise ConnectionError))
    (fun e => kraise e).

Definition _init_collection (self : nat) : K unit :=
  except
    (attr self dim >>
     (attr self collection_name >>= fun name =>
      has_collection name >>= fun there =>
      if negb there
      then
        attr self collection_name >>= fun name =>
        Collection_with_schema name >>= fun collection =>
        create_index collection "query_vector" >>
        create_index collection "result_vector" >>
        (fun s => if cuda (srv s) then load collection s else load collection s) >>
        attr self collection_name >>
        kret tt
      else kret tt))
    (fun e => kraise e).

Definition __init__ (self : nat) : K unit :=
  fun s => if _initialized s then (inl tt, s)
           else (set_attributes self defaults >>
                 _connect self >>
                 _init_collection self >>
                 set_initialized true) s.

(** The call [MilvusClientSingleton()]: [__new__], then [__init__] on the
    object it returned. *)
Definition construct : K nat :=
  __new__ >>= fun self => __init__ self >> kret self.

Definition get_collection_name (self : nat) : K string :=
  attr self collection_name.

Definition get_collection (self : nat) : K string :=
  except
    (attr self collection_name >>= fun name =>
     Collection_named name >>= fun collection =>
     load collection >>
     kret collection)
    (fun e => kraise e).

Definition get_instance : K nat :=
  fun s => match _instance s with
           | None => (construct >>= fun self => set_instance self >> kret self) s
           | Some self => (inl self, s)
           end.

(** The process at its start: no instance, nothing initialised. *)
Definition initial (v : server) : state :=
  {| _instance := None; _initialized := false; heap := []; srv := v |}.

(** What a program can ask of the class, and a run of such requests: a
    request that raises leaves the state it reached to the next one. *)
Inductive request : Type :=
| Construct
| GetInstance
| GetCollection (self : nat).

Definition serve (r : request) : K (option nat) :=
  match r with
  | Construct => construct >>= fun self => kret (Some self)
  | GetInstance => get_instance >>= fun self => kret (Some self)
  | GetCollection self => get_collection self >> kret None
  end.

Fixpoint run (rs : list request) (s : state) : list (option nat + failure) * state :=
  match rs with
  | [] => ([], s)
  | r :: rs' => let (o, s') := serve r s in
                let (os, s'') := run rs' s' in
                (o :: os, s'')
  end.

End MilvusClient.

(** ** State and exceptions

    A computation reads and changes the [world] (the collection, and how many
    times the clock was read) and returns or raises; what it changed before
    raising stays changed. *)

Record world : Type := {
  coll : Milvus.collection;
  clock_reads : nat
}.

Definition M (A : Type) : Type := world -> result A * world.

Definition ret {A} (a : A) : M A := fun w => (Ok a, w).

Definition raise {A} (e : exn) : M A := fun w => (Raise e, w).

Definition bind {A B} (m : M A) (k : A -> M B) : M B :=
  fun w => match m w with
           | (Ok a, w') => k a w'
           | (Raise e, w') => (Raise e, w')
           end.

(** [try: m  except Exception: h]. *)
Definition try_except {A} (m : M A) (h : exn -> M A) : M A :=
  fun w => match m w with
           | (Ok a, w') => (Ok a, w')
           | (Raise e, w') => h e w'
           end.

Definition lift_result {A} (r : result A) : M A := fun w => (r, w).

(** A call to the collection. *)
Definition on_collection {A} (f : Milvus.collection -> result A * Milvus.collection) : M A :=
  fun w => let (r, c') := f (coll w) in
           (r, {| coll := c'; clock_reads := clock_reads w |}).

Declare Scope monad_scope.
Delimit Scope monad_scope with monad.
Notation "x <- m ;; k" := (bind m (fun x => k))
  (at level 61, m at next level, right associativity) : monad_scope.
Notation "m ;; k" := (bind m (fun _ => k))
  (at level 61, right associativity) : monad_scope.
Open Scope monad_scope.

(** Python slicing [l[start:stop]]: a negative index counts from the end, and
    both ends are clamped to the list. *)
Definition clamp_index (n i : Z) : Z :=
  Z.max 0 (Z.min n (if i <? 0 then i + n else i)).

Definition py_slice {A} (l : list A) (start stop : Z) : list A :=
  let n := Z.of_nat (List.length l) in
  let a := clamp_index n start in
  let b := clamp_index n stop in
  firstn (Z.to_nat (b - a)) (skipn (Z.to_nat a) l).

(** [sep.join(l)]. *)
Fixpoint join (sep : string) (l : list string) : string :=
  match l with
  | [] => ""
  | [x] => x
  | x :: l' => x ++ sep ++ join sep l'
  end.

Definition dq : string := String Milvus.dquote "".

(** ** [models.py] *)

Module Models.

(** Modelled from the spec: [CacheEntry] and [CacheSearchResult] of
    [models.py], which is not among the sources; plain records of the fields
    the constructors are given. *)
Record CacheEntry : Type := {
  query_id : string;
  query_text : string;
  query_vector : list float;
  result_vector : list float;
  email : string;
  result_text : string;
  references : pyval;
  pdf_names : pyval;
  cited_refs : pyval;
  pdf_info : pyval;
  created_at : string;
  last_accessed : string;
  hit_count : pyval;
  relevance_score : float;
  project_id : string;
  cache_management : pyval
}.

Record CacheSearchResult : Type := {
  found : bool;
  entry : option CacheEntry;
  similarity_score : option float
}.

Definition miss : CacheSearchResult :=
  {| found := false; entry := None; similarity_score := None |}.

End Models.

(** ** [vector_store.py] *)

Module VectorStore.

(** The dictionary built for a hit. *)
Record candidate : Type := {
  id : string;
  score : float;
  query_text : string;
  email : string;
  result_text : string;
  metadata : pyval;
  created_at : string;
  project_id : string
}.

Definition of_hit (h : Milvus.hit) : candidate :=
  let e := Milvus.entity h in
  {| id := Milvus.hit_id h;
     score := Milvus.score h;
     query_text := Milvus.query_text e;
     email := Milvus.email e;
     result_text := Milvus.result_text e;
     metadata := Milvus.metadata e;
     created_at := Milvus.created_at e;
     project_id := Milvus.project_id e |}.

(** A row as [query] returns it with the output fields the listing asks for;
    [result_vector] is the key [get_cache_entries] adds. *)
Record listed : Type := {
  l_id : string;
  l_query_text : string;
  l_email : string;
  l_result_text : string;
  l_metadata : pyval;
  l_created_at : string;
  l_project_id : string;
  l_result_vector : option (list float)
}.

Definition of_row (r : Milvus.row) : listed :=
  {| l_id := Milvus.id r;
     l_query_text := Milvus.query_text r;
     l_email := Milvus.email r;
     l_result_text := Milvus.result_text r;
     l_metadata := Milvus.metadata r;
     l_created_at := Milvus.created_at r;
     l_project_id := Milvus.project_id r;
     l_result_vector := None |}.

Definition search_similar (query_vector : list float) (top_k : Z) (field : string)
  (expr : option string) : M (list candidate) :=
  try_except
    (results <- on_collection (fun c => Milvus.search c query_vector field top_k expr) ;;
     ret (map of_hit results))
    (fun _ => ret []).

(** The arguments of a call by keyword. *)
Inductive arg : Type :=
| AVector (v : list float)
| AInt (z : Z)
| AStr (s : string)
| ANone.

Fixpoint keyword (name : string) (kwargs : list (string * arg)) : option arg :=
  match kwargs with
  | [] => None
  | (k, a) :: rest => if String.eqb k name then Some a else keyword name rest
  end.

Definition search_similar_parameters : list string :=
  ["query_vector"; "top_k"; "field"; "expr"].

(** The call [search_similar(k1=a1, ...)]: the keywords are bound to the
    parameters of [def search_similar(self, query_vector, top_k=5,
    field="query_vector", expr=None)] before the body runs; a keyword that
    names no parameter, or no value for [query_vector], is a [TypeError] of
    the call itself.  An argument of another type than the store accepts
    makes the search raise inside the body, whose handler returns []. *)
Definition call_search_similar (kwargs : list (string * arg)) : M (list candidate) :=
  if forallb (fun kw => existsb (String.eqb (fst kw)) search_similar_parameters) kwargs
  then match keyword "query_vector" kwargs with
       | None => raise TypeError
       | Some qv =>
         let top_k := match keyword "top_k" kwargs with Some a => a | None => AInt 5 end in
         let field := match keyword "field" kwargs with Some a => a | None => AStr "query_vector" end in
         let expr := match keyword "expr" kwargs with Some a => a | None => ANone end in
         match qv, top_k, field, expr with
         | AVector v, AInt k, AStr f, ANone => search_similar v k f None
         | AVector v, AInt k, AStr f, AStr e => search_similar v k f (Some e)
         | _, _, _, _ => ret []
         end
       end
  else raise TypeError.

Definition keyword_condition (keyword : string) : string :=
  "(query_text like " ++ dq ++ "%" ++ keyword ++ "%" ++ dq
  ++ " or result_text like " ++ dq ++ "%" ++ keyword ++ "%" ++ dq ++ ")".

(** The filter [hybrid_search] hands to the index. *)
Definition final_expr (expr : option string) (keywords : list string) : option string :=
  let keyword_conditions := map keyword_condition keywords in
  match keyword_conditions with
  | _ :: _ =>
    let keyword_expr := join " or " keyword_conditions in
    match expr with
    | Some e => if String.eqb e "" then Some keyword_expr
                else Some ("(" ++ keyword_expr ++ ") and (" ++ e ++ ")")
    | None => Some keyword_expr
    end
  | [] => expr
  end.

(** The hits that pass the distance threshold, in the order of the index. *)
Definition filtered_results (hits : list Milvus.hit) : list candidate :=
  map of_hit (filter (fun h => PrimFloat.ltb (Milvus.score h) 1.5%float) hits).

Definition hybrid_search (query_text : string) (query_vector : list float) (top_k : Z)
  (expr : option string) (keywords : list string) : M (list candidate) :=
  try_except
    (on_collection Milvus.load ;;
     results <- on_collection (fun c =>
                  Milvus.search c query_vector "result_vector" top_k (final_expr expr keywords)) ;;
     ret (py_slice (filtered_results results) 0 top_k))
    (fun _ => ret []).

(** The row [insert_entry] makes of an entry: its columns, with the
    [metadata] dictionary the function prepares. *)
Definition entry_row (entry : Models.CacheEntry) : Milvus.row :=
  let metadata :=
    PyDict [("references", Models.references entry);
            ("pdf_names", Models.pdf_names entry);
            ("cited_refs", Models.cited_refs entry);
            ("pdf_info", Models.pdf_info entry);
            ("hit_count", Models.hit_count entry);
            ("relevance_score", PyFloat (Models.relevance_score entry));
            ("cache_management", Models.cache_management entry)] in
  {| Milvus.id := Models.query_id entry;
     Milvus.query_vector := Models.query_vector entry;
     Milvus.query_text := Models.query_text entry;
     Milvus.result_vector := Models.result_vector entry;
     Milvus.result_text := Models.result_text entry;
     Milvus.email := Models.email entry;
     Milvus.metadata := metadata;
     Milvus.created_at := Models.created_at entry;
     Milvus.project_id := Models.project_id entry |}.

(** [insert_entry]: the entry becomes one row; any failure, also of the
    checks after the insertion, is raised again. *)
Definition insert_entry (entry : Models.CacheEntry) : M bool :=
  on_collection Milvus.load ;;
  on_collection Milvus.num_entities ;;
  let data := entry_row entry in
  on_collection (fun c => Milvus.insert c data) ;;
  on_collection Milvus.flush ;;
  on_collection Milvus.num_entities ;;
  on_collection (fun c =>
    Milvus.query c ("id == " ++ dq ++ Models.query_id entry ++ dq) (Some 1) 0 false) ;;
  on_collection (fun c => Milvus.query c "" (Some 5) 0 false) ;;
  ret true.

(** [get_collection]: a failing load is logged and passed over. *)
Definition get_collection : M unit :=
  try_except
    (on_collection Milvus.load ;; on_collection Milvus.num_entities ;; ret tt)
    (fun _ => ret tt).

Definition get_all_entries (limit offset : Z) : M (list listed) :=
  try_except
    (on_collection Milvus.load ;;
     count <- on_collection Milvus.num_entities ;;
     if count =? 0 then ret []
     else
       results <- on_collection (fun c => Milvus.query c "" (Some limit) offset true) ;;
       ret (map of_row results))
    (fun _ => ret []).

Definition like_expr (field keyword : string) : string :=
  field ++ " like " ++ dq ++ "%" ++ keyword ++ "%" ++ dq.

Definition keyword_search (keyword field : string) (limit : Z) : M (list listed) :=
  try_except
    (on_collection Milvus.load ;;
     let expr := like_expr field keyword in
     results <- on_collection (fun c => Milvus.query c expr (Some limit) 0 false) ;;
     ret (map of_row results))
    (fun _ => ret []).

Definition get_entry_count : M Z :=
  try_except (on_collection Milvus.num_entities) (fun _ => ret 0).

Definition check_entry_exists (query_id : string) : M bool :=
  try_except
    (result <- on_collection (fun c =>
                 Milvus.query c ("id == " ++ dq ++ query_id ++ dq) (Some 1) 0 false) ;;
     ret (0 <? Z.of_nat (List.length result)))
    (fun _ => ret false).

(** [drop_collection]: its calls go to [utility], the server of
    [milvus_client.py]. *)
Definition drop_collection (collection_name : string) : MilvusClient.K bool :=
  MilvusClient.except
    (MilvusClient.kbind (MilvusClient.has_collection collection_name) (fun there =>
     if there
     then MilvusClient.kbind (MilvusClient.utility_drop_collection collection_name)
            (fun _ => MilvusClient.kret true)
     else MilvusClient.kret false))
    (fun e => MilvusClient.kraise e).

End VectorStore.

(** ** [cache_manager.py] *)

Module CacheManager.

Section WithRuntime.
Variable rt : Runtime.

(** [datetime.now()]. *)
Definition now : M string :=
  fun w => (Ok (clock rt (clock_reads w)),
            {| coll := coll w; clock_reads := S (clock_reads w) |}).

(** [v.get(key, default)]: only a dictionary has the method. *)
Definition py_get (v : pyval) (key : string) (default : pyval) : result pyval :=
  match v with
  | PyDict d => Ok match dict_get d key with
                   | Some x => x
                   | None => default
                   end
  | _ => Raise AttributeError
  end.

(** [v + 1]. *)
Definition py_add_one (v : pyval) : result pyval :=
  match v with
  | PyInt z => Ok (PyInt (z + 1))
  | PyBool b => Ok (PyInt ((if b then 1 else 0) + 1))
  | PyFloat f => Ok (PyFloat (f + 1)%float)
  | _ => Raise TypeError
  end.

Definition _generate_query_id (query_text email project_id : string) : M string :=
  t <- now ;;
  let combined := query_text ++ ":" ++ email ++ ":" ++ project_id ++ ":" ++ t in
  ret (sha256_hexdigest rt combined).

Definition zero_vector : list float := repeat 0%float 768.

Definition _generate_embedding (text : string) : M (list float) :=
  match embed_query rt text with
  | Some embedding => ret embedding
  | None => ret zero_vector
  end.

Definition id_expr (entry_id : string) : string := "id == " ++ dq ++ entry_id ++ dq.

(** The metadata [increment_hit_count] writes back, from the metadata it
    read. *)
Definition incremented (stored : pyval) : result pyval :=
  let metadata := match stored with
                  | PyDict d => d
                  | _ => []
                  end in
  let current_hits := match dict_get metadata "hit_count" with
                      | Some v => v
                      | None => PyInt 0
                      end in
  try! new_hits <- py_add_one current_hits;
  Ok (PyDict (dict_set metadata "hit_count" new_hits)).

Definition increment_hit_count (entry_id : string) : M bool :=
  try_except
    (VectorStore.get_collection ;;
     on_collection Milvus.load ;;
     result <- on_collection (fun c => Milvus.query c (id_expr entry_id) None 0 false) ;;
     match result with
     | [] => ret false
     | first :: _ =>
       metadata <- lift_result (incremented (Milvus.metadata first)) ;;
       on_collection (fun c => Milvus.update c (id_expr entry_id) metadata) ;;
       ret true
     end)
    (fun _ => ret false).

(** The scope filter of a lookup. *)
Definition scope_expr (email project_id : string) : string :=
  "email == " ++ dq ++ email ++ dq ++ " && project_id == " ++ dq ++ project_id ++ dq.

(** The [try] block of [search_cache]. *)
Definition search_cache_body (query_text : string) (query_vector : list float)
  (email project_id : string) (cache_management : pyval) : M Models.CacheSearchResult :=
    (result_vector <- _generate_embedding query_text ;;
     let expr := scope_expr email project_id in
     results <- VectorStore.search_similar query_vector 5 "query_vector" (Some expr) ;;
     match results with
     | [] => ret Models.miss
     | best_match :: _ =>
       let similarity_score := VectorStore.score best_match in
       if PrimFloat.ltb similarity_score 0.7%float then ret Models.miss
       else
         increment_hit_count (VectorStore.id best_match) ;;
         let metadata := VectorStore.metadata best_match in
         references <- lift_result (py_get metadata "references" (PyList [])) ;;
         pdf_names <- lift_result (py_get metadata "pdf_names" (PyList [])) ;;
         cited_refs <- lift_result (py_get metadata "cited_refs" (PyList [])) ;;
         pdf_info <- lift_result (py_get metadata "pdf_info" (PyDict [])) ;;
         created_at <- lift_result
           match fromisoformat rt (VectorStore.created_at best_match) with
           | Some d => Ok d
           | None => Raise ValueError
           end ;;
         last_accessed <- now ;;
         hit_count <- lift_result
           (try! h <- py_get metadata "hit_count" (PyInt 0); py_add_one h) ;;
         ret {| Models.found := true;
                Models.entry := Some
                  {| Models.query_id := VectorStore.id best_match;
                     Models.query_text := VectorStore.query_text best_match;
                     Models.query_vector := query_vector;
                     Models.result_vector := result_vector;
                     Models.email := VectorStore.email best_match;
                     Models.result_text := VectorStore.result_text best_match;
                     Models.references := references;
                     Models.pdf_names := pdf_names;
                     Models.cited_refs := cited_refs;
                     Models.pdf_info := pdf_info;
                     Models.created_at := created_at;
                     Models.last_accessed := last_accessed;
                     Models.hit_count := hit_count;
                     Models.relevance_score := similarity_score;
                     Models.project_id := VectorStore.project_id best_match;
                     Models.cache_management := cache_management |};
                Models.similarity_score := Some similarity_score |}
     end).

Definition search_cache (query_text : string) (query_vector : list float)
  (email project_id : string) (cache_management : pyval) : M Models.CacheSearchResult :=
  try_except
    (search_cache_body query_text query_vector email project_id cache_management)
    (fun _ => ret Models.miss).

(** [add_to_cache].  The lines that only write to the log are left out.
    The log line of the handler formats [references] and [pdf_info]: for a
    value that cannot be formatted (an integer of more than 4300 digits, a
    nesting beyond the recursion limit) the source raises anew there, and
    for every other input its handler returns [False], as here. *)
Definition add_to_cache (query_text : string) (query_vector result_vector : list float)
  (email result_text : string) (references pdf_names cited_refs pdf_info : pyval)
  (project_id : string) (cache_management : pyval) : M bool :=
  try_except
    (processed_references <- lift_result (processed_references rt references) ;;
     let processed_pdf_info := processed_pdf_info rt pdf_info in
     processed_cited_refs <- lift_result (processed_cited_refs rt cited_refs) ;;
     query_id <- _generate_query_id query_text email project_id ;;
     created_at <- now ;;
     last_accessed <- now ;;
     let entry :=
       {| Models.query_id := query_id;
          Models.query_text := query_text;
          Models.query_vector := query_vector;
          Models.result_vector := result_vector;
          Models.email := email;
          Models.result_text := result_text;
          Models.references := PyList processed_references;
          Models.pdf_names := if truthy pdf_names then pdf_names else PyList [];
          Models.cited_refs := PyList processed_cited_refs;
          Models.pdf_info := processed_pdf_info;
          Models.created_at := created_at;
          Models.last_accessed := last_accessed;
          Models.hit_count := PyInt 1;
          Models.relevance_score := 1%float;
          Models.project_id := project_id;
          Models.cache_management := cache_management |} in
     VectorStore.insert_entry entry ;;
     ret true)
    (fun _ => ret false).

(** [search_by_result] calls [search_similar] with the keywords
    [result_vector], [top_k] and [field]. *)
Definition search_by_result (result_text : string) (top_k : Z) : M (list VectorStore.candidate) :=
  try_except
    (result_vector <- _generate_embedding result_text ;;
     VectorStore.call_search_similar
       [("result_vector", VectorStore.AVector result_vector);
        ("top_k", VectorStore.AInt top_k);
        ("field", VectorStore.AStr "result_vector")])
    (fun _ => ret []).

(** The loop of [get_cache_entries] that gives each entry of the page a
    [result_vector]. *)
Fixpoint with_result_vectors (page_entries : list VectorStore.listed) : M (list VectorStore.listed) :=
  match page_entries with
  | [] => ret []
  | e :: rest =>
    e' <- match VectorStore.l_result_vector e with
          | None =>
            v <- _generate_embedding (VectorStore.l_result_text e) ;;
            ret {| VectorStore.l_id := VectorStore.l_id e;
                   VectorStore.l_query_text := VectorStore.l_query_text e;
                   VectorStore.l_email := VectorStore.l_email e;
                   VectorStore.l_result_text := VectorStore.l_result_text e;
                   VectorStore.l_metadata := VectorStore.l_metadata e;
                   VectorStore.l_created_at := VectorStore.l_created_at e;
                   VectorStore.l_project_id := VectorStore.l_project_id e;
                   VectorStore.l_result_vector := Some v |}
          | Some _ => ret e
          end ;;
    rest' <- with_result_vectors rest ;;
    ret (e' :: rest')
  end.

(** [get_cache_entries], of a manager whose [page_size] is given. *)
Definition get_cache_entries (page_size page : Z) : M (list VectorStore.listed * Z) :=
  try_except
    (all_entries <- VectorStore.get_all_entries 100 0 ;;
     let total_count := Z.of_nat (List.length all_entries) in
     if total_count =? 0 then ret ([], 0)
     else
       let start_idx := (page - 1) * page_size in
       let end_idx := Z.min (start_idx + page_size) total_count in
       page_entries <- with_result_vectors (py_slice all_entries start_idx end_idx) ;;
       ret (page_entries, total_count))
    (fun _ => ret ([], 0)).

End WithRuntime.

(** [interactive_menu] of [manage_cache.py]:
    [total_pages = math.ceil(total_count / cache_manager.page_size)]. *)
Definition total_pages (total_count page_size : Z) : result Z :=
  try! quotient <- py_true_div total_count page_size;
  Ok (math_ceil quotient).

End CacheManager.

(** ** [manage_cache.py] *)

(** [text[start:stop]] on a string. *)
Definition str_slice (text : string) (start stop : Z) : string :=
  string_of_list_ascii (py_slice (list_ascii_of_string text) start stop).

Module ManageCache.

(** [self.page_size] as [__init__] sets it. *)
Definition default_page_size : Z := 20.

Definition truncate_text (text : string) (max_length : Z) : string :=
  if String.eqb text "" then ""
  else if max_length <? Z.of_nat (String.length text)
       then str_slice text 0 (max_length - 3) ++ "..."
       else text.

Section WithJson.
(** [json.loads], [None] when it raises [JSONDecodeError]. *)
Variable json_loads : string -> option pyval.

(** The metadata of a listed row: a text is parsed as JSON, and read as the
    empty mapping when it does not parse. *)
Definition parsed_metadata (metadata : pyval) : pyval :=
  match metadata with
  | PyStr text =>
    match json_loads text with
    | Some v => v
    | None => PyDict []
    end
  | _ => metadata
  end.

Definition processed (r : Milvus.row) : VectorStore.listed :=
  {| VectorStore.l_id := Milvus.id r;
     VectorStore.l_query_text := Milvus.query_text r;
     VectorStore.l_email := Milvus.email r;
     VectorStore.l_result_text := Milvus.result_text r;
     VectorStore.l_metadata := parsed_metadata (Milvus.metadata r);
     VectorStore.l_created_at := Milvus.created_at r;
     VectorStore.l_project_id := Milvus.project_id r;
     VectorStore.l_result_vector := None |}.

(** [get_cache_entries] of the console's manager, whose [page_size] is
    given. *)
Definition get_cache_entries (page_size page : Z) : M (list VectorStore.listed * Z) :=
  try_except
    (total_count <- on_collection Milvus.num_entities ;;
     if total_count =? 0 then ret ([], 0)
     else
       let offset := (page - 1) * page_size in
       results <- on_collection (fun c => Milvus.query c "" (Some 100) 0 false) ;;
       let start_idx := offset in
       let end_idx := Z.min (offset + page_size) (Z.of_nat (List.length results)) in
       let page_entries := py_slice results start_idx end_idx in
       ret (map processed page_entries, total_count))
    (fun _ => ret ([], 0)).

End WithJson.

Definition delete_entry (entry_id : string) : M bool :=
  try_except
    (on_collection Milvus.load ;;
     let expr := "id == " ++ dq ++ entry_id ++ dq in
     on_collection (fun c => Milvus.delete c expr) ;;
     ret true)
    (fun _ => ret false).

(** An entry of [search_entries]. *)
Record search_entry : Type := {
  s_id : string;
  s_query_text : string;
  s_email : string;
  s_created_at : string;
  s_project_id : string;
  s_hit_count : pyval;
  s_result_text : string
}.

(** [t[:100] + "..." if len(t) > 100 else t]. *)
Definition shortened (t : string) : string :=
  if 100 <? Z.of_nat (String.length t) then str_slice t 0 100 ++ "..." else t.

Definition search_expr (query : string) : string :=
  "query_text like " ++ dq ++ "%" ++ query ++ "%" ++ dq
  ++ " or result_text like " ++ dq ++ "%" ++ query ++ "%" ++ dq.

Fixpoint search_entries_of (results : list Milvus.row) : result (list search_entry) :=
  match results with
  | [] => Ok []
  | r :: rest =>
    try! hits <- CacheManager.py_get (Milvus.metadata r) "hit_count" (PyInt 0);
    try! entries <- search_entries_of rest;
    Ok ({| s_id := Milvus.id r;
           s_query_text := shortened (Milvus.query_text r);
           s_email := Milvus.email r;
           s_created_at := Milvus.created_at r;
           s_project_id := Milvus.project_id r;
           s_hit_count := hits;
           s_result_text := shortened (Milvus.result_text r) |} :: entries)
  end.

Definition search_entries (page_size : Z) (query : string) : M (list search_entry) :=
  try_except
    (on_collection Milvus.load ;;
     let expr := search_expr query in
     results <- on_collection (fun c => Milvus.query c expr (Some page_size) 0 true) ;;
     lift_result (search_entries_of results))
    (fun _ => ret []).

(** *** [display_statistics] *)

(** What the console shows. *)
Inductive panel : Type :=
| CacheStatistics (rows : list (string * string))
| RecentActivity (rows : list (string * string * string * string))
| TopProjects (rows : list (string * string))
| ErrorPanel.

(** Why the body of [display_statistics] stops: a call to the store raised,
    or a local variable is read before any assignment to it. *)
Inductive stop : Type :=
| StoreError (e : exn)
| UnboundLocalError.

Record screen : Type := {
  store : world;
  printed : list panel
}.

Definition P (A : Type) : Type := screen -> (A + stop) * screen.

Definition pret {A} (a : A) : P A := fun s => (inl a, s).

Definition pbind {A B} (m : P A) (k : A -> P B) : P B :=
  fun s => match m s with
           | (inl a, s') => k a s'
           | (inr e, s') => (inr e, s')
           end.

(** [try: m  except Exception as e: h e]. *)
Definition handle {A} (m : P A) (h : stop -> P A) : P A :=
  fun s => match m s with
           | (inl a, s') => (inl a, s')
           | (inr e, s') => h e s'
           end.

Notation "m >>= k" := (pbind m k) (at level 50, left associativity).
Notation "m >> k" := (pbind m (fun _ => k)) (at level 50, left associativity).

(** [console.print(Panel(...))]. *)
Definition print (p : panel) : P unit :=
  fun s => (inl tt, {| store := store s; printed := (printed s ++ [p])%list |}).

(** A call to the store. *)
Definition ask {A} (m : M A) : P A :=
  fun s => match m (store s) with
           | (Ok a, w) => (inl a, {| store := w; printed := printed s |})
           | (Raise e, w) => (inr (StoreError e), {| store := w; printed := printed s |})
           end.

(** The value of a local variable. *)
Definition bound {A} (v : option A) : P A :=
  fun s => match v with
           | Some a => (inl a, s)
           | None => (inr UnboundLocalError, s)
           end.

(** [d.get(k, default)] and [d[k] = n] on a dictionary of counts, the keys in
    the order of their insertion. *)
Fixpoint count_get (d : list (string * Z)) (k : string) (default : Z) : Z :=
  match d with
  | [] => default
  | (k', n) :: d' => if String.eqb k' k then n else count_get d' k default
  end.

Fixpoint count_set (d : list (string * Z)) (k : string) (n : Z) : list (string * Z) :=
  match d with
  | [] => [(k, n)]
  | (k', n') :: d' => if String.eqb k' k then (k', n) :: d' else (k', n') :: count_set d' k n
  end.

(** [s.add(x)] on a set of texts. *)
Definition set_add (s : list string) (x : string) : list string :=
  if existsb (String.eqb x) s then s else (s ++ [x])%list.

(** The loop over [project_stats]. *)
Definition tallied (project_stats : list Milvus.row) : list (string * Z) * list string :=
  fold_left
    (fun (acc : list (string * Z) * list string) (entry : Milvus.row) =>
       let (project_count, user_count) := acc in
       (count_set project_count (Milvus.project_id entry)
          (count_get project_count (Milvus.project_id entry) 0 + 1),
        set_add user_count (Milvus.email entry)))
    project_stats ([], []).

(** [sorted(items, key=lambda x: x[1], reverse=True)]: highest count first,
    items of equal count in the order they had. *)
Fixpoint insert_by_count (x : string * Z) (l : list (string * Z)) : list (string * Z) :=
  match l with
  | [] => [x]
  | y :: l' => if snd y <=? snd x then x :: y :: l' else y :: insert_by_count x l'
  end.

Definition sorted_by_count (items : list (string * Z)) : list (string * Z) :=
  fold_right insert_by_count [] items.

Definition recent_row (entry : Milvus.row) : string * string * string * string :=
  (Milvus.created_at entry, Milvus.email entry, Milvus.project_id entry,
   if String.eqb (Milvus.query_text entry) "" then ""
   else str_slice (Milvus.query_text entry) 0 40 ++ "...").

Definition project_row (item : string * Z) : string * string :=
  (fst item, str_of_int (snd item)).

(** [display_statistics(cache_manager)], for the [collection_name] of the
    manager and the [dim] of its client. *)
Definition display_statistics (collection_name : string) (dim : Z) : P unit :=
  handle
    (ask (on_collection Milvus.num_entities) >>= fun total_count =>
     let stats := [("Total Entries", str_of_int total_count);
                   ("Collection Name", collection_name);
                   ("Vector Dimension", str_of_int dim)] in
     ask (on_collection (fun c => Milvus.query c "" (Some 10000) 0 false))
       >>= fun project_stats =>
     let tally := match project_stats with
                  | [] => None
                  | _ :: _ => Some (tallied project_stats)
                  end in
     let stats := match tally with
                  | Some (project_count, user_count) =>
                    (stats ++ [("Total Projects",
                                str_of_int (Z.of_nat (List.length project_count)));
                               ("Total Users",
                                str_of_int (Z.of_nat (List.length user_count)))])%list
                  | None => stats
                  end in
     print (CacheStatistics stats) >>
     ask (on_collection (fun c => Milvus.query c "" (Some 5) 0 true))
       >>= fun recent_entries =>
     match recent_entries with
     | [] => pret tt
     | _ :: _ => print (RecentActivity (map recent_row recent_entries))
     end >>
     bound (option_map fst tally) >>= fun project_count =>
     match project_count with
     | [] => pret tt
     | _ :: _ =>
       print (TopProjects (map project_row (firstn 5 (sorted_by_count project_count))))
     end)
    (fun _ => print ErrorPanel).

End ManageCache.

(** ** Vocabulary of the statements *)

(** [subseq l1 l2]: [l1] is [l2] with some elements left out, the others in
    their order. *)
Inductive subseq {A : Type} : list A -> list A -> Prop :=
| subseq_nil : subseq [] []
| subseq_skip : forall x l1 l2, subseq l1 l2 -> subseq l1 (x :: l2)
| subseq_keep : forall x l1 l2, subseq l1 l2 -> subseq (x :: l1) (x :: l2).

(** Hits in ascending distance: each one is at most as far as every later
    one. *)
Inductive ascending : list Milvus.hit -> Prop :=
| ascending_nil : ascending []
| ascending_cons : forall h l,
    Forall (fun h' => PrimFloat.leb (Milvus.score h) (Milvus.score h') = true) l ->
    ascending l -> ascending (h :: l).

(** What the index answered to the search of a [hybrid_search] call: its
    hits, or nothing when loading the collection or the search raised. *)
Definition index_answer (query_vector : list float) (top_k : Z) (expr : option string)
  (keywords : list string) (w : world) : list Milvus.hit :=
  match Milvus.load (coll w) with
  | (Ok _, c1) =>
    match Milvus.search c1 query_vector "result_vector" top_k
            (VectorStore.final_expr expr keywords) with
    | (Ok hits, _) => hits
    | (Raise _, _) => []
    end
  | (Raise _, _) => []
  end.

(** Python's [x >= y] on floats. *)
Definition geb (x y : float) : bool := PrimFloat.leb y x.

(** A text with no double quote and no backslash: inside a string literal of
    a filter expression it stands for itself. *)
Definition plain_char (c : ascii) : bool :=
  negb (Ascii.eqb c Milvus.dquote) && negb (Ascii.eqb c "\").

Fixpoint plain (s : string) : bool :=
  match s with
  | EmptyString => true
  | String c s' => plain_char c && plain s'
  end.

(** The rows of the scope of a lookup. *)
Definition in_scope (email project_id : string) (r : Milvus.row) : bool :=
  String.eqb (Milvus.email r) email && String.eqb (Milvus.project_id r) project_id.

Definition has_id (entry_id : string) (r : Milvus.row) : bool :=
  String.eqb (Milvus.id r) entry_id.

(** The entry [add_to_cache] hands to [insert_entry] stored as a row. *)
Definition stored_row (id : string) (v : list float) (email project_id : string)
  (metadata : pyval) : Milvus.row :=
  {| Milvus.id := id;
     Milvus.query_vector := v;
     Milvus.query_text := "q";
     Milvus.result_vector := v;
     Milvus.result_text := "r";
     Milvus.email := email;
     Milvus.metadata := metadata;
     Milvus.created_at := "2024-01-01T00:00:00";
     Milvus.project_id := project_id |}.

Definition fresh_metadata : pyval :=
  PyDict [("references", PyList []); ("pdf_names", PyList []); ("cited_refs", PyList []);
          ("pdf_info", PyDict []); ("hit_count", PyInt 1);
          ("relevance_score", PyFloat 1%float); ("cache_management", PyDict [])].

(** A vector of the schema's dimension that is [x] in its first coordinate
    and zero elsewhere. *)
Definition axis (x : float) : list float := x :: repeat 0%float 767.

Definition world_of (l : list Milvus.row) (faults : list bool) : world :=
  {| coll := {| Milvus.rows := l; Milvus.faults := faults |}; clock_reads := 0 |}.

(** A collection that answers and holds one entry, far from the origin. *)
Definition one_entry (email project_id : string) : world :=
  world_of [stored_row "e1" (axis 2) email project_id fresh_metadata] [].

(** A project id that closes the string literal of the scope filter and
    goes on with a clause of its own. *)
Definition injected_project : string := "p" ++ dq ++ " || project_id != " ++ dq.

(** A runtime for the examples: the embedding provider is down, the clock
    stands still, every timestamp parses, no text is a number, and the digest
    is a fixed one. *)
Definition example_runtime : Runtime :=
  {| repr_other := fun _ => "";
     float_of_str := fun _ => None;
     int_of_str := fun _ => None;
     fromisoformat := fun s => Some s;
     sha256_hexdigest := fun _ =>
       "e3b0c44298fc1c149afbf4c8996fb92427ae41e4649b934ca495991b7852b855";
     embed_query := fun _ => None;
     clock := fun _ => "2024-01-01T00:00:00" |}.

(** [keyword] occurs in [text]. *)
Definition occurs_in (keyword text : string) : Prop :=
  exists before after, text = before ++ keyword ++ after.

(** A text without the wildcard [%] of [like]. *)
Fixpoint no_wildcard (s : string) : bool :=
  match s with
  | EmptyString => true
  | String c s' => negb (Ascii.eqb c "%") && no_wildcard s'
  end.

(** The row [add_to_cache] stores when the clock has been read [reads] times
    before. *)
Definition added_row (rt : Runtime) (reads : nat) (query_text : string)
  (query_vector result_vector : list float) (email result_text : string)
  (references pdf_names cited_refs pdf_info : pyval) (project_id : string)
  (cache_management : pyval) : Milvus.row :=
  {| Milvus.id := sha256_hexdigest rt
                    (query_text ++ ":" ++ email ++ ":" ++ project_id ++ ":" ++ clock rt reads);
     Milvus.query_vector := query_vector;
     Milvus.query_text := query_text;
     Milvus.result_vector := result_vector;
     Milvus.result_text := result_text;
     Milvus.email := email;
     Milvus.metadata :=
       PyDict [("references", references);
               ("pdf_names", if truthy pdf_names then pdf_names else PyList []);
               ("cited_refs", cited_refs);
               ("pdf_info", pdf_info);
               ("hit_count", PyInt 1);
               ("relevance_score", PyFloat 1%float);
               ("cache_management", cache_management)];
     Milvus.created_at := clock rt (S reads);
     Milvus.project_id := project_id |}.

(** An entry as [add_to_cache] builds them. *)
Definition example_entry : Models.CacheEntry :=
  {| Models.query_id := "e2";
     Models.query_text := "q";
     Models.query_vector := axis 1;
     Models.result_vector := axis 1;
     Models.email := "alice";
     Models.result_text := "r";
     Models.references := PyList [];
     Models.pdf_names := PyList [];
     Models.cited_refs := PyList [];
     Models.pdf_info := PyDict [];
     Models.created_at := "2024-01-02T00:00:00";
     Models.last_accessed := "2024-01-02T00:00:00";
     Models.hit_count := PyInt 1;
     Models.relevance_score := 1%float;
     Models.project_id := "p";
     Models.cache_management := PyDict [] |}.

(** A listed entry with the [result_vector] that [get_cache_entries] gives
    it: the embedding of its result text, or the zero vector when the
    provider fails. *)
Definition with_vector (rt : Runtime) (e : VectorStore.listed) : VectorStore.listed :=
  match VectorStore.l_result_vector e with
  | Some _ => e
  | None =>
    {| VectorStore.l_id := VectorStore.l_id e;
       VectorStore.l_query_text := VectorStore.l_query_text e;
       VectorStore.l_email := VectorStore.l_email e;
       VectorStore.l_result_text := VectorStore.l_result_text e;
       VectorStore.l_metadata := VectorStore.l_metadata e;
       VectorStore.l_created_at := VectorStore.l_created_at e;
       VectorStore.l_project_id := VectorStore.l_project_id e;
       VectorStore.l_result_vector :=
         Some match embed_query rt (VectorStore.l_result_text e) with
              | Some v => v
              | None => CacheManager.zero_vector
              end |}
  end.

(** The entries of page [page] (counted from 1) of a listing. *)
Definition page_window {A} (page_size page : Z) (listing : list A) : list A :=
  firstn (Z.to_nat page_size) (skipn (Z.to_nat ((page - 1) * page_size)) listing).

(** The filter of one keyword of a hybrid search, and of one keyword or
    more. *)
Definition keyword_filter (keyword : string) : Milvus.filter :=
  Milvus.FOr (Milvus.FCmp "query_text" Milvus.CLike ("%" ++ keyword ++ "%"))
             (Milvus.FCmp "result_text" Milvus.CLike ("%" ++ keyword ++ "%")).

Fixpoint any_keyword (keyword : string) (more : list string) : Milvus.filter :=
  match more with
  | [] => keyword_filter keyword
  | k :: ks => Milvus.FOr (keyword_filter keyword) (any_keyword k ks)
  end.

Definition condition_tokens (keyword : string) : list Milvus.token :=
  [Milvus.TLParen; Milvus.TIdent "query_text"; Milvus.TOp Milvus.CLike;
   Milvus.TString ("%" ++ keyword ++ "%"); Milvus.TOr;
   Milvus.TIdent "result_text"; Milvus.TOp Milvus.CLike;
   Milvus.TString ("%" ++ keyword ++ "%"); Milvus.TRParen].

Fixpoint chain_tokens (keyword : string) (more : list string) : list Milvus.token :=
  match more with
  | [] => condition_tokens keyword
  | k :: ks => (condition_tokens keyword ++ Milvus.TOr :: chain_tokens k ks)%list
  end.

(** One of the keywords occurs in the query text or in the result text of
    the row. *)
Definition mentions (keywords : list string) (r : Milvus.row) : Prop :=
  exists k, In k keywords
            /\ (occurs_in k (Milvus.query_text r) \/ occurs_in k (Milvus.result_text r)).

Definition like_either (r : Milvus.row) (keyword : string) : bool :=
  Milvus.like ("%" ++ keyword ++ "%") (Milvus.query_text r)
  || Milvus.like ("%" ++ keyword ++ "%") (Milvus.result_text r).

(** The rows with their metadata blanked: what is left to compare when only
    the metadata may differ. *)
Definition without_metadata (l : list Milvus.row) : list Milvus.row :=
  map (Milvus.set_metadata PyNone) l.

(** The class attributes and the heap: what the calls to the server leave
    alone. *)
Definition class_of (s : MilvusClient.state)
  : option nat * bool * list (option MilvusClient.attributes) :=
  (MilvusClient._instance s, MilvusClient._initialized s, MilvusClient.heap s).

Definition keeps_class {A} (m : MilvusClient.K A) : Prop :=
  forall s, class_of (snd (m s)) = class_of s.

(** The states of the class a program can reach: no object yet, or the one
    object with its attributes. *)
Definition alive (s : MilvusClient.state) : Prop :=
  MilvusClient.heap s = [Some MilvusClient.defaults]
  /\ MilvusClient._instance s = Some 0%nat.

Definition settled (s : MilvusClient.state) : Prop :=
  (MilvusClient.heap s = [] /\ MilvusClient._instance s = None
   /\ MilvusClient._initialized s = false)
  \/ alive s.

(** A server on which nothing exists yet. *)
Definition empty_server (faults : list bool) : MilvusClient.server :=
  {| MilvusClient.connected := false; MilvusClient.collections := [];
     MilvusClient.indexes := []; MilvusClient.loaded := [];
     MilvusClient.cuda := false; MilvusClient.faults := faults |}.

(** How often a text occurs in a list, and how many different texts a list
    has. *)
Definition occurrences (p : string) (l : list string) : Z :=
  Z.of_nat (List.length (filter (String.eqb p) l)).

Definition distinct (l : list string) : Z :=
  Z.of_nat (List.length (nodup string_dec l)).

(** Counts from the highest down. *)
Fixpoint descending (l : list (string * Z)) : Prop :=
  match l with
  | [] => True
  | a :: l' => Forall (fun b => snd b <= snd a) l' /\ descending l'
  end.

(** The value a key has last in a list of bindings, and in a list of
    mappings of which the later ones count; an element that is no mapping
    has no say. *)
Fixpoint last_binding (k : string) (d : list (string * pyval)) : option pyval :=
  match d with
  | [] => None
  | (k', v) :: d' =>
    match last_binding k d' with
    | Some v' => Some v'
    | None => if String.eqb k' k then Some v else None
    end
  end.

Fixpoint last_value (k : string) (items : list pyval) : option pyval :=
  match items with
  | [] => None
  | item :: rest =>
    match last_value k rest with
    | Some v => Some v
    | None => match item with
              | PyDict d => last_binding k d
              | _ => None
              end
    end
  end.

(** * Properties *)

(** ** The input normaliser *)

(** A sequence of one to four (or more) elements, field by field. *)
Lemma reference_of_sequence_cons rt s rest sc pg :
  (if truthy s then py_float rt s else Ok 0%float) = Ok sc ->
  match nth_error rest 2 with
  | Some p => if truthy p then try! z <- py_int rt p; Ok (PyInt z) else Ok PyNone
  | None => Ok PyNone
  end = Ok pg ->
  reference_of_sequence rt (s :: rest) =
  Ok (PyDict [("text", PyStr match nth_error rest 0 with
                             | Some t => py_str rt t
                             | None => ""
                             end);
              ("score", PyFloat sc);
              ("file_name", match nth_error rest 1 with
                            | Some f => PyStr (py_str rt f)
                            | None => PyNone
                            end);
              ("page", pg)]).
Proof.
  intros Hs Hp. unfold reference_of_sequence, py_getitem, py_len.
  destruct rest as [|t [|f [|p more]]]; cbn [nth_error] in *.
  - cbn. rewrite Hs. cbn. now inversion Hp.
  - cbn. rewrite Hs. cbn. now inversion Hp.
  - cbn. rewrite Hs. cbn. now inversion Hp.
  - replace (3 <? Z.of_nat (List.length (s :: t :: f :: p :: more))) with true
      by (symmetry; apply Z.ltb_lt; cbn [List.length]; lia).
    replace (2 <? Z.of_nat (List.length (s :: t :: f :: p :: more))) with true
      by (symmetry; apply Z.ltb_lt; cbn [List.length]; lia).
    replace (1 <? Z.of_nat (List.length (s :: t :: f :: p :: more))) with true
      by (symmetry; apply Z.ltb_lt; cbn [List.length]; lia).
    cbn [nth_error rbind]. rewrite Hs. cbn [rbind]. rewrite Hp. reflexivity.
Qed.

(** C5, counterexample: for the one-element sequence [[0.9]] the code stores
    the empty string as [text], where the positional reading with defaults
    [0.0]/[None] gives [None]. *)
Lemma reference_missing_text_is_empty_string :
  (forall rt, process_reference rt (PyList [PyFloat 0.9%float]) =
              Ok (PyDict [("text", PyStr ""); ("score", PyFloat 0.9%float);
                          ("file_name", PyNone); ("page", PyNone)]))
  /\ (forall rt, reference_by_spec rt (PyList [PyFloat 0.9%float]) =
                 PyDict [("text", PyNone); ("score", PyFloat 0.9%float);
                         ("file_name", PyNone); ("page", PyNone)])
  /\ PyStr "" <> PyNone.
Proof.
  split; [|split]; try (intro rt; reflexivity). discriminate.
Qed.

(** C5, amended: a mapping passes through unchanged; a sequence with at
    least one element is read positionally as [score, text, file_name, page],
    the score being [float(first)] when the first element is truthy and [0.0]
    otherwise, the text [str(second)] or the empty string when missing, the
    file name [str(third)] or [None] when missing, the page [int(fourth)]
    when present and truthy and [None] otherwise; any other value is wrapped
    as [{text: str(value), score: 0.0, file_name: None, page: None}]; the two
    examples of the specification come out as it says. *)
Theorem reference_normalization_amended (rt : Runtime) :
  (forall d, process_reference rt (PyDict d) = Ok (PyDict d))
  /\ (forall ref s rest sc pg,
        is_sequence ref = Some (s :: rest) ->
        (if truthy s then py_float rt s else Ok 0%float) = Ok sc ->
        match nth_error rest 2 with
        | Some p => if truthy p then try! z <- py_int rt p; Ok (PyInt z) else Ok PyNone
        | None => Ok PyNone
        end = Ok pg ->
        process_reference rt ref =
        Ok (PyDict [("text", PyStr match nth_error rest 0 with
                                   | Some t => py_str rt t
                                   | None => ""
                                   end);
                    ("score", PyFloat sc);
                    ("file_name", match nth_error rest 1 with
                                  | Some f => PyStr (py_str rt f)
                                  | None => PyNone
                                  end);
                    ("page", pg)]))
  /\ (forall ref,
        is_sequence ref = None -> (forall d, ref <> PyDict d) ->
        process_reference rt ref =
        Ok (PyDict [("text", PyStr (py_str rt ref)); ("score", PyFloat 0%float);
                    ("file_name", PyNone); ("page", PyNone)]))
  /\ process_reference rt
       (PyList [PyFloat 0.9%float; PyStr "some text"; PyStr "file.pdf"; PyInt 3]) =
     Ok (PyDict [("text", PyStr "some text"); ("score", PyFloat 0.9%float);
                 ("file_name", PyStr "file.pdf"); ("page", PyInt 3)])
  /\ process_reference rt (PyStr "bare string") =
     Ok (PyDict [("text", PyStr "bare string"); ("score", PyFloat 0%float);
                 ("file_name", PyNone); ("page", PyNone)]).
Proof.
  repeat split; try reflexivity.
  - intros ref s rest sc pg Hseq Hs Hp.
    destruct ref; try discriminate; cbn in Hseq; inversion Hseq; subst;
      now apply reference_of_sequence_cons.
  - intros ref Hseq Hd.
    destruct ref; try reflexivity; try discriminate.
    now elim (Hd d).
Qed.

(** C4, at the failing input: a reference that is an empty list makes the
    normaliser raise [IndexError]; [add_to_cache] then answers [False] and
    stores nothing, in every state of the world. *)
Theorem normalizer_raises_on_empty_sequence (rt : Runtime) :
  processed_references rt (PyList [PyList []]) = Raise IndexError
  /\ raises (normalize_inputs rt (PyList [PyList []]) (PyList []) (PyDict [])) = true
  /\ forall w query_text query_vector result_vector email result_text
            pdf_names cited_refs pdf_info project_id cache_management,
       CacheManager.add_to_cache rt query_text query_vector result_vector email
         result_text (PyList [PyList []]) pdf_names cited_refs pdf_info project_id
         cache_management w = (Ok false, w).
Proof.
  repeat split.
Qed.

(** ** [search_by_result] *)

(** C10: whatever the text, [top_k] and the state of the world,
    [search_by_result] returns the empty list and leaves the world as it
    was: the keyword [result_vector] names no parameter of [search_similar],
    the call raises and the handler returns []. *)
Theorem search_by_result_returns_nothing (rt : Runtime) (result_text : string)
  (top_k : Z) (w : world) :
  CacheManager.search_by_result rt result_text top_k w = (Ok [], w).
Proof.
  unfold CacheManager.search_by_result, try_except, bind,
    CacheManager._generate_embedding.
  destruct (embed_query rt result_text); reflexivity.
Qed.

(** ** Listing and pagination *)

(** Rounding to the nearest integer moves by half a unit at most. *)
Lemma round_half_even_near n d :
  0 < d ->
  2 * n - d <= 2 * d * round_half_even n d <= 2 * n + d.
Proof.
  intro Hd. unfold round_half_even.
  pose proof (Z.div_mod n d ltac:(lia)) as Hdm.
  pose proof (Z.mod_pos_bound n d Hd) as Hb.
  destruct (Z.ltb_spec (2 * (n mod d)) d); [nia|].
  destruct (Z.ltb_spec d (2 * (n mod d))); [nia|].
  destruct (Z.even (n / d)); nia.
Qed.

(** For two integers below 2^53 the unit in the last place of the quotient
    is [2 ^ (- s)] with [b < 2 * 2 ^ s]: finer than half of [1 / b]. *)
Lemma ulp_exponent_of_small a b :
  0 < a < 2 ^ 53 -> 0 < b < 2 ^ 53 ->
  exists s, ulp_exponent a b = - s /\ 0 <= s /\ b < 2 * 2 ^ s.
Proof.
  intros Ha Hb. unfold ulp_exponent.
  pose proof (Z.log2_spec a ltac:(lia)) as Hla.
  pose proof (Z.log2_spec b ltac:(lia)) as Hlb.
  pose proof (Z.log2_nonneg a) as Hna. pose proof (Z.log2_nonneg b) as Hnb.
  assert (Hla53 : Z.log2 a < 53) by (apply Z.log2_lt_pow2; lia).
  assert (Hlb53 : Z.log2 b < 53) by (apply Z.log2_lt_pow2; lia).
  set (l := Z.log2 a - Z.log2 b).
  set (reaches := if 0 <=? l then _ else _).
  set (e := (if reaches then l else l - 1) - 52).
  assert (He : l - 53 <= e <= l - 52) by (subst e; destruct reaches; lia).
  exists (- Z.max (-1074) e). split; [lia|]. split; [lia|].
  replace (- Z.max (-1074) e) with (- e) by lia.
  assert (Hs : 52 - Z.log2 a + Z.log2 b <= - e) by lia.
  assert (Hpow : 2 ^ (52 - Z.log2 a + Z.log2 b) <= 2 ^ (- e))
    by (apply Z.pow_le_mono_r; lia).
  assert (Hsplit : 2 ^ (52 - Z.log2 a + Z.log2 b) = 2 ^ (52 - Z.log2 a) * 2 ^ Z.log2 b)
    by (rewrite <- Z.pow_add_r; [f_equal|..]; lia).
  assert (Hone : 1 <= 2 ^ (52 - Z.log2 a)) by (apply (Z.pow_le_mono_r 2 0); lia).
  replace (2 ^ Z.succ (Z.log2 b)) with (2 * 2 ^ Z.log2 b) in Hlb
    by (rewrite Z.pow_succ_r; lia).
  nia.
Qed.

Lemma Qceiling_make m s : Qceiling (Qmake m s) = - ((- m) / Z.pos s).
Proof. reflexivity. Qed.

(** For a count and a page size below 2^53 [total_pages] is the ceiling of
    the exact quotient: the least number of pages of [p] entries that hold
    [n] entries.  The float quotient is not the exact one, but it is on the
    same side of every integer. *)
Lemma total_pages_is_ceiling n p :
  0 <= n < 2 ^ 53 -> 0 < p < 2 ^ 53 ->
  exists k, CacheManager.total_pages n p = Ok k /\ (k - 1) * p < n <= k * p.
Proof.
  intros Hn Hp. unfold CacheManager.total_pages, py_true_div, math_ceil, rbind.
  destruct (Z.eqb_spec p 0) as [|_]; [lia|].
  destruct (Z.eqb_spec n 0) as [->|Hn0].
  { exists 0. split; [reflexivity | lia]. }
  rewrite (Z.abs_eq n), (Z.abs_eq p) by lia.
  destruct (Z.ltb_spec n 0); [lia|]. destruct (Z.ltb_spec p 0); [lia|]. cbn [Bool.eqb].
  unfold nearest_binary64.
  destruct (@ulp_exponent_of_small n p ltac:(lia) Hp) as (s & -> & Hs & Hps).
  set (S := 2 ^ s) in *.
  assert (HS : 0 < S) by (subst S; apply Z.pow_pos_nonneg; lia).
  pose proof (Z.div_mod n p ltac:(lia)) as Hdm.
  pose proof (Z.mod_pos_bound n p ltac:(lia)) as Hb.
  set (k := n / p) in *. set (r := n mod p) in *.
  destruct (Z.leb_spec 0 (- s)) as [Hs0|Hs0].
  - (* the unit in the last place is 1 *)
    assert (s = 0) by lia. subst s. change (- 0) with 0. change (2 ^ 0) with 1.
    rewrite Z.mul_1_r.
    assert (Hp1 : p = 1) by (subst S; change (2 ^ 0) with 1 in Hps; lia).
    subst p. unfold round_half_even. rewrite Z.div_1_r, Z.mod_1_r. cbn [Z.mul Z.ltb Z.compare].
    rewrite ?Z.mul_1_r. destruct (Z.leb_spec (2 ^ 1024) n) as [Hbig|_].
    { exfalso. assert (2 ^ 53 < 2 ^ 1024) by (apply Z.pow_lt_mono_r; lia). lia. }
    exists n. split; [|lia].
    now rewrite Qceiling_Z.
  - rewrite Z.opp_involutive. fold S.
    pose proof (@round_half_even_near (n * S) p ltac:(lia)) as Hnear.
    set (m := round_half_even (n * S) p) in *.
    rewrite Qceiling_make. rewrite Z2Pos.id by exact HS.
    destruct (Z.eq_dec r 0) as [Hr|Hr].
    + (* the quotient is an integer *)
      assert (Hm : m = k * S) by nia.
      exists k. split; [|nia]. f_equal. rewrite Hm.
      rewrite <- Z.mul_opp_l, Z.div_mul by lia. lia.
    + assert (Hlow : k * S < m) by nia.
      assert (Hhigh : m <= (k + 1) * S) by nia.
      exists (k + 1). split; [|nia]. f_equal.
      pose proof (Z.div_mod (- m) S ltac:(lia)) as Hdm'.
      pose proof (Z.mod_pos_bound (- m) S HS) as Hb'.
      nia.
Qed.

(** The quotient of the model is the quotient of the hardware: three
    quotients that are no binary fractions, as [PrimFloat] computes them and
    as [py_true_div] does. *)
Lemma py_true_div_as_binary64 :
  (Prim2SF (1 / 3)%float = S754_finite false 6004799503160661 (-54)
   /\ py_true_div 1 3 = Ok (Qmake 6004799503160661 (2 ^ 54)%positive))
  /\ (Prim2SF (1 / 10)%float = S754_finite false 7205759403792794 (-56)
      /\ py_true_div 1 10 = Ok (Qmake 7205759403792794 (2 ^ 56)%positive))
  /\ (Prim2SF (9007199254740991 / 7)%float = S754_finite false 5146971002709138 (-2)
      /\ py_true_div 9007199254740991 7 = Ok (Qmake 5146971002709138 (2 ^ 2)%positive)).
Proof. repeat split; vm_compute; reflexivity. Qed.

(** Where [total_pages] leaves the ceiling of the exact quotient: a count
    that is no float is rounded before the ceiling is taken, and a page size
    of zero raises. *)
Lemma total_pages_of_a_float_quotient :
  CacheManager.total_pages (2 ^ 53 + 1) 1 = Ok (2 ^ 53)
  /\ (forall n, CacheManager.total_pages n 0 = Raise ZeroDivisionError).
Proof. split; [vm_compute; reflexivity | reflexivity]. Qed.

Lemma insert_newest_length r l :
  List.length (Milvus.insert_newest r l) = S (List.length l).
Proof.
  induction l as [|x l IH]; cbn; [reflexivity|].
  destruct (String.leb _ _); cbn; [reflexivity | now rewrite IH].
Qed.

Lemma newest_first_length l :
  List.length (fold_right Milvus.insert_newest [] l) = List.length l.
Proof.
  induction l as [|x l IH]; cbn; [reflexivity|].
  now rewrite insert_newest_length, IH.
Qed.

(** The loop over the page never fails, leaves the world alone and returns
    as many entries as it was given. *)
Lemma with_result_vectors_ok rt l w :
  exists l', CacheManager.with_result_vectors rt l w = (Ok l', w)
             /\ List.length l' = List.length l.
Proof.
  induction l as [|e l IH]; cbn.
  - now exists [].
  - destruct IH as (l' & Hl' & Hlen).
    unfold bind, CacheManager._generate_embedding, ret.
    destruct (VectorStore.l_result_vector e); [|destruct (embed_query rt _)];
      rewrite Hl'; eexists; (split; [reflexivity | cbn; now rewrite Hlen]).
Qed.

Lemma py_slice_length {A} (l : list A) a b :
  0 <= a -> 0 <= b <= Z.of_nat (List.length l) ->
  Z.of_nat (List.length (py_slice l a b)) = Z.max 0 (b - Z.min (Z.of_nat (List.length l)) a).
Proof.
  intros Ha Hb. unfold py_slice, clamp_index.
  destruct (Z.ltb_spec a 0); [lia|]. destruct (Z.ltb_spec b 0); [lia|].
  rewrite length_firstn, length_skipn. lia.
Qed.

(** With a store that answers and holds at most the hundred rows
    [get_all_entries] asks for, page [page] of the listing holds the entries
    left after the earlier pages, at most [page_size] of them, and the count
    returned is the number of stored rows. *)
Lemma get_cache_entries_page rt w page_size page :
  Milvus.faults (coll w) = [] -> 0 < page_size -> 1 <= page ->
  Z.of_nat (List.length (Milvus.rows (coll w))) <= 100 ->
  exists entries,
    CacheManager.get_cache_entries rt page_size page w =
      (Ok (entries, Z.of_nat (List.length (Milvus.rows (coll w)))), w)
    /\ Z.of_nat (List.length entries) =
       Z.max 0 (Z.min page_size
                  (Z.of_nat (List.length (Milvus.rows (coll w))) - (page - 1) * page_size)).
Proof.
  destruct w as [[rows faults] reads]. cbn [coll Milvus.faults Milvus.rows].
  intros -> Hps Hpage Hn.
  destruct rows as [|r rows].
  - exists []. split; [reflexivity | cbn; nia].
  - set (all := r :: rows) in *.
    set (sorted := fold_right Milvus.insert_newest [] all).
    assert (Hsorted : List.length sorted = List.length all) by apply newest_first_length.
    set (listed := map VectorStore.of_row (firstn (Z.to_nat 100) (skipn (Z.to_nat 0) sorted))).
    assert (Hlisted : List.length listed = List.length all).
    { unfold listed. rewrite length_map, length_firstn. cbn [Z.to_nat skipn]. lia. }
    set (w0 := {| coll := {| Milvus.rows := all; Milvus.faults := [] |}; clock_reads := reads |}).
    assert (Hall : VectorStore.get_all_entries 100 0 w0 = (Ok listed, w0)) by reflexivity.
    destruct (with_result_vectors_ok rt
                (py_slice listed ((page - 1) * page_size)
                   (Z.min ((page - 1) * page_size + page_size) (Z.of_nat (List.length listed)))) w0)
      as (entries & Hent & Hlen).
    exists entries. split.
    + unfold CacheManager.get_cache_entries, try_except, bind. rewrite Hall.
      destruct (Z.eqb_spec (Z.of_nat (List.length listed)) 0) as [E|_].
      { rewrite Hlisted in E. unfold all in E. cbn [List.length] in E. lia. }
      rewrite Hent. unfold ret. now rewrite Hlisted.
    + rewrite Hlen, py_slice_length by nia. rewrite Hlisted. nia.
Qed.

(** C9: pages are numbered from 1 and [total_pages] is the ceiling of
    [total_count / page_size], for every count and page size below 2^53
    (the integers a float holds exactly); with 25 stored entries and a page
    size of 10, page 3 of the listing holds exactly 5 entries, the count
    returned is 25, and [total_pages] is 3. *)
Theorem pagination_of_listing :
  (forall n p, 0 <= n < 2 ^ 53 -> 0 < p < 2 ^ 53 ->
     exists k, CacheManager.total_pages n p = Ok k /\ (k - 1) * p < n <= k * p)
  /\ CacheManager.total_pages 25 10 = Ok 3
  /\ (forall rt w,
        Milvus.faults (coll w) = [] ->
        List.length (Milvus.rows (coll w)) = 25%nat ->
        exists entries,
          CacheManager.get_cache_entries rt 10 3 w = (Ok (entries, 25), w)
          /\ List.length entries = 5%nat)
  /\ (forall rt w,
        Milvus.faults (coll w) = [] ->
        List.length (Milvus.rows (coll w)) = 25%nat ->
        exists entries,
          CacheManager.get_cache_entries rt 10 1 w = (Ok (entries, 25), w)
          /\ List.length entries = 10%nat).
Proof.
  split; [exact total_pages_is_ceiling|]. split; [vm_compute; reflexivity|].
  split; intros rt w Hf Hn.
  - destruct (get_cache_entries_page rt w (page_size := 10) (page := 3) Hf) as (entries & He & Hl);
      try lia.
    rewrite Hn in *. exists entries. split; [exact He | lia].
  - destruct (get_cache_entries_page rt w (page_size := 10) (page := 1) Hf) as (entries & He & Hl);
      try lia.
    rewrite Hn in *. exists entries. split; [exact He | lia].
Qed.

(** ** Comparisons of floats *)

Lemma SFcompare_antisym x y :
  SFcompare y x = option_map CompOpp (SFcompare x y).
Proof.
  destruct x as [sx|sx| |sx mx ex], y as [sy|sy| |sy my ey];
    try destruct sx; try destruct sy; cbn; try reflexivity;
    rewrite (Z.compare_antisym ex ey); destruct (ex ?= ey); cbn; try reflexivity;
    fold (Pos.compare mx my); fold (Pos.compare my mx);
    rewrite (Pos.compare_antisym mx my); destruct (mx ?= my)%positive; reflexivity.
Qed.

(** A float that is [>=] another is not [<] it (both fail on a NaN). *)
Lemma geb_not_ltb x y : geb x y = true -> PrimFloat.ltb x y = false.
Proof.
  unfold geb. rewrite leb_spec, ltb_spec. unfold SFleb, SFltb.
  rewrite (SFcompare_antisym (Prim2SF x) (Prim2SF y)).
  destruct (SFcompare (Prim2SF x) (Prim2SF y)) as [[| |]|]; cbn; congruence.
Qed.

(** ** Subsequences *)

Lemma subseq_refl {A} (l : list A) : subseq l l.
Proof. induction l; constructor; assumption. Qed.

Lemma subseq_trans {A} (l1 l2 l3 : list A) :
  subseq l1 l2 -> subseq l2 l3 -> subseq l1 l3.
Proof.
  intros H12 H23. revert l1 H12.
  induction H23 as [|x l2 l3 H23 IH|x l2 l3 H23 IH]; intros l1 H12.
  - assumption.
  - constructor. now apply IH.
  - inversion H12; subst.
    + constructor. now apply IH.
    + apply subseq_keep. now apply IH.
Qed.

Lemma subseq_filter {A} (p : A -> bool) (l : list A) : subseq (filter p l) l.
Proof.
  induction l as [|x l IH]; cbn; [constructor|].
  destruct (p x); constructor; assumption.
Qed.

Lemma subseq_nil_l {A} (l : list A) : subseq [] l.
Proof. induction l; constructor; assumption. Qed.

Lemma subseq_firstn {A} (n : nat) (l : list A) : subseq (firstn n l) l.
Proof.
  revert l. induction n as [|n IH]; intros [|x l]; cbn.
  - constructor.
  - apply subseq_nil_l.
  - constructor.
  - apply subseq_keep, IH.
Qed.

Lemma subseq_In {A} (l1 l2 : list A) x : subseq l1 l2 -> In x l1 -> In x l2.
Proof.
  induction 1 as [|y l1 l2 H IH|y l1 l2 H IH]; cbn; intuition.
Qed.

Lemma subseq_Forall {A} (P : A -> Prop) (l1 l2 : list A) :
  subseq l1 l2 -> Forall P l2 -> Forall P l1.
Proof.
  intros Hs Hf. rewrite Forall_forall in *. intros x Hx.
  apply Hf. eapply subseq_In; eassumption.
Qed.

Lemma subseq_ascending l1 l2 : subseq l1 l2 -> ascending l2 -> ascending l1.
Proof.
  induction 1 as [|x l1 l2 H IH|x l1 l2 H IH]; intro Ha.
  - constructor.
  - inversion Ha; subst. now apply IH.
  - inversion Ha; subst. constructor; [|now apply IH].
    eapply subseq_Forall; eassumption.
Qed.

Lemma py_slice_prefix {A} (l : list A) k :
  0 <= k -> py_slice l 0 k = firstn (Z.to_nat k) l.
Proof.
  intro Hk. unfold py_slice, clamp_index.
  destruct (Z.ltb_spec k 0); [lia|]. cbn [Z.ltb Z.compare].
  replace (Z.max 0 (Z.min (Z.of_nat (List.length l)) 0)) with 0 by lia.
  cbn [Z.to_nat skipn]. rewrite Z.sub_0_r.
  destruct (Z.le_gt_cases k (Z.of_nat (List.length l))).
  - now replace (Z.max 0 (Z.min (Z.of_nat (List.length l)) k)) with k by lia.
  - replace (Z.max 0 (Z.min (Z.of_nat (List.length l)) k)) with (Z.of_nat (List.length l)) by lia.
    rewrite Nat2Z.id, firstn_all. symmetry. apply firstn_all2. lia.
Qed.

(** ** Hybrid retrieval *)

Lemma py_slice_nil {A} a b : py_slice (@nil A) a b = [].
Proof. unfold py_slice. cbn [List.length]. rewrite skipn_nil. apply firstn_nil. Qed.

Lemma hybrid_search_result query_text query_vector top_k expr keywords w :
  fst (VectorStore.hybrid_search query_text query_vector top_k expr keywords w) =
  Ok (py_slice (VectorStore.filtered_results
                  (index_answer query_vector top_k expr keywords w)) 0 top_k).
Proof.
  unfold VectorStore.hybrid_search, index_answer, try_except, bind, on_collection, ret.
  destruct (Milvus.load (coll w)) as [[[]|e] c1]; cbn [fst snd coll].
  - destruct (Milvus.search c1 query_vector "result_vector" top_k _) as [[hits|e] c2];
      cbn [fst]; [reflexivity|].
    unfold VectorStore.filtered_results. cbn [filter map]. now rewrite py_slice_nil.
  - unfold VectorStore.filtered_results. cbn [filter map]. now rewrite py_slice_nil.
Qed.

(** C6: a hybrid retrieval call returns hits of the index's answer, in the
    index's order (so in ascending distance when the index answers so), none
    of them at a distance of 1.5 or more, and at most [top_k] of them. *)
Theorem hybrid_search_post_filter (query_text : string) (query_vector : list float)
  (top_k : Z) (expr : option string) (keywords : list string) (w : world) :
  0 <= top_k ->
  let answer := index_answer query_vector top_k expr keywords w in
  exists kept,
    fst (VectorStore.hybrid_search query_text query_vector top_k expr keywords w) =
      Ok (map VectorStore.of_hit kept)
    /\ subseq kept answer
    /\ (ascending answer -> ascending kept)
    /\ (forall h, In h answer -> geb (Milvus.score h) 1.5%float = true -> ~ In h kept)
    /\ Forall (fun h => PrimFloat.ltb (Milvus.score h) 1.5%float = true) kept
    /\ Z.of_nat (List.length kept) <= top_k.
Proof.
  intros Hk answer.
  set (passed := filter (fun h => PrimFloat.ltb (Milvus.score h) 1.5%float) answer).
  exists (firstn (Z.to_nat top_k) passed).
  assert (Hsub : subseq (firstn (Z.to_nat top_k) passed) answer).
  { eapply subseq_trans; [apply subseq_firstn | apply subseq_filter]. }
  assert (Hall : Forall (fun h => PrimFloat.ltb (Milvus.score h) 1.5%float = true)
                   (firstn (Z.to_nat top_k) passed)).
  { eapply subseq_Forall; [apply subseq_firstn|].
    apply Forall_forall. intros h Hh. now apply filter_In in Hh. }
  repeat split.
  - rewrite hybrid_search_result. fold answer. unfold VectorStore.filtered_results.
    fold passed. rewrite py_slice_prefix by assumption. now rewrite firstn_map.
  - exact Hsub.
  - now apply subseq_ascending.
  - intros h _ Hge Hin. rewrite Forall_forall in Hall.
    apply Hall in Hin. apply geb_not_ltb in Hge. congruence.
  - exact Hall.
  - rewrite length_firstn. lia.
Qed.

(** C6, witness: of three hits at distances 0.25, 4 and 1 that the index
    returns for [top_k = 3], the two below 1.5 come back, nearest first. *)
Lemma hybrid_search_post_filter_witness :
  0 <= 3 /\
  exists kept,
    fst (VectorStore.hybrid_search "q" (axis 0) 3 None []
           (world_of [stored_row "a" (axis 0.5) "u" "p" fresh_metadata;
                      stored_row "b" (axis 2) "u" "p" fresh_metadata;
                      stored_row "c" (axis 1) "u" "p" fresh_metadata] [])) =
      Ok (map VectorStore.of_hit kept)
    /\ Z.of_nat (List.length kept) <= 3.
Proof.
  split; [lia|].
  destruct (hybrid_search_post_filter "q" (axis 0) None []
              (world_of [stored_row "a" (axis 0.5) "u" "p" fresh_metadata;
                         stored_row "b" (axis 2) "u" "p" fresh_metadata;
                         stored_row "c" (axis 1) "u" "p" fresh_metadata] [])
              (top_k := 3) ltac:(lia))
    as (kept & Hres & _ & _ & _ & _ & Hlen).
  exists kept. split; assumption.
Defined.

(** ** Filter expressions built from plain texts *)

Lemma option_map_app_nil {A} (o : option (list A)) : option_map (app []) o = o.
Proof. destruct o; reflexivity. Qed.

Lemma append_snoc s c s' : Milvus.snoc s c ++ s' = s ++ String c s'.
Proof.
  unfold Milvus.snoc. induction s as [|d s IH]; cbn; [reflexivity | now rewrite IH].
Qed.

Lemma append_empty s : s ++ "" = s.
Proof. induction s as [|c s IH]; cbn; [reflexivity | now rewrite IH]. Qed.

(** Inside a literal, a plain text is read as it stands, up to the closing
    quote. *)
Lemma lex_literal s acc rest :
  plain s = true ->
  Milvus.lex_from (Milvus.Lit acc) (s ++ String Milvus.dquote rest) =
  option_map (cons (Milvus.TString (acc ++ s))) (Milvus.lex_from Milvus.Start rest).
Proof.
  revert acc. induction s as [|c s IH]; intros acc Hp.
  - cbn [append Milvus.lex_from Milvus.lex_step]. rewrite Ascii.eqb_refl.
    now rewrite append_empty.
  - cbn [plain] in Hp. apply andb_prop in Hp as [Hc Hs].
    unfold plain_char in Hc. apply andb_prop in Hc as [Hq Hb].
    cbn [append Milvus.lex_from Milvus.lex_step].
    apply negb_true_iff in Hq, Hb. rewrite Hq, Hb.
    rewrite option_map_app_nil, IH by assumption. now rewrite append_snoc.
Qed.

Lemma option_map_app_app {A} (l1 l2 : list A) (o : option (list A)) :
  option_map (app l1) (option_map (app l2) o) = option_map (app (l1 ++ l2)%list) o.
Proof. destruct o; cbn; [now rewrite app_assoc | reflexivity]. Qed.

Lemma lex_from_app m a b :
  Milvus.lex_from m (a ++ b) =
  match Milvus.lex_run m a with
  | Some (ts, m') => option_map (app ts) (Milvus.lex_from m' b)
  | None => None
  end.
Proof.
  revert m. induction a as [|c a IH]; intro m; cbn [append Milvus.lex_from Milvus.lex_run].
  - now rewrite option_map_app_nil.
  - destruct (Milvus.lex_step m c) as [[ts m']|]; [|reflexivity].
    rewrite IH. destruct (Milvus.lex_run m' a) as [[ts' m'']|]; [|reflexivity].
    apply option_map_app_app.
Qed.

(** A prefix that ends with the opening quote of a literal. *)
Lemma lex_up_to_literal prefix ts rest :
  Milvus.lex_run Milvus.Start (prefix ++ dq) = Some (ts, Milvus.Lit "") ->
  Milvus.lex_from Milvus.Start (prefix ++ dq ++ rest) =
  option_map (app ts) (Milvus.lex_from (Milvus.Lit "") rest).
Proof.
  intro Hrun.
  assert (Hassoc : prefix ++ dq ++ rest = (prefix ++ dq) ++ rest).
  { clear. induction prefix as [|c p IH]; cbn [append]; [reflexivity | now rewrite IH]. }
  now rewrite Hassoc, lex_from_app, Hrun.
Qed.

Lemma parse_id_expr entry_id :
  plain entry_id = true ->
  Milvus.parse (CacheManager.id_expr entry_id) =
  Some (Milvus.FCmp "id" Milvus.CEq entry_id).
Proof.
  intro Hp. unfold Milvus.parse, Milvus.lex, CacheManager.id_expr.
  rewrite (lex_up_to_literal "id == " (ts := [Milvus.TIdent "id"; Milvus.TOp Milvus.CEq]))
    by (vm_compute; reflexivity).
  unfold dq at 1. rewrite lex_literal by assumption. reflexivity.
Qed.

Lemma parse_scope_expr email project_id :
  plain email = true -> plain project_id = true ->
  Milvus.parse (CacheManager.scope_expr email project_id) =
  Some (Milvus.FAnd (Milvus.FCmp "email" Milvus.CEq email)
                    (Milvus.FCmp "project_id" Milvus.CEq project_id)).
Proof.
  intros He Hp. unfold Milvus.parse, Milvus.lex, CacheManager.scope_expr.
  rewrite (lex_up_to_literal "email == "
             (ts := [Milvus.TIdent "email"; Milvus.TOp Milvus.CEq]))
    by (vm_compute; reflexivity).
  change (email ++ dq ++ " && project_id == " ++ dq ++ project_id ++ dq)
    with (email ++ String Milvus.dquote (" && project_id == " ++ dq ++ project_id ++ dq)).
  rewrite lex_literal by assumption.
  rewrite (lex_up_to_literal " && project_id == "
             (ts := [Milvus.TAnd; Milvus.TIdent "project_id"; Milvus.TOp Milvus.CEq]))
    by (vm_compute; reflexivity).
  unfold dq at 1. rewrite lex_literal by assumption. reflexivity.
Qed.

(** ** The collection answers as the filter says *)

Lemma select_id entry_id l :
  Milvus.select (Milvus.FCmp "id" Milvus.CEq entry_id) l = Some (filter (has_id entry_id) l).
Proof.
  induction l as [|r l IH]; [reflexivity|].
  cbn [Milvus.select filter]. rewrite IH. reflexivity.
Qed.

Lemma select_scope email project_id l :
  Milvus.select (Milvus.FAnd (Milvus.FCmp "email" Milvus.CEq email)
                             (Milvus.FCmp "project_id" Milvus.CEq project_id)) l =
  Some (filter (in_scope email project_id) l).
Proof.
  induction l as [|r l IH]; [reflexivity|].
  cbn [Milvus.select filter]. rewrite IH. reflexivity.
Qed.

Lemma matching_id entry_id l :
  plain entry_id = true ->
  Milvus.matching (Some (CacheManager.id_expr entry_id)) l = Ok (filter (has_id entry_id) l).
Proof.
  intro Hp. unfold Milvus.matching.
  change (String.eqb (CacheManager.id_expr entry_id) "") with false.
  now rewrite parse_id_expr, select_id.
Qed.

Lemma matching_scope email project_id l :
  plain email = true -> plain project_id = true ->
  Milvus.matching (Some (CacheManager.scope_expr email project_id)) l =
  Ok (filter (in_scope email project_id) l).
Proof.
  intros He Hp. unfold Milvus.matching.
  change (String.eqb (CacheManager.scope_expr email project_id) "") with false.
  now rewrite parse_scope_expr, select_scope.
Qed.

(** Calls on a collection whose fault schedule is empty. *)
Lemma call_no_fault {A} rows (body : Milvus.collection -> result A * Milvus.collection) :
  Milvus.call {| Milvus.rows := rows; Milvus.faults := [] |} body =
  body {| Milvus.rows := rows; Milvus.faults := [] |}.
Proof. reflexivity. Qed.

Lemma query_by_id rows entry_id limit :
  plain entry_id = true ->
  Milvus.query {| Milvus.rows := rows; Milvus.faults := [] |}
    (CacheManager.id_expr entry_id) limit 0 false =
  (Ok match limit with
      | Some n => firstn (Z.to_nat n) (filter (has_id entry_id) rows)
      | None => filter (has_id entry_id) rows
      end, {| Milvus.rows := rows; Milvus.faults := [] |}).
Proof.
  intro Hp. unfold Milvus.query. rewrite call_no_fault. cbn [Milvus.rows].
  now rewrite matching_id.
Qed.

Lemma update_by_id rows entry_id m :
  plain entry_id = true ->
  Milvus.update {| Milvus.rows := rows; Milvus.faults := [] |}
    (CacheManager.id_expr entry_id) m =
  (Ok tt, {| Milvus.rows := map (fun r => if has_id entry_id r
                                          then Milvus.set_metadata m r else r) rows;
             Milvus.faults := [] |}).
Proof.
  intro Hp. unfold Milvus.update. rewrite call_no_fault. cbn [Milvus.rows Milvus.faults].
  rewrite parse_id_expr, select_id by assumption.
  assert (Hmap : forall l,
            map (fun r => match Milvus.eval (Milvus.FCmp "id" Milvus.CEq entry_id) r with
                          | Some true => Milvus.set_metadata m r
                          | _ => r
                          end) l =
            map (fun r => if has_id entry_id r then Milvus.set_metadata m r else r) l).
  { intro l. apply map_ext. intro r. cbn. unfold has_id.
    now destruct (String.eqb (Milvus.id r) entry_id). }
  now rewrite Hmap.
Qed.

(** ** Hit accounting *)

Lemma dict_get_set_same d k v : dict_get (dict_set d k v) k = Some v.
Proof.
  induction d as [|[k' v'] d IH]; cbn.
  - now rewrite String.eqb_refl.
  - destruct (String.eqb k' k) eqn:E; cbn.
    + now rewrite String.eqb_refl.
    + now rewrite E.
Qed.

Lemma dict_get_set_other d k v k' : k' <> k -> dict_get (dict_set d k v) k' = dict_get d k'.
Proof.
  intro Hne. induction d as [|[k0 v0] d IH]; cbn.
  - destruct (String.eqb_spec k k'); [congruence | reflexivity].
  - destruct (String.eqb_spec k0 k) as [->|Hk]; cbn.
    + destruct (String.eqb_spec k k'); [congruence | reflexivity].
    + destruct (String.eqb_spec k0 k'); [reflexivity | exact IH].
Qed.

Lemma increment_hit_count_stores w entry_id first others m :
  plain entry_id = true ->
  Milvus.faults (coll w) = [] ->
  filter (has_id entry_id) (Milvus.rows (coll w)) = first :: others ->
  CacheManager.incremented (Milvus.metadata first) = Ok m ->
  CacheManager.increment_hit_count entry_id w =
  (Ok true,
   {| coll := {| Milvus.rows := map (fun r => if has_id entry_id r
                                             then Milvus.set_metadata m r else r)
                                    (Milvus.rows (coll w));
                 Milvus.faults := [] |};
      clock_reads := clock_reads w |}).
Proof.
  destruct w as [[rows faults] reads]. cbn [coll Milvus.faults Milvus.rows clock_reads].
  intros Hp -> Hfirst Hm.
  unfold CacheManager.increment_hit_count, try_except, bind, VectorStore.get_collection,
    on_collection, ret, lift_result, try_except, bind.
  cbn [coll clock_reads Milvus.load Milvus.num_entities Milvus.call Milvus.tick
       Milvus.faults Milvus.rows fst snd].
  rewrite query_by_id by assumption. rewrite Hfirst. cbn [coll clock_reads].
  rewrite Hm, update_by_id by assumption. reflexivity.
Qed.

(** C7, counterexample: the hit accounting of a stored entry raises its
    [hit_count] from 1 to 2 and refreshes no [last_accessed]: the stored
    entry has no such field before or after, and the clock is not read. *)
Lemma hit_accounting_stores_no_last_accessed :
  CacheManager.increment_hit_count "e1"
    (one_entry "alice" "p") =
  (Ok true,
   world_of [stored_row "e1" (axis 2) "alice" "p"
               (PyDict [("references", PyList []); ("pdf_names", PyList []);
                        ("cited_refs", PyList []); ("pdf_info", PyDict []);
                        ("hit_count", PyInt 2); ("relevance_score", PyFloat 1%float);
                        ("cache_management", PyDict [])])] [])
  /\ CacheManager.py_get fresh_metadata "last_accessed" PyNone = Ok PyNone.
Proof.
  split; vm_compute; reflexivity.
Qed.

(** C7, amended: a hit on an existing entry (its id a plain text, unique in
    the collection, its metadata a mapping whose [hit_count] is an integer or
    missing, the store answering) reads the entry's metadata and writes it
    back with [hit_count] one higher; every other key of the metadata, every
    other field of the entry and every other entry stay as they were.  No
    [last_accessed] is stored: the clock is not read. *)
Theorem hit_accounting_amended (w : world) (entry_id : string) (first : Milvus.row)
  (d : list (string * pyval)) (n : Z) :
  plain entry_id = true ->
  Milvus.faults (coll w) = [] ->
  filter (has_id entry_id) (Milvus.rows (coll w)) = [first] ->
  Milvus.metadata first = PyDict d ->
  match dict_get d "hit_count" with
  | Some v => v
  | None => PyInt 0
  end = PyInt n ->
  exists w' d',
    CacheManager.increment_hit_count entry_id w = (Ok true, w')
    /\ clock_reads w' = clock_reads w
    /\ Milvus.rows (coll w') =
       map (fun r => if has_id entry_id r then Milvus.set_metadata (PyDict d') r else r)
           (Milvus.rows (coll w))
    /\ dict_get d' "hit_count" = Some (PyInt (n + 1))
    /\ (forall k, k <> "hit_count" -> dict_get d' k = dict_get d k)
    /\ (forall r, Milvus.id (Milvus.set_metadata (PyDict d') r) = Milvus.id r
                  /\ Milvus.query_vector (Milvus.set_metadata (PyDict d') r) = Milvus.query_vector r
                  /\ Milvus.query_text (Milvus.set_metadata (PyDict d') r) = Milvus.query_text r
                  /\ Milvus.result_vector (Milvus.set_metadata (PyDict d') r) = Milvus.result_vector r
                  /\ Milvus.result_text (Milvus.set_metadata (PyDict d') r) = Milvus.result_text r
                  /\ Milvus.email (Milvus.set_metadata (PyDict d') r) = Milvus.email r
                  /\ Milvus.created_at (Milvus.set_metadata (PyDict d') r) = Milvus.created_at r
                  /\ Milvus.project_id (Milvus.set_metadata (PyDict d') r) = Milvus.project_id r).
Proof.
  intros Hp Hf Hfirst Hmeta Hcount.
  exists {| coll := {| Milvus.rows :=
                         map (fun r => if has_id entry_id r
                                       then Milvus.set_metadata
                                              (PyDict (dict_set d "hit_count" (PyInt (n + 1)))) r
                                       else r) (Milvus.rows (coll w));
                       Milvus.faults := [] |};
            clock_reads := clock_reads w |}.
  exists (dict_set d "hit_count" (PyInt (n + 1))).
  split; [|split; [|split; [|split; [|split]]]].
  - apply (@increment_hit_count_stores w entry_id first [] _ Hp Hf Hfirst).
    unfold CacheManager.incremented. rewrite Hmeta, Hcount. reflexivity.
  - reflexivity.
  - reflexivity.
  - apply dict_get_set_same.
  - intros k Hk. now apply dict_get_set_other.
  - intro r. repeat split.
Qed.

(** C7, witness: the stored entry of the counterexample, hit once. *)
Lemma hit_accounting_amended_witness :
  exists w' d',
    CacheManager.increment_hit_count "e1"
      (one_entry "alice" "p") = (Ok true, w')
    /\ clock_reads w' = 0%nat
    /\ dict_get d' "hit_count" = Some (PyInt 2).
Proof.
  destruct (@hit_accounting_amended
              (one_entry "alice" "p")
              "e1" (stored_row "e1" (axis 2) "alice" "p" fresh_metadata)
              [("references", PyList []); ("pdf_names", PyList []);
               ("cited_refs", PyList []); ("pdf_info", PyDict []);
               ("hit_count", PyInt 1); ("relevance_score", PyFloat 1%float);
               ("cache_management", PyDict [])]
              1 eq_refl eq_refl eq_refl eq_refl eq_refl)
    as (w' & d' & Hrun & Hclock & _ & Hcount & _).
  exists w', d'. repeat split; assumption.
Defined.

(** ** Lookups *)

Lemma generate_embedding_run rt text w :
  CacheManager._generate_embedding rt text w =
  (Ok match embed_query rt text with
      | Some embedding => embedding
      | None => CacheManager.zero_vector
      end, w).
Proof.
  unfold CacheManager._generate_embedding. now destruct (embed_query rt text).
Qed.

Lemma search_similar_run query_vector top_k field expr w :
  VectorStore.search_similar query_vector top_k field expr w =
  match Milvus.search (coll w) query_vector field top_k expr with
  | (Ok hits, c) => (Ok (map VectorStore.of_hit hits), {| coll := c; clock_reads := clock_reads w |})
  | (Raise _, c) => (Ok [], {| coll := c; clock_reads := clock_reads w |})
  end.
Proof.
  unfold VectorStore.search_similar, try_except, bind, on_collection, ret.
  now destruct (Milvus.search (coll w) query_vector field top_k expr) as [[hits|e] c].
Qed.

(** The lookup up to the decision on the best candidate. *)
Lemma search_cache_body_start rt query_text query_vector email project_id cache_management w :
  CacheManager.search_cache_body rt query_text query_vector email project_id
    cache_management w =
  match Milvus.search (coll w) query_vector "query_vector" 5
          (Some (CacheManager.scope_expr email project_id)) with
  | (Raise _, c) | (Ok [], c) => (Ok Models.miss, {| coll := c; clock_reads := clock_reads w |})
  | (Ok (h :: rest), c) =>
    CacheManager.search_cache_body rt query_text query_vector email project_id
      cache_management w
  end.
Proof.
  destruct (Milvus.search (coll w) query_vector "query_vector" 5
              (Some (CacheManager.scope_expr email project_id))) as [[[|h rest]|e] c] eqn:Hs;
    [| reflexivity |];
    unfold CacheManager.search_cache_body, bind;
    rewrite generate_embedding_run, search_similar_run, Hs; reflexivity.
Qed.

Lemma search_cache_no_candidate rt query_text query_vector email project_id cache_management w c :
  Milvus.search (coll w) query_vector "query_vector" 5
    (Some (CacheManager.scope_expr email project_id)) = (Ok [], c) ->
  CacheManager.search_cache rt query_text query_vector email project_id cache_management w =
  (Ok Models.miss, {| coll := c; clock_reads := clock_reads w |}).
Proof.
  intro Hs. unfold CacheManager.search_cache, try_except.
  now rewrite search_cache_body_start, Hs.
Qed.

Lemma search_cache_index_failure rt query_text query_vector email project_id cache_management
  w e c :
  Milvus.search (coll w) query_vector "query_vector" 5
    (Some (CacheManager.scope_expr email project_id)) = (Raise e, c) ->
  CacheManager.search_cache rt query_text query_vector email project_id cache_management w =
  (Ok Models.miss, {| coll := c; clock_reads := clock_reads w |}).
Proof.
  intro Hs. unfold CacheManager.search_cache, try_except.
  now rewrite search_cache_body_start, Hs.
Qed.

(** [search_cache] raises nothing: whatever its [try] block raises becomes a
    miss. *)
Lemma search_cache_swallows rt query_text query_vector email project_id cache_management w e :
  fst (CacheManager.search_cache_body rt query_text query_vector email project_id
         cache_management w) = Raise e ->
  fst (CacheManager.search_cache rt query_text query_vector email project_id
         cache_management w) = Ok Models.miss.
Proof.
  unfold CacheManager.search_cache, try_except.
  destruct (CacheManager.search_cache_body _ _ _ _ _ _ w) as [[r|e'] w']; cbn;
    [discriminate | reflexivity].
Qed.

(** C8: when the index call of a lookup fails, [search_similar] returns the
    empty list instead of raising, and [search_cache] reports [found=false];
    so does it when its [try] block raises anything else, and so does it when
    the index answers with no candidate: the caller gets the same result for
    a failure as for a genuine miss.  A hybrid retrieval whose index call
    fails returns the empty list too. *)
Theorem index_failure_reported_as_miss (rt : Runtime) (query_text : string)
  (query_vector : list float) (email project_id : string) (cache_management : pyval)
  (w : world) (e : exn) (c : Milvus.collection) :
  Milvus.search (coll w) query_vector "query_vector" 5
    (Some (CacheManager.scope_expr email project_id)) = (Raise e, c) ->
  fst (VectorStore.search_similar query_vector 5 "query_vector"
         (Some (CacheManager.scope_expr email project_id)) w) = Ok []
  /\ fst (CacheManager.search_cache rt query_text query_vector email project_id
            cache_management w) = Ok Models.miss
  /\ (forall w0 c0,
        Milvus.search (coll w0) query_vector "query_vector" 5
          (Some (CacheManager.scope_expr email project_id)) = (Ok [], c0) ->
        fst (CacheManager.search_cache rt query_text query_vector email project_id
               cache_management w0) =
        fst (CacheManager.search_cache rt query_text query_vector email project_id
               cache_management w))
  /\ (forall w1 e1,
        fst (CacheManager.search_cache_body rt query_text query_vector email project_id
               cache_management w1) = Raise e1 ->
        fst (CacheManager.search_cache rt query_text query_vector email project_id
               cache_management w1) = Ok Models.miss)
  /\ (forall top_k expr keywords w2 c1 e2 c2,
        Milvus.load (coll w2) = (Ok tt, c1) ->
        Milvus.search c1 query_vector "result_vector" top_k
          (VectorStore.final_expr expr keywords) = (Raise e2, c2) ->
        fst (VectorStore.hybrid_search query_text query_vector top_k expr keywords w2) = Ok []).
Proof.
  intro Hfail. repeat split.
  - now rewrite search_similar_run, Hfail.
  - now rewrite (search_cache_index_failure _ _ _ _ _ _ _ Hfail).
  - intros w0 c0 Hnone.
    now rewrite (search_cache_no_candidate _ _ _ _ _ _ _ Hnone),
      (search_cache_index_failure _ _ _ _ _ _ _ Hfail).
  - intros w1 e1. apply search_cache_swallows.
  - intros top_k expr keywords w2 c1 e2 c2 Hload Hsearch.
    rewrite hybrid_search_result. unfold index_answer. rewrite Hload, Hsearch.
    unfold VectorStore.filtered_results. cbn [filter map]. now rewrite py_slice_nil.
Qed.

(** C8, witness: a collection whose next call fails. *)
Lemma index_failure_reported_as_miss_witness :
  fst (CacheManager.search_cache example_runtime "q" (axis 0) "alice" "p" (PyDict [])
         (world_of [stored_row "e1" (axis 0) "alice" "p" fresh_metadata] [true])) =
  Ok Models.miss.
Proof.
  exact (proj1 (proj2
    (@index_failure_reported_as_miss example_runtime "q" (axis 0) "alice" "p" (PyDict [])
       (world_of [stored_row "e1" (axis 0) "alice" "p" fresh_metadata] [true])
       MilvusException
       {| Milvus.rows := [stored_row "e1" (axis 0) "alice" "p" fresh_metadata];
          Milvus.faults := [] |}
       eq_refl))).
Defined.

Lemma search_cache_below_threshold rt query_text query_vector email project_id
  cache_management w h rest c :
  Milvus.search (coll w) query_vector "query_vector" 5
    (Some (CacheManager.scope_expr email project_id)) = (Ok (h :: rest), c) ->
  PrimFloat.ltb (Milvus.score h) 0.7%float = true ->
  CacheManager.search_cache rt query_text query_vector email project_id cache_management w =
  (Ok Models.miss, {| coll := c; clock_reads := clock_reads w |}).
Proof.
  intros Hs Hlt. unfold CacheManager.search_cache, try_except,
    CacheManager.search_cache_body, bind.
  rewrite generate_embedding_run, search_similar_run, Hs.
  cbn [map VectorStore.score VectorStore.of_hit]. now rewrite Hlt.
Qed.

(** A lookup that reports a hit returns the best candidate of the index: its
    id, its scope and its raw score. *)
Lemma search_cache_hit rt query_text query_vector email project_id cache_management w r :
  fst (CacheManager.search_cache rt query_text query_vector email project_id
         cache_management w) = Ok r ->
  Models.found r = true ->
  exists h rest c e,
    Milvus.search (coll w) query_vector "query_vector" 5
      (Some (CacheManager.scope_expr email project_id)) = (Ok (h :: rest), c)
    /\ PrimFloat.ltb (Milvus.score h) 0.7%float = false
    /\ Models.entry r = Some e
    /\ Models.similarity_score r = Some (Milvus.score h)
    /\ Models.query_id e = Milvus.hit_id h
    /\ Models.email e = Milvus.email (Milvus.entity h)
    /\ Models.project_id e = Milvus.project_id (Milvus.entity h)
    /\ Models.relevance_score e = Milvus.score h.
Proof.
  unfold CacheManager.search_cache, try_except, CacheManager.search_cache_body, bind.
  rewrite generate_embedding_run, search_similar_run.
  destruct (Milvus.search (coll w) query_vector "query_vector" 5
              (Some (CacheManager.scope_expr email project_id))) as [[[|h rest]|e0] c] eqn:Hs;
    cbn [map fst]; try (intros [= <-]; discriminate).
  cbn [VectorStore.score VectorStore.of_hit].
  destruct (PrimFloat.ltb (Milvus.score h) 0.7%float) eqn:Hlt;
    cbn [fst ret]; try (intros [= <-]; discriminate).
  destruct (CacheManager.increment_hit_count _ _) as [[b|e1] w1];
    cbn [fst]; try (intros [= <-]; discriminate).
  unfold lift_result, ret, CacheManager.now.
  cbn [VectorStore.metadata VectorStore.created_at].
  repeat match goal with
         | |- context [match ?x with Ok _ => _ | Raise _ => _ end] =>
           destruct x; cbn [fst]; try (intros [= <-]; discriminate)
         | |- context [match ?x with Some _ => _ | None => _ end] =>
           destruct x; cbn [fst]; try (intros [= <-]; discriminate)
         end.
  all: intros [= <-] _; exists h, rest, c; eexists; repeat split; assumption.
Qed.

(** The hit path of a lookup, step by step. *)
Lemma search_cache_found rt query_text query_vector email project_id cache_management
  w h rest c b w1 d t hits :
  Milvus.search (coll w) query_vector "query_vector" 5
    (Some (CacheManager.scope_expr email project_id)) = (Ok (h :: rest), c) ->
  PrimFloat.ltb (Milvus.score h) 0.7%float = false ->
  CacheManager.increment_hit_count (Milvus.hit_id h)
    {| coll := c; clock_reads := clock_reads w |} = (Ok b, w1) ->
  Milvus.metadata (Milvus.entity h) = PyDict d ->
  fromisoformat rt (Milvus.created_at (Milvus.entity h)) = Some t ->
  CacheManager.py_add_one match dict_get d "hit_count" with
                          | Some v => v
                          | None => PyInt 0
                          end = Ok hits ->
  exists e,
    fst (CacheManager.search_cache rt query_text query_vector email project_id
           cache_management w) =
    Ok {| Models.found := true; Models.entry := Some e;
          Models.similarity_score := Some (Milvus.score h) |}
    /\ Models.query_id e = Milvus.hit_id h
    /\ Models.email e = Milvus.email (Milvus.entity h)
    /\ Models.project_id e = Milvus.project_id (Milvus.entity h)
    /\ Models.hit_count e = hits
    /\ Models.relevance_score e = Milvus.score h.
Proof.
  intros Hs Hlt Hinc Hmeta Hiso Hhits.
  unfold CacheManager.search_cache, try_except, CacheManager.search_cache_body, bind.
  rewrite generate_embedding_run, search_similar_run, Hs.
  cbn [map VectorStore.score VectorStore.of_hit VectorStore.id VectorStore.metadata
       VectorStore.created_at].
  rewrite Hlt, Hinc, Hmeta, Hiso.
  unfold lift_result, ret, CacheManager.now, CacheManager.py_get. cbn [rbind].
  rewrite Hhits. cbn [fst]. eexists. repeat split.
Qed.

(** C2, at the failing input: the score of the best candidate is the raw
    squared L2 distance of the index.  For an entry at distance 4 of the query
    the lookup reports a hit whose similarity score is 4, outside [0,1]. *)
Theorem raw_distance_taken_as_similarity (rt : Runtime) (t : string) :
  fromisoformat rt "2024-01-01T00:00:00" = Some t ->
  exists e,
    fst (CacheManager.search_cache rt "q" (axis 0) "alice" "p" (PyDict [])
           (one_entry "alice" "p")) =
    Ok {| Models.found := true; Models.entry := Some e;
          Models.similarity_score := Some 4%float |}
    /\ Models.relevance_score e = 4%float
    /\ PrimFloat.ltb 1 4 = true.
Proof.
  intro Hiso.
  edestruct (@search_cache_found rt "q" (axis 0) "alice" "p" (PyDict [])
               (one_entry "alice" "p")) as (e & Hrun & _ & _ & _ & _ & Hrel).
  - vm_compute. reflexivity.
  - vm_compute. reflexivity.
  - vm_compute. reflexivity.
  - vm_compute. reflexivity.
  - exact Hiso.
  - vm_compute. reflexivity.
  - exists e. split; [exact Hrun|]. split; [exact Hrel | reflexivity].
Qed.

(** C2, witness: a runtime in which the stored timestamp parses. *)
Lemma raw_distance_taken_as_similarity_witness :
  exists e,
    fst (CacheManager.search_cache example_runtime "q" (axis 0) "alice" "p" (PyDict [])
           (one_entry "alice" "p")) =
    Ok {| Models.found := true; Models.entry := Some e;
          Models.similarity_score := Some 4%float |}
    /\ Models.relevance_score e = 4%float
    /\ PrimFloat.ltb 1 4 = true.
Proof.
  exact (@raw_distance_taken_as_similarity example_runtime "2024-01-01T00:00:00" eq_refl).
Defined.

(** C3, at the failing input: a lookup by "alice" whose project id carries a
    double quote returns the entry stored by "bob" under project "q". *)
Theorem scope_filter_injection (rt : Runtime) (t : string) :
  fromisoformat rt "2024-01-01T00:00:00" = Some t ->
  exists e,
    fst (CacheManager.search_cache rt "q" (axis 0) "alice" injected_project (PyDict [])
           (one_entry "bob" "q")) =
    Ok {| Models.found := true; Models.entry := Some e;
          Models.similarity_score := Some 4%float |}
    /\ Models.email e = "bob"
    /\ Models.project_id e = "q".
Proof.
  intro Hiso.
  edestruct (@search_cache_found rt "q" (axis 0) "alice" injected_project (PyDict [])
               (one_entry "bob" "q")) as (e & Hrun & _ & Hemail & Hproject & _ & _).
  - vm_compute. reflexivity.
  - vm_compute. reflexivity.
  - vm_compute. reflexivity.
  - vm_compute. reflexivity.
  - exact Hiso.
  - vm_compute. reflexivity.
  - exists e. split; [exact Hrun|]. split; assumption.
Qed.

(** C3, witness: a runtime in which the stored timestamp parses. *)
Lemma scope_filter_injection_witness :
  exists e,
    fst (CacheManager.search_cache example_runtime "q" (axis 0) "alice" injected_project
           (PyDict []) (one_entry "bob" "q")) =
    Ok {| Models.found := true; Models.entry := Some e;
          Models.similarity_score := Some 4%float |}
    /\ Models.email e = "bob"
    /\ Models.project_id e = "q".
Proof.
  exact (@scope_filter_injection example_runtime "2024-01-01T00:00:00" eq_refl).
Defined.

(** ** Insertion *)

(** With a store that answers, an entry whose row fits the schema and whose
    id is a plain text is appended to the collection. *)
Lemma insert_entry_ok entry w :
  Milvus.faults (coll w) = [] ->
  Milvus.fits_schema (VectorStore.entry_row entry) = true ->
  plain (Models.query_id entry) = true ->
  VectorStore.insert_entry entry w =
  (Ok true,
   {| coll := {| Milvus.rows := (Milvus.rows (coll w) ++ [VectorStore.entry_row entry])%list;
                 Milvus.faults := [] |};
      clock_reads := clock_reads w |}).
Proof.
  destruct w as [[rows faults] reads]. cbn [coll Milvus.faults Milvus.rows clock_reads].
  intros -> Hfits Hplain.
  unfold VectorStore.insert_entry, bind, on_collection, ret.
  cbn [coll clock_reads Milvus.load Milvus.flush Milvus.num_entities Milvus.insert
       Milvus.call Milvus.tick Milvus.faults Milvus.rows fst snd].
  rewrite Hfits.
  cbn [coll clock_reads Milvus.flush Milvus.num_entities Milvus.call Milvus.tick
       Milvus.faults Milvus.rows fst snd].
  change ("id == " ++ dq ++ Models.query_id entry ++ dq)
    with (CacheManager.id_expr (Models.query_id entry)).
  rewrite query_by_id by assumption. cbn [coll clock_reads].
  unfold Milvus.query. rewrite call_no_fault. cbn [Milvus.matching String.eqb].
  reflexivity.
Qed.

Lemma fits_schema_intro r :
  List.length (Milvus.query_vector r) = Milvus.dim ->
  List.length (Milvus.result_vector r) = Milvus.dim ->
  Z.of_nat (String.length (Milvus.id r)) <= 100 ->
  Z.of_nat (String.length (Milvus.query_text r)) <= 2000 ->
  Z.of_nat (String.length (Milvus.result_text r)) <= 65535 ->
  Z.of_nat (String.length (Milvus.email r)) <= 100 ->
  Z.of_nat (String.length (Milvus.created_at r)) <= 30 ->
  Z.of_nat (String.length (Milvus.project_id r)) <= 100 ->
  Milvus.fits_schema r = true.
Proof.
  intros Hq Hr Hid Hqt Hrt He Hc Hp. unfold Milvus.fits_schema.
  rewrite Hq, Hr, Nat.eqb_refl.
  repeat (rewrite (proj2 (Z.leb_le _ _)) by assumption).
  reflexivity.
Qed.

(** C1, at the failing input: an entry is inserted into an empty collection
    and looked up at once with its own vector and scope.  The insertion
    succeeds, the index reports the entry at distance 0, and the lookup, which
    takes the distance for a similarity and wants at least 0.7, reports
    [found=false]. *)
Theorem lookup_after_insert_misses (rt : Runtime) :
  let query_id := sha256_hexdigest rt ("q:alice:p:" ++ clock rt 0) in
  (String.length query_id <= 100)%nat ->
  plain query_id = true ->
  (String.length (clock rt 1) <= 30)%nat ->
  exists w1,
    CacheManager.add_to_cache rt "q" (axis 0.5) (axis 0.5) "alice" "r"
      (PyList []) (PyList []) (PyList []) (PyDict []) "p" (PyDict []) (world_of [] []) =
    (Ok true, w1)
    /\ map Milvus.id (Milvus.rows (coll w1)) = [query_id]
    /\ fst (CacheManager.search_cache rt "q" (axis 0.5) "alice" "p" (PyDict []) w1) =
       Ok Models.miss.
Proof.
  intros query_id Hlen Hplain Hclock.
  eexists. split; [|split].
  - unfold CacheManager.add_to_cache, try_except, bind, lift_result,
      CacheManager._generate_query_id, CacheManager.now, bind, ret.
    cbn [processed_references processed_cited_refs processed_pdf_info py_iter for_each
         rbind fold_left truthy List.length Nat.eqb negb world_of coll clock_reads].
    rewrite insert_entry_ok; [reflexivity | reflexivity | | exact Hplain].
    apply fits_schema_intro; try (vm_compute; congruence).
    + change (Z.of_nat (String.length query_id) <= 100). lia.
    + change (Z.of_nat (String.length (clock rt 1)) <= 30). lia.
  - reflexivity.
  - erewrite search_cache_below_threshold; [reflexivity | vm_compute; reflexivity |].
    vm_compute. reflexivity.
Qed.

(** C1, witness: a runtime whose digest is 64 hexadecimal digits. *)
Lemma lookup_after_insert_misses_witness :
  exists w1,
    CacheManager.add_to_cache example_runtime "q" (axis 0.5) (axis 0.5) "alice" "r"
      (PyList []) (PyList []) (PyList []) (PyDict []) "p" (PyDict []) (world_of [] []) =
    (Ok true, w1)
    /\ map Milvus.id (Milvus.rows (coll w1)) =
       ["e3b0c44298fc1c149afbf4c8996fb92427ae41e4649b934ca495991b7852b855"]
    /\ fst (CacheManager.search_cache example_runtime "q" (axis 0.5) "alice" "p"
              (PyDict []) w1) = Ok Models.miss.
Proof.
  apply (@lookup_after_insert_misses example_runtime).
  - cbn. lia.
  - reflexivity.
  - cbn. lia.
Defined.

(** ** Scope and threshold of a lookup *)

Lemma In_insert_hit h x l : In x (Milvus.insert_hit h l) -> x = h \/ In x l.
Proof.
  induction l as [|y l IH]; cbn.
  - intuition.
  - destruct (PrimFloat.leb (Milvus.score h) (Milvus.score y)); cbn; intuition.
Qed.

Lemma In_rank x l : In x (Milvus.rank l) -> In x l.
Proof.
  induction l as [|h l IH]; cbn; [easy|].
  intro Hin. apply In_insert_hit in Hin as [->|Hin]; [now left | right; now apply IH].
Qed.

(** Under a scope of plain texts the index returns rows of that scope only. *)
Lemma search_in_scope c query_vector field top_k email project_id hits c' :
  plain email = true -> plain project_id = true ->
  Milvus.search c query_vector field top_k
    (Some (CacheManager.scope_expr email project_id)) = (Ok hits, c') ->
  Forall (fun h => in_scope email project_id (Milvus.entity h) = true) hits.
Proof.
  intros He Hp. unfold Milvus.search, Milvus.call.
  destruct (Milvus.tick c) as [[|] c1]; [discriminate|].
  destruct (negb _ || _ || _); [discriminate|].
  destruct (Milvus.vector_field field) as [get|]; [|discriminate].
  rewrite matching_scope by assumption. intros [= <- _].
  apply Forall_forall. intros h Hin.
  apply (@subseq_In _ _ _ _ (subseq_firstn _ _)) in Hin. apply In_rank in Hin.
  apply in_map_iff in Hin as (r & <- & Hr). cbn [Milvus.entity].
  now apply filter_In in Hr.
Qed.

(** X1, scope isolation for plain scopes: when neither the email nor the project
    id holds a double quote or a backslash, an entry a lookup returns was
    stored under that email and that project id. *)
Theorem scope_isolation_of_plain_scopes (rt : Runtime) (query_text : string)
  (query_vector : list float) (email project_id : string) (cache_management : pyval)
  (w : world) (r : Models.CacheSearchResult) :
  plain email = true -> plain project_id = true ->
  fst (CacheManager.search_cache rt query_text query_vector email project_id
         cache_management w) = Ok r ->
  Models.found r = true ->
  exists e, Models.entry r = Some e
            /\ Models.email e = email
            /\ Models.project_id e = project_id.
Proof.
  intros He Hp Hrun Hfound.
  destruct (search_cache_hit _ _ _ _ _ _ _ Hrun Hfound)
    as (h & rest & c & e & Hs & _ & Hentry & _ & _ & Hemail & Hproject & _).
  apply search_in_scope in Hs; try assumption.
  inversion Hs as [|? ? Hh _]; subst. unfold in_scope in Hh.
  apply andb_prop in Hh as [H1 H2].
  apply String.eqb_eq in H1, H2.
  exists e. repeat split; congruence.
Qed.

(** X1, witness: the one stored entry, looked up from afar under its own scope. *)
Lemma scope_isolation_of_plain_scopes_witness :
  exists r e,
    fst (CacheManager.search_cache example_runtime "q" (axis 0) "alice" "p" (PyDict [])
           (one_entry "alice" "p")) = Ok r
    /\ Models.entry r = Some e
    /\ Models.email e = "alice"
    /\ Models.project_id e = "p".
Proof.
  edestruct (@search_cache_found example_runtime "q" (axis 0) "alice" "p" (PyDict [])
               (one_entry "alice" "p")) as (e0 & Hrun & _);
    [vm_compute; reflexivity | vm_compute; reflexivity | vm_compute; reflexivity
    | vm_compute; reflexivity | reflexivity | vm_compute; reflexivity |].
  destruct (@scope_isolation_of_plain_scopes example_runtime "q" (axis 0) "alice" "p"
              (PyDict []) (one_entry "alice" "p") _ eq_refl eq_refl Hrun eq_refl)
    as (e & Hentry & Hemail & Hproject).
  eexists. exists e. split; [exact Hrun | repeat split; assumption].
Defined.

(** X2, the threshold of a lookup: when the score of the best candidate is below
    0.7 the lookup reports [found=false], whatever other candidates there
    are. *)
Theorem below_threshold_is_a_miss (rt : Runtime) (query_text : string)
  (query_vector : list float) (email project_id : string) (cache_management : pyval)
  (w : world) (h : Milvus.hit) (rest : list Milvus.hit) (c : Milvus.collection) :
  Milvus.search (coll w) query_vector "query_vector" 5
    (Some (CacheManager.scope_expr email project_id)) = (Ok (h :: rest), c) ->
  PrimFloat.ltb (Milvus.score h) 0.7%float = true ->
  fst (CacheManager.search_cache rt query_text query_vector email project_id
         cache_management w) = Ok Models.miss.
Proof.
  intros Hs Hlt. now rewrite (search_cache_below_threshold _ _ _ _ _ _ _ Hs Hlt).
Qed.

(** X2, witness: an entry at distance 0.25 of the query. *)
Lemma below_threshold_is_a_miss_witness :
  fst (CacheManager.search_cache example_runtime "q" (axis 0.5) "alice" "p" (PyDict [])
         (world_of [stored_row "e1" (axis 0) "alice" "p" fresh_metadata] [])) =
  Ok Models.miss.
Proof.
  eapply (@below_threshold_is_a_miss example_runtime "q" (axis 0.5) "alice" "p" (PyDict [])
            (world_of [stored_row "e1" (axis 0) "alice" "p" fresh_metadata] [])).
  - vm_compute. reflexivity.
  - vm_compute. reflexivity.
Defined.

(** ** The other normalisations *)

Lemma dict_get_set d k v k' :
  dict_get (dict_set d k v) k' = if String.eqb k k' then Some v else dict_get d k'.
Proof.
  induction d as [|[k0 v0] d IH]; cbn [dict_set dict_get]; [reflexivity|].
  destruct (String.eqb_spec k0 k) as [->|Hk]; cbn [dict_get].
  - now destruct (String.eqb k k').
  - destruct (String.eqb_spec k0 k') as [->|Hk'].
    + destruct (String.eqb_spec k k'); [congruence | reflexivity].
    + exact IH.
Qed.

(** [acc.update(d)]: a key of [d] has the value [d] gives it last, another
    key keeps its value. *)
Lemma dict_get_update d acc k :
  dict_get (dict_update acc d) k =
  match last_binding k d with
  | Some v => Some v
  | None => dict_get acc k
  end.
Proof.
  unfold dict_update. revert acc.
  induction d as [|[k0 v0] d IH]; intro acc; cbn [fold_left last_binding fst snd];
    [reflexivity|].
  rewrite IH. destruct (last_binding k d); [reflexivity|].
  rewrite dict_get_set. now destruct (String.eqb k0 k).
Qed.

(** In a mapping, where a key is bound once, the last binding of a key is
    its binding. *)
Lemma last_binding_of_mapping d k :
  NoDup (map fst d) -> last_binding k d = dict_get d k.
Proof.
  induction d as [|[k0 v0] d IH]; intro Hd; [reflexivity|].
  cbn [map fst] in Hd. inversion Hd as [|? ? Hnin Hd']; subst.
  cbn [last_binding dict_get]. rewrite (IH Hd').
  destruct (String.eqb_spec k0 k) as [->|_]; [|now destruct (dict_get d k)].
  destruct (dict_get d k) as [v|] eqn:Hget; [|reflexivity].
  exfalso. apply Hnin. clear - Hget.
  induction d as [|[k1 v1] d IH]; [discriminate|]. cbn [dict_get] in Hget. cbn [map fst].
  destruct (String.eqb_spec k1 k) as [->|_]; [now left | right; now apply IH].
Qed.

(** The loop over a [pdf_info] that is a list, from any dictionary. *)
Lemma merged_pdf_info items :
  forall acc k,
    dict_get (fold_left (fun acc item => match item with
                                         | PyDict d => dict_update acc d
                                         | _ => acc
                                         end) items acc) k =
    match last_value k items with
    | Some v => Some v
    | None => dict_get acc k
    end.
Proof.
  induction items as [|item items IH]; intros acc k; cbn [fold_left last_value];
    [reflexivity|].
  rewrite IH. destruct (last_value k items); [reflexivity|].
  destruct item; try reflexivity. apply dict_get_update.
Qed.

(** X3, cited references and PDF information: a mapping passes through, an
    integer becomes an index, anything else is wrapped as text; a list has
    its mappings merged, whatever the list: a key has the value that the
    last mapping of the list binding it gives it, a key that no mapping
    binds is absent, and the elements that are no mappings are skipped. *)
Theorem cited_ref_and_pdf_info_normalization (rt : Runtime) :
  (forall d, process_cited_ref rt (PyDict d) = Ok (PyDict d))
  /\ (forall z, process_cited_ref rt (PyInt z) =
                Ok (PyDict [("index", PyInt z); ("text", PyNone); ("page", PyNone);
                            ("file_name", PyNone)]))
  /\ process_cited_ref rt (PyInt 5) =
     Ok (PyDict [("index", PyInt 5); ("text", PyNone); ("page", PyNone);
                 ("file_name", PyNone)])
  /\ (forall d, processed_pdf_info rt (PyDict d) = PyDict d)
  /\ processed_pdf_info rt
       (PyList [PyDict [("a", PyInt 1)]; PyDict [("b", PyInt 2)]; PyDict [("a", PyInt 3)]]) =
     PyDict [("a", PyInt 3); ("b", PyInt 2)]
  /\ (forall s, processed_pdf_info rt (PyStr s) = PyDict [("info", PyStr s)])
  /\ (forall items, exists merged,
        processed_pdf_info rt (PyList items) = PyDict merged
        /\ forall k, dict_get merged k = last_value k items)
  /\ (forall d k, NoDup (map fst d) -> last_binding k d = dict_get d k).
Proof.
  repeat split.
  - eexists. split; [reflexivity|]. intro k. rewrite merged_pdf_info.
    now destruct (last_value k items).
  - now apply last_binding_of_mapping.
Qed.

(** ** [truncate_text] *)

Lemma string_of_list_length l : String.length (string_of_list_ascii l) = List.length l.
Proof. induction l as [|c l IH]; cbn; [reflexivity | now rewrite IH]. Qed.

Lemma list_of_string_length s : List.length (list_ascii_of_string s) = String.length s.
Proof. induction s as [|c s IH]; cbn; [reflexivity | now rewrite IH]. Qed.

Lemma append_length s t : String.length (s ++ t) = (String.length s + String.length t)%nat.
Proof. induction s as [|c s IH]; cbn; [reflexivity | now rewrite IH]. Qed.

Lemma str_slice_prefix_length text k :
  0 <= k ->
  Z.of_nat (String.length (str_slice text 0 k)) = Z.min k (Z.of_nat (String.length text)).
Proof.
  intro Hk. unfold str_slice.
  rewrite string_of_list_length, py_slice_prefix, length_firstn, list_of_string_length by assumption.
  lia.
Qed.

(** X4: for a width of at least 3, [truncate_text] returns a text of at most
    that width: the text itself when it fits, and otherwise its first
    [max_length - 3] characters followed by three dots, [max_length]
    characters in all. *)
Theorem truncate_text_fits (text : string) (max_length : Z) :
  3 <= max_length ->
  Z.of_nat (String.length (ManageCache.truncate_text text max_length)) <= max_length
  /\ (Z.of_nat (String.length text) <= max_length ->
      ManageCache.truncate_text text max_length = text)
  /\ (max_length < Z.of_nat (String.length text) ->
      ManageCache.truncate_text text max_length =
        string_of_list_ascii (firstn (Z.to_nat (max_length - 3)) (list_ascii_of_string text))
        ++ "..."
      /\ Z.of_nat (String.length (ManageCache.truncate_text text max_length)) = max_length).
Proof.
  intro Hmax. unfold ManageCache.truncate_text.
  destruct (String.eqb_spec text "") as [->|Hne].
  - cbn. repeat split; try lia; intro H; cbn in H; lia.
  - destruct (Z.ltb_spec max_length (Z.of_nat (String.length text))) as [Hlt|Hge].
    + assert (Hlen : Z.of_nat (String.length (str_slice text 0 (max_length - 3) ++ "...")) =
                     max_length).
      { rewrite append_length, Nat2Z.inj_add, str_slice_prefix_length by lia. cbn. lia. }
      split; [lia|]. split; [lia|]. intros _. split; [|exact Hlen].
      unfold str_slice. now rewrite py_slice_prefix by lia.
    + split; [lia|]. split; [reflexivity|lia].
Qed.

(** X4, witness: a text of twelve characters cut to a width of ten. *)
Lemma truncate_text_fits_witness :
  ManageCache.truncate_text "abcdefghijkl" 10 = "abcdefg..."
  /\ Z.of_nat (String.length (ManageCache.truncate_text "abcdefghijkl" 10)) <= 10.
Proof.
  split; [reflexivity|].
  exact (proj1 (@truncate_text_fits "abcdefghijkl" 10 ltac:(lia))).
Defined.

(** X5: for a width below 3 the bound is lost: a text longer than the width
    comes back longer than the width (the slice [text[:max_length - 3]] counts
    from the end, and three dots are added). *)
Theorem truncate_text_narrow_width (text : string) (max_length : Z) :
  max_length < 3 ->
  max_length < Z.of_nat (String.length text) ->
  max_length < Z.of_nat (String.length (ManageCache.truncate_text text max_length)).
Proof.
  intros Hmax Hlt. unfold ManageCache.truncate_text.
  destruct (String.eqb_spec text "") as [->|Hne].
  - cbn in *. lia.
  - destruct (Z.ltb_spec max_length (Z.of_nat (String.length text))) as [_|Hge]; [|lia].
    rewrite append_length, Nat2Z.inj_add. cbn [String.length]. lia.
Qed.

(** X5, witness: a width of 2 and a text of five characters give seven. *)
Lemma truncate_text_narrow_width_witness :
  ManageCache.truncate_text "abcde" 2 = "abcd..."
  /\ 2 < Z.of_nat (String.length (ManageCache.truncate_text "abcde" 2)).
Proof.
  split; [reflexivity|].
  exact (@truncate_text_narrow_width "abcde" 2 ltac:(lia) ltac:(cbn; lia)).
Defined.

(** ** Existence checks, counts and deletions *)

Lemma check_entry_exists_answer rows reads query_id :
  plain query_id = true ->
  VectorStore.check_entry_exists query_id
    {| coll := {| Milvus.rows := rows; Milvus.faults := [] |}; clock_reads := reads |} =
  (Ok (existsb (has_id query_id) rows),
   {| coll := {| Milvus.rows := rows; Milvus.faults := [] |}; clock_reads := reads |}).
Proof.
  intro Hp. unfold VectorStore.check_entry_exists, try_except, bind, on_collection, ret.
  cbn [coll clock_reads].
  change ("id == " ++ dq ++ query_id ++ dq) with (CacheManager.id_expr query_id).
  rewrite query_by_id by assumption. do 2 f_equal.
  induction rows as [|r rows IH]; [reflexivity|].
  cbn [filter existsb]. destruct (has_id query_id r); [reflexivity | exact IH].
Qed.

Lemma get_entry_count_answer rows reads :
  VectorStore.get_entry_count
    {| coll := {| Milvus.rows := rows; Milvus.faults := [] |}; clock_reads := reads |} =
  (Ok (Z.of_nat (List.length rows)),
   {| coll := {| Milvus.rows := rows; Milvus.faults := [] |}; clock_reads := reads |}).
Proof. reflexivity. Qed.

Lemma delete_by_id rows entry_id :
  plain entry_id = true ->
  Milvus.delete {| Milvus.rows := rows; Milvus.faults := [] |}
    (CacheManager.id_expr entry_id) =
  (Ok tt, {| Milvus.rows := filter (fun r => negb (has_id entry_id r)) rows;
             Milvus.faults := [] |}).
Proof.
  intro Hp. unfold Milvus.delete. rewrite call_no_fault. cbn [Milvus.rows Milvus.faults].
  rewrite parse_id_expr, select_id by assumption.
  assert (Hf : forall l,
            filter (fun r => match Milvus.eval (Milvus.FCmp "id" Milvus.CEq entry_id) r with
                             | Some true => false
                             | _ => true
                             end) l =
            filter (fun r => negb (has_id entry_id r)) l).
  { intro l. apply filter_ext. intro r. cbn. unfold has_id.
    now destruct (String.eqb (Milvus.id r) entry_id). }
  now rewrite Hf.
Qed.

Lemma existsb_has_id_app query_id l r :
  has_id query_id r = true -> existsb (has_id query_id) (l ++ [r]) = true.
Proof.
  intro Hr. rewrite existsb_app. cbn. rewrite Hr. now rewrite orb_true_r.
Qed.

(** X6: with a store that answers, inserting an entry whose row fits the
    schema and whose id is a plain text succeeds and appends exactly that row:
    the rows stored before stay, the entry count grows by one, and
    [check_entry_exists] of the entry's id answers [True]. *)
Theorem insert_entry_round_trip (entry : Models.CacheEntry) (w : world) :
  Milvus.faults (coll w) = [] ->
  Milvus.fits_schema (VectorStore.entry_row entry) = true ->
  plain (Models.query_id entry) = true ->
  exists w1,
    VectorStore.insert_entry entry w = (Ok true, w1)
    /\ Milvus.rows (coll w1) = (Milvus.rows (coll w) ++ [VectorStore.entry_row entry])%list
    /\ VectorStore.check_entry_exists (Models.query_id entry) w1 = (Ok true, w1)
    /\ fst (VectorStore.get_entry_count w) = Ok (Z.of_nat (List.length (Milvus.rows (coll w))))
    /\ fst (VectorStore.get_entry_count w1) =
       Ok (Z.of_nat (List.length (Milvus.rows (coll w))) + 1).
Proof.
  intros Hf Hfits Hp. eexists. split; [now apply insert_entry_ok|].
  destruct w as [[rows faults] reads]. cbn [coll Milvus.faults Milvus.rows clock_reads] in *.
  subst faults. split; [reflexivity|]. split; [|split].
  - rewrite check_entry_exists_answer by assumption.
    rewrite existsb_has_id_app; [reflexivity|]. apply String.eqb_refl.
  - reflexivity.
  - rewrite get_entry_count_answer. cbn [fst]. rewrite length_app. cbn [List.length].
    f_equal. lia.
Qed.

(** X6, witness: a second entry inserted beside a stored one. *)
Lemma insert_entry_round_trip_witness :
  exists w1,
    VectorStore.insert_entry example_entry (one_entry "alice" "p") = (Ok true, w1)
    /\ VectorStore.check_entry_exists "e2" w1 = (Ok true, w1)
    /\ fst (VectorStore.get_entry_count w1) = Ok 2.
Proof.
  destruct (@insert_entry_round_trip example_entry (one_entry "alice" "p")
              eq_refl eq_refl eq_refl) as (w1 & Hins & _ & Hex & _ & Hcount).
  exists w1. split; [exact Hins|]. split; [exact Hex | exact Hcount].
Defined.

(** X7: [check_entry_exists] answers [False] for an id that is stored
    nowhere, and the same [False] when the call to the store fails. *)
Theorem check_entry_exists_false (query_id : string) (rows : list Milvus.row)
  (reads : nat) (later : list bool) :
  plain query_id = true ->
  Forall (fun r => Milvus.id r <> query_id) rows ->
  fst (VectorStore.check_entry_exists query_id
         {| coll := {| Milvus.rows := rows; Milvus.faults := [] |}; clock_reads := reads |}) =
    Ok false
  /\ fst (VectorStore.check_entry_exists query_id
            {| coll := {| Milvus.rows := rows; Milvus.faults := true :: later |};
               clock_reads := reads |}) = Ok false.
Proof.
  intros Hp Habsent. split; [|reflexivity].
  rewrite check_entry_exists_answer by assumption. cbn [fst]. f_equal.
  induction Habsent as [|r rows Hr _ IH]; [reflexivity|].
  cbn [existsb]. rewrite IH. unfold has_id.
  destruct (String.eqb_spec (Milvus.id r) query_id); [contradiction | reflexivity].
Qed.

(** X7, witness: an id that is not stored. *)
Lemma check_entry_exists_false_witness :
  fst (VectorStore.check_entry_exists "zz" (one_entry "alice" "p")) = Ok false
  /\ fst (VectorStore.check_entry_exists "zz"
            (world_of [stored_row "e1" (axis 2) "alice" "p" fresh_metadata] [true])) =
     Ok false.
Proof.
  apply (@check_entry_exists_false "zz"
           [stored_row "e1" (axis 2) "alice" "p" fresh_metadata] 0 [] eq_refl).
  constructor; [discriminate | constructor].
Defined.

(** X8: with a store that answers, [delete_entry] of a plain id answers
    [True], removes the rows of that id and keeps every other row in its
    place; afterwards [check_entry_exists] of the id answers [False].  It
    answers [True] also when no row had the id; the rows are then as
    before. *)
Theorem delete_entry_removes (entry_id : string) (w : world) :
  plain entry_id = true ->
  Milvus.faults (coll w) = [] ->
  exists w1,
    ManageCache.delete_entry entry_id w = (Ok true, w1)
    /\ Milvus.rows (coll w1) =
       filter (fun r => negb (has_id entry_id r)) (Milvus.rows (coll w))
    /\ VectorStore.check_entry_exists entry_id w1 = (Ok false, w1)
    /\ (Forall (fun r => Milvus.id r <> entry_id) (Milvus.rows (coll w)) ->
        Milvus.rows (coll w1) = Milvus.rows (coll w)).
Proof.
  destruct w as [[rows faults] reads]. cbn [coll Milvus.faults Milvus.rows clock_reads].
  intros Hp ->. eexists. split; [|split; [|split]].
  - unfold ManageCache.delete_entry, try_except, bind, on_collection, ret.
    cbn [coll clock_reads Milvus.load Milvus.call Milvus.tick Milvus.faults Milvus.rows].
    change ("id == " ++ dq ++ entry_id ++ dq) with (CacheManager.id_expr entry_id).
    rewrite delete_by_id by assumption. reflexivity.
  - reflexivity.
  - rewrite check_entry_exists_answer by assumption. do 2 f_equal.
    induction rows as [|r rows IH]; [reflexivity|].
    cbn [filter]. destruct (has_id entry_id r) eqn:E; cbn [negb existsb]; [exact IH|].
    now rewrite E, IH.
  - cbn [coll Milvus.rows]. intro Habsent.
    induction Habsent as [|r rows Hr _ IH]; [reflexivity|].
    cbn [filter]. unfold has_id at 1.
    destruct (String.eqb_spec (Milvus.id r) entry_id); [contradiction|].
    cbn [negb]. now rewrite IH.
Qed.

(** X8, witness: the one stored entry deleted. *)
Lemma delete_entry_removes_witness :
  exists w1,
    ManageCache.delete_entry "e1" (one_entry "alice" "p") = (Ok true, w1)
    /\ Milvus.rows (coll w1) = []
    /\ VectorStore.check_entry_exists "e1" w1 = (Ok false, w1).
Proof.
  destruct (@delete_entry_removes "e1" (one_entry "alice" "p") eq_refl eq_refl)
    as (w1 & Hdel & Hrows & Hex & _).
  exists w1. split; [exact Hdel|]. split; [exact Hrows | exact Hex].
Defined.

(** ** What [add_to_cache] stores *)

Lemma add_to_cache_insert rt query_text query_vector result_vector email result_text
  references pdf_names cited_refs pdf_info project_id cache_management w refs crefs :
  processed_references rt references = Ok refs ->
  processed_cited_refs rt cited_refs = Ok crefs ->
  CacheManager.add_to_cache rt query_text query_vector result_vector email result_text
    references pdf_names cited_refs pdf_info project_id cache_management w =
  try_except
    (bind (VectorStore.insert_entry
             {| Models.query_id :=
                  sha256_hexdigest rt
                    (query_text ++ ":" ++ email ++ ":" ++ project_id ++ ":"
                     ++ clock rt (clock_reads w));
                Models.query_text := query_text;
                Models.query_vector := query_vector;
                Models.result_vector := result_vector;
                Models.email := email;
                Models.result_text := result_text;
                Models.references := PyList refs;
                Models.pdf_names := if truthy pdf_names then pdf_names else PyList [];
                Models.cited_refs := PyList crefs;
                Models.pdf_info := processed_pdf_info rt pdf_info;
                Models.created_at := clock rt (S (clock_reads w));
                Models.last_accessed := clock rt (S (S (clock_reads w)));
                Models.hit_count := PyInt 1;
                Models.relevance_score := 1%float;
                Models.project_id := project_id;
                Models.cache_management := cache_management |})
          (fun _ => ret true))
    (fun _ => ret false)
    {| coll := coll w; clock_reads := S (S (S (clock_reads w))) |}.
Proof.
  intros Hrefs Hcrefs.
  unfold CacheManager.add_to_cache, try_except, bind, lift_result,
    CacheManager._generate_query_id, CacheManager.now, bind, ret.
  rewrite Hrefs, Hcrefs. cbn [coll clock_reads]. reflexivity.
Qed.

(** X9: when the normaliser accepts the references and the cited references,
    the store answers, and the row built from the arguments fits the schema
    under an id that is a plain text, [add_to_cache] answers [True] and
    appends exactly that row: the entry's own scope, texts and vectors, the
    normalised sub-structures, [hit_count] 1 and [relevance_score] 1.0, an id
    that is the digest of text, scope and the first clock reading, and the
    second clock reading as [created_at]. *)
Theorem add_to_cache_stores (rt : Runtime) (query_text : string)
  (query_vector result_vector : list float) (email result_text : string)
  (references pdf_names cited_refs pdf_info : pyval) (project_id : string)
  (cache_management : pyval) (w : world) (refs crefs : list pyval) :
  Milvus.faults (coll w) = [] ->
  processed_references rt references = Ok refs ->
  processed_cited_refs rt cited_refs = Ok crefs ->
  let stored :=
    added_row rt (clock_reads w) query_text query_vector result_vector email result_text
      (PyList refs) pdf_names (PyList crefs) (processed_pdf_info rt pdf_info) project_id
      cache_management in
  Milvus.fits_schema stored = true ->
  plain (Milvus.id stored) = true ->
  CacheManager.add_to_cache rt query_text query_vector result_vector email result_text
    references pdf_names cited_refs pdf_info project_id cache_management w =
  (Ok true,
   {| coll := {| Milvus.rows := (Milvus.rows (coll w) ++ [stored])%list;
                 Milvus.faults := [] |};
      clock_reads := S (S (S (clock_reads w))) |}).
Proof.
  intros Hf Hrefs Hcrefs stored Hfits Hplain.
  erewrite add_to_cache_insert by eassumption.
  unfold try_except, bind.
  rewrite insert_entry_ok; [reflexivity | exact Hf | exact Hfits | exact Hplain].
Qed.

(** X9, witness: one reference given as a list and one cited reference given
    as a number, inserted into an empty collection. *)
Lemma add_to_cache_stores_witness :
  exists stored,
    CacheManager.add_to_cache example_runtime "q" (axis 1) (axis 1) "alice" "r"
      (PyList [PyList [PyFloat 0.5%float; PyStr "t"]]) (PyList []) (PyList [PyInt 2])
      (PyDict []) "p" (PyDict []) (world_of [] []) =
    (Ok true,
     {| coll := {| Milvus.rows := [stored]; Milvus.faults := [] |}; clock_reads := 3 |})
    /\ Milvus.email stored = "alice"
    /\ CacheManager.py_get (Milvus.metadata stored) "hit_count" PyNone = Ok (PyInt 1).
Proof.
  eexists. split; [|split].
  - eapply (@add_to_cache_stores example_runtime "q" (axis 1) (axis 1) "alice" "r"
              (PyList [PyList [PyFloat 0.5%float; PyStr "t"]]) (PyList []) (PyList [PyInt 2])
              (PyDict []) "p" (PyDict []) (world_of [] [])); reflexivity.
  - reflexivity.
  - reflexivity.
Defined.

(** X10: [add_to_cache] can answer [False] for an entry it has stored: when
    the insertion itself succeeds and the flush that follows fails, the row is
    in the collection and the answer is [False]. *)
Theorem add_to_cache_false_after_insert (rt : Runtime) (query_text : string)
  (query_vector result_vector : list float) (email result_text : string)
  (references pdf_names cited_refs pdf_info : pyval) (project_id : string)
  (cache_management : pyval) (w : world) (refs crefs : list pyval) (later : list bool) :
  Milvus.faults (coll w) = false :: false :: false :: true :: later ->
  processed_references rt references = Ok refs ->
  processed_cited_refs rt cited_refs = Ok crefs ->
  let stored :=
    added_row rt (clock_reads w) query_text query_vector result_vector email result_text
      (PyList refs) pdf_names (PyList crefs) (processed_pdf_info rt pdf_info) project_id
      cache_management in
  Milvus.fits_schema stored = true ->
  CacheManager.add_to_cache rt query_text query_vector result_vector email result_text
    references pdf_names cited_refs pdf_info project_id cache_management w =
  (Ok false,
   {| coll := {| Milvus.rows := (Milvus.rows (coll w) ++ [stored])%list;
                 Milvus.faults := later |};
      clock_reads := S (S (S (clock_reads w))) |}).
Proof.
  intros Hf Hrefs Hcrefs stored Hfits.
  erewrite add_to_cache_insert by eassumption.
  destruct w as [[rows faults] reads]. cbn [coll Milvus.faults Milvus.rows clock_reads] in *.
  subst faults.
  unfold try_except, bind, VectorStore.insert_entry, bind, on_collection, ret.
  cbn [coll clock_reads Milvus.load Milvus.flush Milvus.num_entities Milvus.insert
       Milvus.call Milvus.tick Milvus.faults Milvus.rows fst snd].
  change (Milvus.fits_schema (VectorStore.entry_row _)) with (Milvus.fits_schema stored).
  rewrite Hfits. reflexivity.
Qed.

(** X10, witness: a store whose fourth call fails. *)
Lemma add_to_cache_false_after_insert_witness :
  exists stored,
    CacheManager.add_to_cache example_runtime "q" (axis 1) (axis 1) "alice" "r"
      (PyList []) (PyList []) (PyList []) (PyDict []) "p" (PyDict [])
      (world_of [] [false; false; false; true]) =
    (Ok false,
     {| coll := {| Milvus.rows := [stored]; Milvus.faults := [] |}; clock_reads := 3 |}).
Proof.
  eexists.
  eapply (@add_to_cache_false_after_insert example_runtime "q" (axis 1) (axis 1) "alice" "r"
            (PyList []) (PyList []) (PyList []) (PyDict []) "p" (PyDict [])
            (world_of [] [false; false; false; true])); reflexivity.
Defined.

(** ** Calls that leave the rows alone *)

Lemma call_keeps_rows {A} c (body : Milvus.collection -> result A * Milvus.collection) :
  (forall c', Milvus.rows (snd (body c')) = Milvus.rows c') ->
  Milvus.rows (snd (Milvus.call c body)) = Milvus.rows c.
Proof.
  intro Hbody. unfold Milvus.call, Milvus.tick.
  destruct c as [rows [|[|] fs]]; cbn [Milvus.faults Milvus.rows snd];
    try reflexivity; now rewrite Hbody.
Qed.

Lemma load_keeps_rows c : Milvus.rows (snd (Milvus.load c)) = Milvus.rows c.
Proof. apply call_keeps_rows. reflexivity. Qed.

Lemma flush_keeps_rows c : Milvus.rows (snd (Milvus.flush c)) = Milvus.rows c.
Proof. apply call_keeps_rows. reflexivity. Qed.

Lemma num_entities_keeps_rows c : Milvus.rows (snd (Milvus.num_entities c)) = Milvus.rows c.
Proof. apply call_keeps_rows. reflexivity. Qed.

Lemma query_keeps_rows c expr limit offset newest :
  Milvus.rows (snd (Milvus.query c expr limit offset newest)) = Milvus.rows c.
Proof.
  apply call_keeps_rows. intro c'.
  now destruct (Milvus.matching (Some expr) (Milvus.rows c')).
Qed.

Lemma search_keeps_rows c v field limit expr :
  Milvus.rows (snd (Milvus.search c v field limit expr)) = Milvus.rows c.
Proof.
  apply call_keeps_rows. intro c'.
  destruct (negb _ || _ || _); [reflexivity|].
  destruct (Milvus.vector_field field); [|reflexivity].
  now destruct (Milvus.matching expr (Milvus.rows c')).
Qed.

Lemma insert_appends c r :
  (fst (Milvus.insert c r) = Ok tt
   /\ Milvus.rows (snd (Milvus.insert c r)) = (Milvus.rows c ++ [r])%list)
  \/ ((exists e, fst (Milvus.insert c r) = Raise e)
      /\ Milvus.rows (snd (Milvus.insert c r)) = Milvus.rows c).
Proof.
  unfold Milvus.insert, Milvus.call, Milvus.tick.
  destruct c as [rows [|[|] fs]]; cbn [Milvus.faults Milvus.rows fst snd];
    try (right; split; [eexists|]; reflexivity);
    destruct (Milvus.fits_schema r); cbn [fst snd Milvus.rows];
      (left; split; reflexivity) || (right; split; [eexists|]; reflexivity).
Qed.

(** Whatever the store does, [insert_entry] leaves the rows as they were or
    appends the entry's row, and it returns only after appending it. *)
Lemma insert_entry_appends entry w :
  let out := VectorStore.insert_entry entry w in
  (Milvus.rows (coll (snd out)) = Milvus.rows (coll w)
   \/ Milvus.rows (coll (snd out)) =
      (Milvus.rows (coll w) ++ [VectorStore.entry_row entry])%list)
  /\ (forall b, fst out = Ok b ->
      b = true
      /\ Milvus.rows (coll (snd out)) =
         (Milvus.rows (coll w) ++ [VectorStore.entry_row entry])%list)
  /\ clock_reads (snd out) = clock_reads w.
Proof.
  cbv zeta. unfold VectorStore.insert_entry, bind, on_collection, ret.
  pose proof (load_keeps_rows (coll w)) as H1.
  destruct (Milvus.load (coll w)) as [[[]|e1] c1]; cbn [fst snd coll clock_reads] in *;
    [|split; [now left | split; [discriminate | reflexivity]]].
  pose proof (num_entities_keeps_rows c1) as H2.
  destruct (Milvus.num_entities c1) as [[n|e2] c2]; cbn [fst snd coll clock_reads] in *;
    [|split; [left; congruence | split; [discriminate | reflexivity]]].
  destruct (insert_appends c2 (VectorStore.entry_row entry)) as [[Hok H3]|[[e3 Hr] H3]];
    destruct (Milvus.insert c2 (VectorStore.entry_row entry)) as [[[]|e3'] c3];
    cbn [fst snd coll clock_reads] in *; try discriminate;
    try (split; [left; congruence | split; [discriminate | reflexivity]]).
  assert (Hrows : Milvus.rows c3 = (Milvus.rows (coll w) ++ [VectorStore.entry_row entry])%list)
    by congruence.
  pose proof (flush_keeps_rows c3) as H4.
  destruct (Milvus.flush c3) as [[[]|e4] c4]; cbn [fst snd coll clock_reads] in *;
    [|split; [right; congruence | split; [discriminate | reflexivity]]].
  pose proof (num_entities_keeps_rows c4) as H5.
  destruct (Milvus.num_entities c4) as [[n5|e5] c5]; cbn [fst snd coll clock_reads] in *;
    [|split; [right; congruence | split; [discriminate | reflexivity]]].
  pose proof (query_keeps_rows c5 ("id == " ++ dq ++ Models.query_id entry ++ dq)
                (Some 1) 0 false) as H6.
  destruct (Milvus.query c5 _ (Some 1) 0 false) as [[r6|e6] c6];
    cbn [fst snd coll clock_reads] in *;
    [|split; [right; congruence | split; [discriminate | reflexivity]]].
  pose proof (query_keeps_rows c6 "" (Some 5) 0 false) as H7.
  destruct (Milvus.query c6 "" (Some 5) 0 false) as [[r7|e7] c7];
    cbn [fst snd coll clock_reads] in *;
    [|split; [right; congruence | split; [discriminate | reflexivity]]].
  split; [right; congruence|]. split; [|reflexivity].
  intros b [= <-]. split; [reflexivity | congruence].
Qed.

(** X11: [add_to_cache] never touches a stored row: in every state of the
    world and for every input, the rows after the call are the rows before,
    possibly followed by one new row, and the answer [True] is given only
    when the new row is there.  Nothing is said of how the call ends when it
    does not answer [True]: the rows are these whether the handler returns
    or its log line raises. *)
Theorem add_to_cache_only_appends (rt : Runtime) (query_text : string)
  (query_vector result_vector : list float) (email result_text : string)
  (references pdf_names cited_refs pdf_info : pyval) (project_id : string)
  (cache_management : pyval) (w : world) :
  let out := CacheManager.add_to_cache rt query_text query_vector result_vector email
               result_text references pdf_names cited_refs pdf_info project_id
               cache_management w in
  (Milvus.rows (coll (snd out)) = Milvus.rows (coll w)
   \/ exists r, Milvus.rows (coll (snd out)) = (Milvus.rows (coll w) ++ [r])%list)
  /\ (fst out = Ok true ->
      exists r, Milvus.rows (coll (snd out)) = (Milvus.rows (coll w) ++ [r])%list).
Proof.
  cbv zeta.
  destruct (processed_references rt references) as [refs|e] eqn:Hrefs.
  2:{ assert (Hrun : CacheManager.add_to_cache rt query_text query_vector result_vector
                       email result_text references pdf_names cited_refs pdf_info
                       project_id cache_management w = (Ok false, w)).
      { unfold CacheManager.add_to_cache, try_except, bind, lift_result. now rewrite Hrefs. }
      rewrite Hrun. cbn [fst snd]. split; [now left | discriminate]. }
  destruct (processed_cited_refs rt cited_refs) as [crefs|e] eqn:Hcrefs.
  2:{ assert (Hrun : CacheManager.add_to_cache rt query_text query_vector result_vector
                       email result_text references pdf_names cited_refs pdf_info
                       project_id cache_management w = (Ok false, w)).
      { unfold CacheManager.add_to_cache, try_except, bind, lift_result.
        now rewrite Hrefs, Hcrefs. }
      rewrite Hrun. cbn [fst snd]. split; [now left | discriminate]. }
  erewrite add_to_cache_insert by eassumption.
  unfold try_except, bind.
  match goal with
  | |- context [VectorStore.insert_entry ?en ?w0] =>
    destruct (insert_entry_appends en w0) as (Hrows & Hok & _);
    destruct (VectorStore.insert_entry en w0) as [[b|e] w1]
  end; cbn [fst snd coll] in *.
  - destruct (Hok b eq_refl) as [-> Happ].
    split; [right|intros _]; eexists; exact Happ.
  - split; [|discriminate].
    destruct Hrows as [H|H]; [now left | right; eexists; exact H].
Qed.

(** ** More on hit accounting *)

Lemma increment_hit_count_refuses w entry_id :
  plain entry_id = true ->
  Milvus.faults (coll w) = [] ->
  (filter (has_id entry_id) (Milvus.rows (coll w)) = []
   \/ exists first others e,
        filter (has_id entry_id) (Milvus.rows (coll w)) = first :: others
        /\ CacheManager.incremented (Milvus.metadata first) = Raise e) ->
  CacheManager.increment_hit_count entry_id w = (Ok false, w).
Proof.
  destruct w as [[rows faults] reads]. cbn [coll Milvus.faults Milvus.rows clock_reads].
  intros Hp -> Hcase.
  unfold CacheManager.increment_hit_count, try_except, bind, VectorStore.get_collection,
    on_collection, ret, lift_result, try_except, bind.
  cbn [coll clock_reads Milvus.load Milvus.num_entities Milvus.call Milvus.tick
       Milvus.faults Milvus.rows fst snd].
  rewrite query_by_id by assumption.
  destruct Hcase as [->|(first & others & e & -> & ->)]; reflexivity.
Qed.

(** X12: hit accounting refuses without changing anything.  With a store
    that answers and for an id that is a plain text (no double quote, no
    backslash): when no row carries the id, and when the stored [hit_count]
    of the entry is no number (a text, [None], a list),
    [increment_hit_count] answers [False] and the world is as before. *)
Theorem hit_accounting_refusals (w : world) (entry_id : string) :
  plain entry_id = true ->
  Milvus.faults (coll w) = [] ->
  (Forall (fun r => Milvus.id r <> entry_id) (Milvus.rows (coll w)) ->
   CacheManager.increment_hit_count entry_id w = (Ok false, w))
  /\ (forall first others d v,
        filter (has_id entry_id) (Milvus.rows (coll w)) = first :: others ->
        Milvus.metadata first = PyDict d ->
        dict_get d "hit_count" = Some v ->
        (forall z, v <> PyInt z) -> (forall b, v <> PyBool b) -> (forall x, v <> PyFloat x) ->
        CacheManager.increment_hit_count entry_id w = (Ok false, w)).
Proof.
  intros Hp Hf. split.
  - intro Habsent. apply increment_hit_count_refuses; try assumption. left.
    induction Habsent as [|r rows Hr _ IH]; [reflexivity|].
    cbn [filter]. unfold has_id at 1.
    destruct (String.eqb_spec (Milvus.id r) entry_id); [contradiction | exact IH].
  - intros first others d v Hfirst Hmeta Hget Hz Hb Hx.
    apply increment_hit_count_refuses; try assumption. right.
    exists first, others, TypeError. split; [exact Hfirst|].
    unfold CacheManager.incremented. rewrite Hmeta, Hget.
    destruct v; try reflexivity; [now elim (Hb b) | now elim (Hz z) | now elim (Hx f)].
Qed.

(** X12, witness: an unknown id, and an entry whose count is a text. *)
Lemma hit_accounting_refusals_witness :
  CacheManager.increment_hit_count "zz" (one_entry "alice" "p") =
    (Ok false, one_entry "alice" "p")
  /\ CacheManager.increment_hit_count "e1"
       (world_of [stored_row "e1" (axis 2) "alice" "p" (PyDict [("hit_count", PyStr "3")])] []) =
     (Ok false,
      world_of [stored_row "e1" (axis 2) "alice" "p" (PyDict [("hit_count", PyStr "3")])] []).
Proof.
  split.
  - apply (proj1 (@hit_accounting_refusals (one_entry "alice" "p") "zz" eq_refl eq_refl)).
    constructor; [discriminate | constructor].
  - eapply (proj2 (@hit_accounting_refusals
                     (world_of [stored_row "e1" (axis 2) "alice" "p"
                                  (PyDict [("hit_count", PyStr "3")])] [])
                     "e1" eq_refl eq_refl));
      try reflexivity; intros; discriminate.
Defined.

Lemma dict_set_twice d k v v' : dict_set (dict_set d k v) k v' = dict_set d k v'.
Proof.
  induction d as [|[k0 v0] d IH]; cbn.
  - now rewrite String.eqb_refl.
  - destruct (String.eqb k0 k) eqn:E; cbn.
    + now rewrite String.eqb_refl.
    + now rewrite E, IH.
Qed.

Lemma filter_has_id_updated entry_id m rows :
  filter (has_id entry_id)
    (map (fun r => if has_id entry_id r then Milvus.set_metadata m r else r) rows) =
  map (Milvus.set_metadata m) (filter (has_id entry_id) rows).
Proof.
  induction rows as [|r rows IH]; [reflexivity|].
  cbn [map filter]. destruct (has_id entry_id r) eqn:E.
  - change (has_id entry_id (Milvus.set_metadata m r)) with (has_id entry_id r).
    rewrite E. cbn [map]. now rewrite IH.
  - now rewrite E, IH.
Qed.

Lemma map_updated_twice entry_id m m' rows :
  map (fun r => if has_id entry_id r then Milvus.set_metadata m' r else r)
    (map (fun r => if has_id entry_id r then Milvus.set_metadata m r else r) rows) =
  map (fun r => if has_id entry_id r then Milvus.set_metadata m' r else r) rows.
Proof.
  rewrite map_map. apply map_ext. intro r.
  destruct (has_id entry_id r) eqn:E.
  - change (has_id entry_id (Milvus.set_metadata m r)) with (has_id entry_id r).
    now rewrite E.
  - now rewrite E.
Qed.

(** X13: two hits one after the other count twice: under the conditions of a
    successful hit accounting, running [increment_hit_count] twice leaves the
    entry with [hit_count] two higher and every other key of its metadata, and
    every other row, as before. *)
Theorem two_hits_count_twice (w : world) (entry_id : string) (first : Milvus.row)
  (d : list (string * pyval)) (n : Z) :
  plain entry_id = true ->
  Milvus.faults (coll w) = [] ->
  filter (has_id entry_id) (Milvus.rows (coll w)) = [first] ->
  Milvus.metadata first = PyDict d ->
  match dict_get d "hit_count" with
  | Some v => v
  | None => PyInt 0
  end = PyInt n ->
  exists w2,
    (CacheManager.increment_hit_count entry_id ;;
     CacheManager.increment_hit_count entry_id) w = (Ok true, w2)
    /\ Milvus.rows (coll w2) =
       map (fun r => if has_id entry_id r
                     then Milvus.set_metadata
                            (PyDict (dict_set d "hit_count" (PyInt (n + 2)))) r
                     else r) (Milvus.rows (coll w))
    /\ clock_reads w2 = clock_reads w.
Proof.
  intros Hp Hf Hfirst Hmeta Hcount.
  assert (H1 : CacheManager.incremented (Milvus.metadata first) =
               Ok (PyDict (dict_set d "hit_count" (PyInt (n + 1))))).
  { unfold CacheManager.incremented. now rewrite Hmeta, Hcount. }
  pose proof (@increment_hit_count_stores w entry_id first [] _ Hp Hf Hfirst H1) as Hrun1.
  set (m1 := PyDict (dict_set d "hit_count" (PyInt (n + 1)))) in *.
  set (w1 := {| coll := {| Milvus.rows :=
                             map (fun r => if has_id entry_id r
                                           then Milvus.set_metadata m1 r else r)
                                 (Milvus.rows (coll w));
                           Milvus.faults := [] |};
                clock_reads := clock_reads w |}) in *.
  assert (Hfirst1 : filter (has_id entry_id) (Milvus.rows (coll w1)) =
                    [Milvus.set_metadata m1 first]).
  { unfold w1. cbn [coll Milvus.rows]. now rewrite filter_has_id_updated, Hfirst. }
  assert (H2 : CacheManager.incremented (Milvus.metadata (Milvus.set_metadata m1 first)) =
               Ok (PyDict (dict_set d "hit_count" (PyInt (n + 2))))).
  { unfold CacheManager.incremented, m1. cbn [Milvus.metadata Milvus.set_metadata].
    rewrite dict_get_set_same. cbn [CacheManager.py_add_one rbind].
    rewrite dict_set_twice. do 4 f_equal. lia. }
  pose proof (@increment_hit_count_stores w1 entry_id _ [] _ Hp eq_refl Hfirst1 H2) as Hrun2.
  eexists. split; [|split].
  - unfold bind. rewrite Hrun1. exact Hrun2.
  - cbn [coll Milvus.rows]. unfold w1. cbn [coll Milvus.rows]. apply map_updated_twice.
  - reflexivity.
Qed.

(** X13, witness: the stored entry of the examples, hit twice. *)
Lemma two_hits_count_twice_witness :
  exists w2,
    (CacheManager.increment_hit_count "e1" ;;
     CacheManager.increment_hit_count "e1") (one_entry "alice" "p") = (Ok true, w2)
    /\ map (fun r => CacheManager.py_get (Milvus.metadata r) "hit_count" PyNone)
           (Milvus.rows (coll w2)) = [Ok (PyInt 3)].
Proof.
  destruct (@two_hits_count_twice (one_entry "alice" "p") "e1"
              (stored_row "e1" (axis 2) "alice" "p" fresh_metadata)
              [("references", PyList []); ("pdf_names", PyList []);
               ("cited_refs", PyList []); ("pdf_info", PyDict []);
               ("hit_count", PyInt 1); ("relevance_score", PyFloat 1%float);
               ("cache_management", PyDict [])]
              1 eq_refl eq_refl eq_refl eq_refl eq_refl) as (w2 & Hrun & Hrows & _).
  exists w2. split; [exact Hrun|]. rewrite Hrows. reflexivity.
Defined.

(** ** The pages of the listings *)

Lemma with_result_vectors_run rt l w :
  CacheManager.with_result_vectors rt l w = (Ok (map (with_vector rt) l), w).
Proof.
  induction l as [|e l IH]; [reflexivity|].
  cbn [CacheManager.with_result_vectors map]. unfold bind at 1.
  unfold with_vector at 1.
  destruct (VectorStore.l_result_vector e).
  - unfold ret at 1. unfold bind. rewrite IH. reflexivity.
  - unfold bind at 1. rewrite generate_embedding_run. unfold ret at 1.
    unfold bind. rewrite IH. reflexivity.
Qed.

Lemma firstn_min_length {A} (l : list A) k :
  firstn (Nat.min k (List.length l)) l = firstn k l.
Proof.
  destruct (Nat.le_ge_cases k (List.length l)) as [H|H].
  - now rewrite Nat.min_l.
  - rewrite Nat.min_r by assumption. rewrite firstn_all. symmetry. now apply firstn_all2.
Qed.

(** A slice from [a] to the smaller of [a + page_size] and the end is the
    window of [page_size] elements from [a] on. *)
Lemma py_slice_window {A} (l : list A) a page_size :
  0 <= a -> 0 < page_size ->
  py_slice l a (Z.min (a + page_size) (Z.of_nat (List.length l))) =
  firstn (Z.to_nat page_size) (skipn (Z.to_nat a) l).
Proof.
  intros Ha Hps. unfold py_slice, clamp_index.
  destruct (Z.ltb_spec a 0); [lia|].
  destruct (Z.ltb_spec (Z.min (a + page_size) (Z.of_nat (List.length l))) 0); [lia|].
  destruct (Z.le_gt_cases (Z.of_nat (List.length l)) a) as [Hout|Hin].
  - rewrite !skipn_all2 by lia. now rewrite !firstn_nil.
  - replace (Z.max 0 (Z.min (Z.of_nat (List.length l)) a)) with a by lia.
    rewrite <- (firstn_min_length (skipn (Z.to_nat a) l) (Z.to_nat page_size)).
    f_equal. rewrite length_skipn. lia.
Qed.

(** X14: with a store that answers and holds at most the hundred rows
    [get_all_entries] asks for, page [page] (from 1) of [get_cache_entries] is
    the window of [page_size] entries that starts after the earlier pages in
    the listing (newest [created_at] first), each entry completed with a
    [result_vector]; the count returned is the number of stored rows and the
    world is unchanged. *)
Theorem listing_page_is_window (rt : Runtime) (w : world) (page_size page : Z) :
  Milvus.faults (coll w) = [] -> 0 < page_size -> 1 <= page ->
  Z.of_nat (List.length (Milvus.rows (coll w))) <= 100 ->
  CacheManager.get_cache_entries rt page_size page w =
  (Ok (map (with_vector rt)
         (page_window page_size page
            (map VectorStore.of_row
               (fold_right Milvus.insert_newest [] (Milvus.rows (coll w))))),
       Z.of_nat (List.length (Milvus.rows (coll w)))), w)
  /\ Forall (fun e => VectorStore.l_result_vector e <> None)
       (map (with_vector rt)
          (page_window page_size page
             (map VectorStore.of_row
                (fold_right Milvus.insert_newest [] (Milvus.rows (coll w)))))).
Proof.
  intros Hf Hps Hpage Hn. split.
  2:{ apply Forall_forall. intros e He. apply in_map_iff in He as (e0 & <- & _).
      unfold with_vector. destruct (VectorStore.l_result_vector e0) eqn:E.
      - rewrite E. discriminate.
      - discriminate. }
  destruct w as [[rows faults] reads]. cbn [coll Milvus.faults Milvus.rows] in *. subst faults.
  destruct rows as [|r rows].
  - unfold page_window. cbn [fold_right map List.length]. rewrite skipn_nil, firstn_nil.
    reflexivity.
  - set (all := r :: rows) in *.
    set (sorted := fold_right Milvus.insert_newest [] all).
    assert (Hsorted : List.length sorted = List.length all) by apply newest_first_length.
    set (w0 := {| coll := {| Milvus.rows := all; Milvus.faults := [] |}; clock_reads := reads |}).
    assert (Hall : VectorStore.get_all_entries 100 0 w0 =
                   (Ok (map VectorStore.of_row (firstn (Z.to_nat 100) sorted)), w0))
      by reflexivity.
    assert (Hcap : firstn (Z.to_nat 100) sorted = sorted) by (apply firstn_all2; lia).
    rewrite Hcap in Hall.
    unfold CacheManager.get_cache_entries, try_except, bind. rewrite Hall.
    rewrite length_map, Hsorted.
    destruct (Z.eqb_spec (Z.of_nat (List.length all)) 0) as [E|_].
    { unfold all in E. cbn [List.length] in E. lia. }
    rewrite with_result_vectors_run. unfold ret.
    rewrite <- Hsorted, <- (length_map VectorStore.of_row sorted).
    rewrite py_slice_window by nia. unfold page_window.
    now rewrite length_map, Hsorted.
Qed.

(** X14, witness: three stored entries read two to a page; the second page
    holds the one that is left. *)
Lemma listing_page_is_window_witness :
  map VectorStore.l_id
    match fst (CacheManager.get_cache_entries example_runtime 2 2
                 (world_of [stored_row "a" (axis 0) "u" "p" fresh_metadata;
                            stored_row "b" (axis 0) "u" "p" fresh_metadata;
                            stored_row "c" (axis 0) "u" "p" fresh_metadata] [])) with
    | Ok (entries, _) => entries
    | Raise _ => []
    end = ["c"].
Proof.
  rewrite (proj1 (@listing_page_is_window example_runtime
                    (world_of [stored_row "a" (axis 0) "u" "p" fresh_metadata;
                               stored_row "b" (axis 0) "u" "p" fresh_metadata;
                               stored_row "c" (axis 0) "u" "p" fresh_metadata] [])
                    2 2 eq_refl ltac:(lia) ltac:(lia) ltac:(cbn; lia))).
  reflexivity.
Defined.

(** X15: the console's [get_cache_entries] reads at most a hundred rows and
    cuts its pages out of those, while the count it returns is the number of
    all stored rows: page [page] is the window of the first hundred rows, and
    a page that starts at or after the hundredth row is empty however many
    rows are stored. *)
Theorem console_listing_is_capped (json_loads : string -> option pyval) (w : world)
  (page_size page : Z) :
  Milvus.faults (coll w) = [] -> 0 < page_size -> 1 <= page ->
  Milvus.rows (coll w) <> [] ->
  ManageCache.get_cache_entries json_loads page_size page w =
  (Ok (map (ManageCache.processed json_loads)
         (page_window page_size page (firstn 100 (Milvus.rows (coll w)))),
       Z.of_nat (List.length (Milvus.rows (coll w)))), w)
  /\ (100 <= (page - 1) * page_size ->
      ManageCache.get_cache_entries json_loads page_size page w =
      (Ok ([], Z.of_nat (List.length (Milvus.rows (coll w)))), w)).
Proof.
  intros Hf Hps Hpage Hne.
  assert (Hrun : ManageCache.get_cache_entries json_loads page_size page w =
                 (Ok (map (ManageCache.processed json_loads)
                        (page_window page_size page (firstn 100 (Milvus.rows (coll w)))),
                      Z.of_nat (List.length (Milvus.rows (coll w)))), w)).
  { destruct w as [[rows faults] reads]. cbn [coll Milvus.faults Milvus.rows] in *.
    subst faults. destruct rows as [|r rows]; [contradiction|].
    set (all := r :: rows) in *.
    unfold ManageCache.get_cache_entries, try_except, bind, on_collection, ret.
    cbn [coll clock_reads Milvus.num_entities Milvus.call Milvus.tick Milvus.faults
         Milvus.rows fst snd].
    destruct (Z.eqb_spec (Z.of_nat (List.length all)) 0) as [E|_].
    { unfold all in E. cbn [List.length] in E. lia. }
    unfold Milvus.query.
    cbn [Milvus.matching String.eqb Milvus.rows Milvus.faults Milvus.call Milvus.tick
         coll clock_reads skipn].
    change (Z.to_nat 0) with 0%nat. cbn [skipn].
    rewrite py_slice_window by nia. reflexivity. }
  split; [exact Hrun|].
  intro Hfar. rewrite Hrun. unfold page_window.
  rewrite skipn_all2; [now rewrite firstn_nil|].
  rewrite length_firstn. lia.
Qed.

(** X15, witness: a hundred and one rows, twenty to a page: the sixth page
    is empty and the count is 101. *)
Lemma console_listing_is_capped_witness :
  ManageCache.get_cache_entries (fun _ => None) ManageCache.default_page_size 6
    (world_of (repeat (stored_row "e" [] "u" "p" PyNone) 101) []) =
  (Ok ([], 101), world_of (repeat (stored_row "e" [] "u" "p" PyNone) 101) []).
Proof.
  apply (proj2 (@console_listing_is_capped (fun _ => None)
                  (world_of (repeat (stored_row "e" [] "u" "p" PyNone) 101) [])
                  ManageCache.default_page_size 6 eq_refl ltac:(reflexivity) ltac:(lia)
                  ltac:(discriminate))).
  cbn. lia.
Defined.

(** ** Keyword filters *)

Lemma like_wildcard_unfold p s :
  Milvus.like (String "%" p) s =
  Milvus.like p s || match s with
                     | EmptyString => false
                     | String _ s' => Milvus.like (String "%" p) s'
                     end.
Proof. destruct s; reflexivity. Qed.

Lemma like_wildcard_alone s : Milvus.like "%" s = true.
Proof.
  induction s as [|c s IH]; [reflexivity|].
  rewrite like_wildcard_unfold. now rewrite IH, orb_true_r.
Qed.

Lemma like_wildcard_first p s :
  Milvus.like (String "%" p) s = true <->
  exists before rest, s = before ++ rest /\ Milvus.like p rest = true.
Proof.
  split.
  - induction s as [|c s IH]; rewrite like_wildcard_unfold; intro H;
      apply orb_prop in H as [H|H].
    + now exists "", "".
    + discriminate.
    + now exists "", (String c s).
    + destruct (IH H) as (before & rest & -> & Hrest).
      now exists (String c before), rest.
  - intros (before & rest & -> & Hrest).
    induction before as [|c before IH]; rewrite like_wildcard_unfold.
    + cbn [append]. now rewrite Hrest.
    + cbn [append]. now rewrite IH, orb_true_r.
Qed.

Lemma like_plain_prefix k p t :
  no_wildcard k = true ->
  Milvus.like (k ++ p) t = true <-> exists rest, t = k ++ rest /\ Milvus.like p rest = true.
Proof.
  revert t. induction k as [|c k IH]; intros t Hk; cbn [append].
  - split; [intro H; now exists t | now intros (rest & -> & H)].
  - cbn [no_wildcard] in Hk. apply andb_prop in Hk as [Hc Hk].
    apply negb_true_iff in Hc. cbn [Milvus.like]. rewrite Hc.
    destruct t as [|d t].
    + split; [discriminate | intros (rest & [=] & _)].
    + split.
      * intro H. apply andb_prop in H as [Hd H]. apply Ascii.eqb_eq in Hd as ->.
        apply (IH t Hk) in H as (rest & -> & Hrest). now exists rest.
      * intros (rest & [= -> ->] & Hrest). rewrite Ascii.eqb_refl. cbn [andb].
        apply (IH _ Hk). now exists rest.
Qed.

(** The pattern [%keyword%] selects the texts in which the keyword occurs. *)
Lemma like_occurs keyword text :
  no_wildcard keyword = true ->
  Milvus.like ("%" ++ keyword ++ "%") text = true <-> occurs_in keyword text.
Proof.
  intro Hk. cbn [append]. rewrite like_wildcard_first. unfold occurs_in. split.
  - intros (before & rest & -> & H).
    apply (like_plain_prefix keyword "%" rest Hk) in H as (after & -> & _).
    now exists before, after.
  - intros (before & after & ->). exists before, (keyword ++ after). split; [reflexivity|].
    apply (like_plain_prefix keyword "%" _ Hk). exists after. split; [reflexivity|].
    apply like_wildcard_alone.
Qed.

Lemma append_assoc s t u : (s ++ t) ++ u = s ++ t ++ u.
Proof. induction s as [|c s IH]; cbn; [reflexivity | now rewrite IH]. Qed.

Lemma plain_app s t : plain s = true -> plain t = true -> plain (s ++ t) = true.
Proof.
  induction s as [|c s IH]; cbn; [easy|].
  intros H Ht. apply andb_prop in H as [Hc Hs]. now rewrite Hc, IH.
Qed.

Lemma pattern_plain keyword : plain keyword = true -> plain ("%" ++ keyword ++ "%") = true.
Proof. intro H. apply (plain_app "%"); [reflexivity | now apply plain_app]. Qed.

(** A quoted pattern, read from its opening quote on. *)
Lemma lex_pattern keyword rest :
  plain keyword = true ->
  Milvus.lex_from (Milvus.Lit "") ("%" ++ keyword ++ "%" ++ dq ++ rest) =
  option_map (cons (Milvus.TString ("%" ++ keyword ++ "%")))
    (Milvus.lex_from Milvus.Start rest).
Proof.
  intro Hp.
  replace ("%" ++ keyword ++ "%" ++ dq ++ rest)
    with (("%" ++ keyword ++ "%") ++ String Milvus.dquote rest).
  - now rewrite lex_literal by now apply pattern_plain.
  - cbn [append]. f_equal. now rewrite append_assoc.
Qed.

Lemma parse_like_result_text keyword :
  plain keyword = true ->
  Milvus.parse (VectorStore.like_expr "result_text" keyword) =
  Some (Milvus.FCmp "result_text" Milvus.CLike ("%" ++ keyword ++ "%")).
Proof.
  intro Hp. unfold Milvus.parse, Milvus.lex.
  change (VectorStore.like_expr "result_text" keyword)
    with ("result_text like " ++ dq ++ "%" ++ keyword ++ "%" ++ dq).
  rewrite (lex_up_to_literal "result_text like "
             (ts := [Milvus.TIdent "result_text"; Milvus.TOp Milvus.CLike]))
    by (vm_compute; reflexivity).
  replace ("%" ++ keyword ++ "%" ++ dq) with ("%" ++ keyword ++ "%" ++ dq ++ "")
    by (now rewrite (append_empty dq)).
  rewrite lex_pattern by assumption. reflexivity.
Qed.

Lemma select_like_result_text pattern l :
  Milvus.select (Milvus.FCmp "result_text" Milvus.CLike pattern) l =
  Some (filter (fun r => Milvus.like pattern (Milvus.result_text r)) l).
Proof.
  induction l as [|r l IH]; [reflexivity|].
  cbn [Milvus.select filter]. rewrite IH. reflexivity.
Qed.

(** The search for a keyword that is a plain text without [%]. *)
Lemma keyword_search_of_plain_keyword (keyword : string) (limit : Z) (w : world) :
  plain keyword = true -> no_wildcard keyword = true ->
  exists entries w',
    VectorStore.keyword_search keyword "result_text" limit w = (Ok entries, w')
    /\ Forall (fun e => occurs_in keyword (VectorStore.l_result_text e)
                        /\ exists r, In r (Milvus.rows (coll w)) /\ e = VectorStore.of_row r)
         entries
    /\ (0 <= limit -> Z.of_nat (List.length entries) <= limit)
    /\ Milvus.rows (coll w') = Milvus.rows (coll w).
Proof.
  intros Hp Hk.
  unfold VectorStore.keyword_search, try_except, bind, on_collection, ret.
  pose proof (load_keeps_rows (coll w)) as H1.
  destruct (Milvus.load (coll w)) as [[[]|e1] c1]; cbn [fst snd coll clock_reads] in *.
  2:{ eexists _, _. split; [reflexivity|]. split; [constructor|].
      split; [cbn; lia | exact H1]. }
  pose proof (query_keeps_rows c1 (VectorStore.like_expr "result_text" keyword)
                (Some limit) 0 false) as H2.
  unfold Milvus.query, Milvus.call in *.
  destruct (Milvus.tick c1) as [[|] c2] eqn:Ht; cbn [fst snd coll clock_reads] in *.
  { eexists _, _. split; [reflexivity|]. split; [constructor|].
    split; [cbn; lia | cbn [coll]; congruence]. }
  assert (Hrows : Milvus.rows c2 = Milvus.rows (coll w)).
  { rewrite <- H1. unfold Milvus.tick in Ht. destruct (Milvus.faults c1);
      inversion Ht; reflexivity. }
  unfold Milvus.matching in *.
  change (String.eqb (VectorStore.like_expr "result_text" keyword) "") with false in *.
  rewrite parse_like_result_text, select_like_result_text in * by assumption.
  cbn [fst snd coll clock_reads] in *.
  eexists _, _. split; [reflexivity|]. split; [|split; [|cbn [coll]; congruence]].
  - apply Forall_forall. intros e He. apply in_map_iff in He as (r & <- & Hr).
    apply (@subseq_In _ _ _ _ (subseq_firstn _ _)) in Hr.
    change (Z.to_nat 0) with 0%nat in Hr. cbn [skipn] in Hr.
    apply filter_In in Hr as [Hin Hlike]. split.
    + now apply like_occurs.
    + exists r. split; [congruence | reflexivity].
  - intro Hl. rewrite length_map, length_firstn. lia.
Qed.

Lemma In_insert_newest r x l : In x (Milvus.insert_newest r l) -> x = r \/ In x l.
Proof.
  induction l as [|y l IH]; cbn.
  - intuition.
  - destruct (String.leb _ _); cbn; intuition.
Qed.

Lemma In_newest_first x l : In x (fold_right Milvus.insert_newest [] l) -> In x l.
Proof.
  induction l as [|r l IH]; cbn; [easy|].
  intro H. apply In_insert_newest in H as [->|H]; [now left | right; now apply IH].
Qed.

Lemma In_skipn {A} (x : A) n l : In x (skipn n l) -> In x l.
Proof.
  revert l. induction n as [|n IH]; intros [|y l]; cbn; try easy.
  intro H. right. now apply IH.
Qed.

Lemma select_In f l rs :
  Milvus.select f l = Some rs -> forall r, In r rs -> In r l.
Proof.
  revert rs. induction l as [|x l IH]; cbn [Milvus.select]; intros rs H.
  - injection H as <-. intros r [].
  - destruct (Milvus.eval f x) as [b|]; [|discriminate].
    destruct (Milvus.select f l) as [rs'|]; [|discriminate].
    injection H as <-. intros r Hr.
    destruct b; [destruct Hr as [->|Hr]; [now left|]|]; right; now apply (IH rs').
Qed.

Lemma matching_In expr l rs :
  Milvus.matching expr l = Ok rs -> forall r, In r rs -> In r l.
Proof.
  unfold Milvus.matching. destruct expr as [e|]; [|intros [= <-]; auto].
  destruct (String.eqb e ""); [intros [= <-]; auto|].
  destruct (Milvus.parse e) as [f|]; [|discriminate].
  destruct (Milvus.select f l) as [rs'|] eqn:Hsel; [|discriminate].
  intros [= <-]. now apply (@select_In f l rs').
Qed.

(** Whatever the filter, a query returns stored rows, and no more of them
    than its limit. *)
Lemma query_answer c expr limit offset newest rs c' :
  Milvus.query c expr (Some limit) offset newest = (Ok rs, c') ->
  (forall r, In r rs -> In r (Milvus.rows c))
  /\ (0 <= limit -> Z.of_nat (List.length rs) <= limit).
Proof.
  unfold Milvus.query, Milvus.call.
  destruct (Milvus.tick c) as [[|] c2] eqn:Ht; [discriminate|].
  assert (Hrows : Milvus.rows c2 = Milvus.rows c).
  { unfold Milvus.tick in Ht. destruct (Milvus.faults c); inversion Ht; reflexivity. }
  destruct (Milvus.matching (Some expr) (Milvus.rows c2)) as [ms|e] eqn:Hm; [|discriminate].
  intros [= <- <-]. split.
  - intros r Hr. rewrite <- Hrows.
    apply (@subseq_In _ _ _ _ (subseq_firstn _ _)) in Hr. apply In_skipn in Hr.
    apply (@matching_In _ _ _ Hm).
    destruct newest; [now apply In_newest_first | exact Hr].
  - intro Hl. rewrite length_firstn. lia.
Qed.

(** [keyword_search] with any keyword and in any state of the store. *)
Lemma keyword_search_answer (keyword field : string) (limit : Z) (w : world) :
  exists entries w',
    VectorStore.keyword_search keyword field limit w = (Ok entries, w')
    /\ Milvus.rows (coll w') = Milvus.rows (coll w)
    /\ Forall (fun e => exists r, In r (Milvus.rows (coll w)) /\ e = VectorStore.of_row r)
         entries
    /\ (0 <= limit -> Z.of_nat (List.length entries) <= limit).
Proof.
  unfold VectorStore.keyword_search, try_except, bind, on_collection, ret.
  pose proof (load_keeps_rows (coll w)) as H1.
  destruct (Milvus.load (coll w)) as [[[]|e1] c1]; cbn [fst snd coll clock_reads] in *.
  2:{ eexists _, _. split; [reflexivity|]. split; [exact H1|].
      split; [constructor | cbn; lia]. }
  pose proof (query_keeps_rows c1 (VectorStore.like_expr field keyword)
                (Some limit) 0 false) as H2.
  destruct (Milvus.query c1 (VectorStore.like_expr field keyword) (Some limit) 0 false)
    as [[rs|e2] c2] eqn:Hq; cbn [fst snd coll clock_reads] in *.
  2:{ eexists _, _. split; [reflexivity|]. split; [cbn [coll]; congruence|].
      split; [constructor | cbn; lia]. }
  destruct (query_answer _ _ _ _ _ Hq) as [Hin Hlen].
  eexists _, _. split; [reflexivity|]. split; [cbn [coll]; congruence|]. split.
  - apply Forall_forall. intros e He. apply in_map_iff in He as (r & <- & Hr).
    exists r. split; [|reflexivity]. rewrite <- H1. now apply Hin.
  - intro Hl. rewrite length_map. now apply Hlen.
Qed.

(** X16: [keyword_search] over the result texts never raises, returns stored
    rows only, at most [limit] of them for a non-negative limit, and does
    not change the rows of the collection, whatever the keyword; when the
    keyword is a plain text without [%], the keyword occurs in the result
    text of every entry returned. *)
Theorem keyword_search_finds (keyword : string) (limit : Z) (w : world) :
  exists entries w',
    VectorStore.keyword_search keyword "result_text" limit w = (Ok entries, w')
    /\ Milvus.rows (coll w') = Milvus.rows (coll w)
    /\ Forall (fun e => exists r, In r (Milvus.rows (coll w)) /\ e = VectorStore.of_row r)
         entries
    /\ (0 <= limit -> Z.of_nat (List.length entries) <= limit)
    /\ (plain keyword = true -> no_wildcard keyword = true ->
        Forall (fun e => occurs_in keyword (VectorStore.l_result_text e)) entries).
Proof.
  destruct (keyword_search_answer keyword "result_text" limit w)
    as (entries & w' & Hrun & Hrows & Hstored & Hlen).
  exists entries, w'. split; [exact Hrun|]. split; [exact Hrows|].
  split; [exact Hstored|]. split; [exact Hlen|].
  intros Hp Hk.
  destruct (@keyword_search_of_plain_keyword keyword limit w Hp Hk)
    as (entries2 & w2 & Hrun2 & Hall & _).
  rewrite Hrun in Hrun2. injection Hrun2 as <- <-.
  eapply Forall_impl; [|exact Hall]. intros e [He _]. exact He.
Qed.

(** X16, witness: the stored entry of the examples, whose result text holds
    the keyword. *)
Lemma keyword_search_finds_witness :
  exists entries w',
    VectorStore.keyword_search "r" "result_text" 10 (one_entry "alice" "p") =
      (Ok entries, w')
    /\ Forall (fun e => exists r, In r (Milvus.rows (coll (one_entry "alice" "p")))
                                  /\ e = VectorStore.of_row r) entries
    /\ Forall (fun e => occurs_in "r" (VectorStore.l_result_text e)) entries.
Proof.
  destruct (@keyword_search_finds "r" 10 (one_entry "alice" "p"))
    as (entries & w' & Hrun & _ & Hstored & _ & Hocc).
  exists entries, w'. split; [exact Hrun|]. split; [exact Hstored|].
  exact (Hocc eq_refl eq_refl).
Defined.

(** ** The console's search *)

Lemma parse_search_expr query :
  plain query = true ->
  Milvus.parse (ManageCache.search_expr query) =
  Some (Milvus.FOr (Milvus.FCmp "query_text" Milvus.CLike ("%" ++ query ++ "%"))
                   (Milvus.FCmp "result_text" Milvus.CLike ("%" ++ query ++ "%"))).
Proof.
  intro Hp. unfold Milvus.parse, Milvus.lex, ManageCache.search_expr.
  rewrite (lex_up_to_literal "query_text like "
             (ts := [Milvus.TIdent "query_text"; Milvus.TOp Milvus.CLike]))
    by (vm_compute; reflexivity).
  rewrite lex_pattern by assumption.
  rewrite (lex_up_to_literal " or result_text like "
             (ts := [Milvus.TOr; Milvus.TIdent "result_text"; Milvus.TOp Milvus.CLike]))
    by (vm_compute; reflexivity).
  replace ("%" ++ query ++ "%" ++ dq) with ("%" ++ query ++ "%" ++ dq ++ "")
    by (now rewrite (append_empty dq)).
  rewrite lex_pattern by assumption. reflexivity.
Qed.

Lemma select_search pattern l :
  Milvus.select (Milvus.FOr (Milvus.FCmp "query_text" Milvus.CLike pattern)
                            (Milvus.FCmp "result_text" Milvus.CLike pattern)) l =
  Some (filter (fun r => Milvus.like pattern (Milvus.query_text r)
                         || Milvus.like pattern (Milvus.result_text r)) l).
Proof.
  induction l as [|r l IH]; [reflexivity|].
  cbn [Milvus.select filter]. rewrite IH. reflexivity.
Qed.

Lemma shortened_length t : Z.of_nat (String.length (ManageCache.shortened t)) <= 103.
Proof.
  unfold ManageCache.shortened.
  destruct (Z.ltb_spec 100 (Z.of_nat (String.length t))) as [Hlong|Hshort]; [|lia].
  rewrite append_length, Nat2Z.inj_add, str_slice_prefix_length by lia. cbn. lia.
Qed.

Lemma search_entries_of_rows results entries :
  ManageCache.search_entries_of results = Ok entries ->
  List.length entries = List.length results
  /\ Forall (fun e => exists r,
               In r results
               /\ ManageCache.s_id e = Milvus.id r
               /\ ManageCache.s_query_text e = ManageCache.shortened (Milvus.query_text r)
               /\ ManageCache.s_result_text e = ManageCache.shortened (Milvus.result_text r))
       entries.
Proof.
  revert entries. induction results as [|r results IH]; intros entries; cbn.
  - intros [= <-]. split; [reflexivity | constructor].
  - destruct (CacheManager.py_get (Milvus.metadata r) "hit_count" (PyInt 0)); cbn;
      [|discriminate].
    destruct (ManageCache.search_entries_of results) as [rest|]; cbn; [|discriminate].
    intros [= <-]. destruct (IH rest eq_refl) as [Hlen Hall]. split.
    + cbn. now rewrite Hlen.
    + constructor.
      * exists r. cbn. intuition.
      * eapply Forall_impl; [|exact Hall]. cbn. intros e (r' & Hin & H).
        exists r'. intuition.
Qed.

(** X17: the console's [search_entries] for a query that is a plain text
    without [%]: it returns without raising, every entry it returns comes
    from a stored row in whose query text or result text the query occurs
    and carries both texts cut to at most 103 characters, and for a
    non-negative page size at most [page_size] entries are returned. *)
Theorem search_entries_finds (page_size : Z) (query : string) (w : world) :
  plain query = true -> no_wildcard query = true ->
  exists entries w',
    ManageCache.search_entries page_size query w = (Ok entries, w')
    /\ Forall (fun e =>
                 Z.of_nat (String.length (ManageCache.s_query_text e)) <= 103
                 /\ Z.of_nat (String.length (ManageCache.s_result_text e)) <= 103
                 /\ exists r,
                      In r (Milvus.rows (coll w))
                      /\ ManageCache.s_id e = Milvus.id r
                      /\ (occurs_in query (Milvus.query_text r)
                          \/ occurs_in query (Milvus.result_text r)))
         entries
    /\ (0 <= page_size -> Z.of_nat (List.length entries) <= page_size).
Proof.
  intros Hp Hk.
  unfold ManageCache.search_entries, try_except, bind, on_collection, ret, lift_result.
  pose proof (load_keeps_rows (coll w)) as H1.
  destruct (Milvus.load (coll w)) as [[[]|e1] c1]; cbn [fst snd coll clock_reads] in *.
  2:{ eexists _, _. split; [reflexivity|]. split; [constructor | cbn; lia]. }
  unfold Milvus.query, Milvus.call.
  destruct (Milvus.tick c1) as [[|] c2] eqn:Ht; cbn [fst snd coll clock_reads].
  { eexists _, _. split; [reflexivity|]. split; [constructor | cbn; lia]. }
  assert (Hrows : Milvus.rows c2 = Milvus.rows (coll w)).
  { rewrite <- H1. unfold Milvus.tick in Ht. destruct (Milvus.faults c1);
      inversion Ht; reflexivity. }
  unfold Milvus.matching.
  change (String.eqb (ManageCache.search_expr query) "") with false.
  rewrite parse_search_expr, select_search by assumption.
  cbn [fst snd coll clock_reads].
  match goal with
  | |- context [ManageCache.search_entries_of ?rs] =>
    set (results := rs);
    destruct (ManageCache.search_entries_of results) as [entries|e] eqn:Hent
  end.
  2:{ eexists _, _. split; [reflexivity|]. split; [constructor | cbn; lia]. }
  apply search_entries_of_rows in Hent as [Hlen Hall].
  eexists _, _. split; [reflexivity|]. split.
  - eapply Forall_impl; [|exact Hall]. cbn.
    intros e (r & Hin & Hid & Hq & Hr). rewrite Hq, Hr.
    split; [apply shortened_length|]. split; [apply shortened_length|].
    exists r. unfold results in Hin.
    apply (@subseq_In _ _ _ _ (subseq_firstn _ _)) in Hin.
    change (Z.to_nat 0) with 0%nat in Hin. cbn [skipn] in Hin.
    apply In_newest_first in Hin. apply filter_In in Hin as [Hin Hlike].
    split; [congruence|]. split; [exact Hid|].
    apply orb_prop in Hlike as [H|H]; [left | right]; now apply like_occurs.
  - intro Hps. rewrite Hlen. unfold results. rewrite length_firstn. lia.
Qed.

(** X17, witness: the stored entry of the examples, found by its query
    text. *)
Lemma search_entries_finds_witness :
  exists entries w',
    ManageCache.search_entries ManageCache.default_page_size "q" (one_entry "alice" "p") =
      (Ok entries, w')
    /\ map ManageCache.s_id entries = ["e1"].
Proof.
  destruct (@search_entries_finds ManageCache.default_page_size "q" (one_entry "alice" "p")
              eq_refl eq_refl) as (entries & w' & Hrun & _).
  exists entries, w'. split; [exact Hrun|].
  vm_compute in Hrun. injection Hrun as <- _. reflexivity.
Defined.

(** ** The filter of a hybrid search *)

Lemma lex_prefix prefix ts rest :
  Milvus.lex_run Milvus.Start prefix = Some (ts, Milvus.Start) ->
  Milvus.lex_from Milvus.Start (prefix ++ rest) =
  option_map (app ts) (Milvus.lex_from Milvus.Start rest).
Proof. intro Hrun. now rewrite lex_from_app, Hrun. Qed.

Lemma lex_condition keyword rest :
  plain keyword = true ->
  Milvus.lex_from Milvus.Start (VectorStore.keyword_condition keyword ++ rest) =
  option_map (app (condition_tokens keyword)) (Milvus.lex_from Milvus.Start rest).
Proof.
  intro Hp. unfold VectorStore.keyword_condition.
  replace (("(query_text like " ++ dq ++ "%" ++ keyword ++ "%" ++ dq
            ++ " or result_text like " ++ dq ++ "%" ++ keyword ++ "%" ++ dq ++ ")") ++ rest)
    with ("(query_text like " ++ dq ++ "%" ++ keyword ++ "%" ++ dq
          ++ " or result_text like " ++ dq ++ "%" ++ keyword ++ "%" ++ dq ++ ")" ++ rest)
    by (now rewrite !append_assoc).
  rewrite (lex_up_to_literal "(query_text like "
             (ts := [Milvus.TLParen; Milvus.TIdent "query_text"; Milvus.TOp Milvus.CLike]))
    by (vm_compute; reflexivity).
  rewrite lex_pattern by assumption.
  rewrite (lex_up_to_literal " or result_text like "
             (ts := [Milvus.TOr; Milvus.TIdent "result_text"; Milvus.TOp Milvus.CLike]))
    by (vm_compute; reflexivity).
  rewrite lex_pattern by assumption.
  rewrite (lex_prefix ")" (ts := [Milvus.TRParen])) by (vm_compute; reflexivity).
  destruct (Milvus.lex_from Milvus.Start rest); reflexivity.
Qed.

Lemma lex_chain keyword more rest :
  Forall (fun k => plain k = true) (keyword :: more) ->
  Milvus.lex_from Milvus.Start
    (join " or " (map VectorStore.keyword_condition (keyword :: more)) ++ rest) =
  option_map (app (chain_tokens keyword more)) (Milvus.lex_from Milvus.Start rest).
Proof.
  revert keyword. induction more as [|k ks IH]; intros keyword Hall;
    inversion Hall as [|? ? Hk Hrest]; subst.
  - cbn [map join chain_tokens]. now apply lex_condition.
  - change (join " or " (map VectorStore.keyword_condition (keyword :: k :: ks)))
      with (VectorStore.keyword_condition keyword ++ " or "
            ++ join " or " (map VectorStore.keyword_condition (k :: ks))).
    rewrite !append_assoc. rewrite lex_condition by assumption.
    rewrite (lex_prefix " or " (ts := [Milvus.TOr])) by (vm_compute; reflexivity).
    rewrite IH by assumption. cbn [chain_tokens].
    destruct (Milvus.lex_from Milvus.Start rest); reflexivity.
Qed.

Lemma parse_condition fuel keyword rest :
  Milvus.parse_atom (8 + fuel) (condition_tokens keyword ++ rest) =
  Some (keyword_filter keyword, rest).
Proof. reflexivity. Qed.

(** A chain of conditions joined by [or], up to the end of the text or to a
    closing parenthesis. *)
Lemma parse_chain more : forall keyword fuel rest,
  (rest = [] \/ exists rest', rest = Milvus.TRParen :: rest') ->
  (List.length more + 10 <= fuel)%nat ->
  Milvus.parse_or fuel (chain_tokens keyword more ++ rest) =
  Some (any_keyword keyword more, rest).
Proof.
  induction more as [|k ks IH]; intros keyword fuel rest Hrest Hfuel.
  - do 10 (destruct fuel as [|fuel]; [cbn in Hfuel; lia|]).
    destruct Hrest as [->|[rest' ->]]; reflexivity.
  - destruct fuel as [|fuel]; [cbn in Hfuel; lia|].
    cbn [List.length] in Hfuel.
    assert (Hand : Milvus.parse_and fuel (chain_tokens keyword (k :: ks) ++ rest) =
                   Some (keyword_filter keyword,
                         Milvus.TOr :: (chain_tokens k ks ++ rest)%list)).
    { do 9 (destruct fuel as [|fuel]; [lia|]).
      cbn [chain_tokens]. rewrite <- app_assoc. reflexivity. }
    cbn [Milvus.parse_or]. rewrite Hand.
    rewrite (@IH k fuel rest Hrest) by lia. reflexivity.
Qed.

Lemma chain_tokens_length keyword more :
  (List.length more + 4 <= List.length (chain_tokens keyword more))%nat.
Proof.
  revert keyword. induction more as [|k ks IH]; intro keyword; cbn [chain_tokens].
  - cbn. lia.
  - rewrite length_app. cbn [List.length]. specialize (IH k). lia.
Qed.

Lemma parse_keywords keyword more :
  Forall (fun k => plain k = true) (keyword :: more) ->
  Milvus.parse (join " or " (map VectorStore.keyword_condition (keyword :: more))) =
  Some (any_keyword keyword more).
Proof.
  intro Hall. unfold Milvus.parse, Milvus.lex.
  rewrite <- (append_empty (join " or " _)).
  rewrite lex_chain by assumption. cbn [Milvus.lex_from option_map].
  rewrite parse_chain; [reflexivity | now left |].
  rewrite !app_nil_r. pose proof (chain_tokens_length keyword more). lia.
Qed.

Lemma parse_keywords_in_scope keyword more email project_id :
  Forall (fun k => plain k = true) (keyword :: more) ->
  plain email = true -> plain project_id = true ->
  Milvus.parse ("(" ++ join " or " (map VectorStore.keyword_condition (keyword :: more))
                ++ ") and (" ++ CacheManager.scope_expr email project_id ++ ")") =
  Some (Milvus.FAnd (any_keyword keyword more)
          (Milvus.FAnd (Milvus.FCmp "email" Milvus.CEq email)
                       (Milvus.FCmp "project_id" Milvus.CEq project_id))).
Proof.
  intros Hall He Hp. unfold Milvus.parse, Milvus.lex.
  rewrite (lex_prefix "(" (ts := [Milvus.TLParen])) by (vm_compute; reflexivity).
  rewrite lex_chain by assumption.
  unfold CacheManager.scope_expr.
  replace (") and (" ++ ("email == " ++ dq ++ email ++ dq ++ " && project_id == " ++ dq
                         ++ project_id ++ dq) ++ ")")
    with (") and (email == " ++ dq ++ email ++ String Milvus.dquote
            (" && project_id == " ++ dq ++ project_id ++ String Milvus.dquote ")")).
  2:{ cbn [append]. do 8 f_equal. rewrite !append_assoc. cbn [append].
      do 9 f_equal. unfold dq. now rewrite !append_assoc. }
  rewrite (lex_up_to_literal ") and (email == "
             (ts := [Milvus.TRParen; Milvus.TAnd; Milvus.TLParen; Milvus.TIdent "email";
                     Milvus.TOp Milvus.CEq]))
    by (vm_compute; reflexivity).
  rewrite lex_literal by assumption.
  rewrite (lex_up_to_literal " && project_id == "
             (ts := [Milvus.TAnd; Milvus.TIdent "project_id"; Milvus.TOp Milvus.CEq]))
    by (vm_compute; reflexivity).
  rewrite lex_literal by assumption.
  change (Milvus.lex_from Milvus.Start ")") with (Some [Milvus.TRParen]).
  cbn [option_map app append].
  set (tail := [Milvus.TRParen; Milvus.TAnd; Milvus.TLParen; Milvus.TIdent "email";
                Milvus.TOp Milvus.CEq; Milvus.TString email; Milvus.TAnd;
                Milvus.TIdent "project_id"; Milvus.TOp Milvus.CEq;
                Milvus.TString project_id; Milvus.TRParen]).
  set (n := (3 * List.length (Milvus.TLParen :: (chain_tokens keyword more ++ tail)) + 3)%nat).
  assert (Hn : (List.length more + 20 <= n)%nat).
  { unfold n. cbn [List.length]. rewrite length_app. unfold tail. cbn [List.length].
    pose proof (chain_tokens_length keyword more). lia. }
  do 3 (destruct n as [|n]; [lia|]).
  cbn [Milvus.parse_or Milvus.parse_and Milvus.parse_atom].
  rewrite (@parse_chain more keyword n tail); [| right; now eexists | lia].
  unfold tail. do 12 (destruct n as [|n]; [lia|]). reflexivity.
Qed.

Lemma eval_any_keyword keyword more r :
  Milvus.eval (any_keyword keyword more) r = Some (existsb (like_either r) (keyword :: more)).
Proof.
  revert keyword. induction more as [|k ks IH]; intro keyword.
  - cbn. unfold like_either. now rewrite orb_false_r.
  - cbn [any_keyword Milvus.eval]. rewrite IH. reflexivity.
Qed.

Lemma select_total f g l :
  (forall r, Milvus.eval f r = Some (g r)) ->
  Milvus.select f l = Some (filter g l).
Proof.
  intro Hg. induction l as [|r l IH]; [reflexivity|].
  cbn [Milvus.select filter]. now rewrite Hg, IH.
Qed.

Lemma like_either_mentions keywords r :
  Forall (fun k => no_wildcard k = true) keywords ->
  existsb (like_either r) keywords = true -> mentions keywords r.
Proof.
  intros Hall Hex. apply existsb_exists in Hex as (k & Hin & Hlike).
  rewrite Forall_forall in Hall. specialize (Hall k Hin).
  exists k. split; [exact Hin|]. unfold like_either in Hlike.
  apply orb_prop in Hlike as [H|H]; [left | right]; now apply like_occurs.
Qed.

Lemma In_py_slice {A} (x : A) l a b : In x (py_slice l a b) -> In x l.
Proof.
  unfold py_slice. intro H.
  apply (@subseq_In _ _ _ _ (subseq_firstn _ _)) in H. now apply In_skipn in H.
Qed.

(** The hits of the index under a filter that parses: rows the filter
    selects. *)
Lemma index_answer_selected query_vector top_k expr keywords w e f g :
  VectorStore.final_expr expr keywords = Some e ->
  String.eqb e "" = false ->
  Milvus.parse e = Some f ->
  (forall r, Milvus.eval f r = Some (g r)) ->
  Forall (fun h => g (Milvus.entity h) = true)
    (index_answer query_vector top_k expr keywords w).
Proof.
  intros He Hne Hparse Hg. unfold index_answer.
  destruct (Milvus.load (coll w)) as [[[]|e1] c1]; [|constructor].
  rewrite He. unfold Milvus.search, Milvus.call.
  destruct (Milvus.tick c1) as [[|] c2]; [constructor|].
  destruct (negb _ || _ || _); [constructor|].
  cbn [Milvus.vector_field String.eqb Ascii.eqb Bool.eqb].
  change (Milvus.vector_field "result_vector") with (Some Milvus.result_vector).
  unfold Milvus.matching. rewrite Hne, Hparse, (@select_total f g _ Hg).
  apply Forall_forall. intros h Hin.
  apply (@subseq_In _ _ _ _ (subseq_firstn _ _)) in Hin. apply In_rank in Hin.
  apply in_map_iff in Hin as (r & <- & Hr). cbn [Milvus.entity].
  now apply filter_In in Hr.
Qed.

Lemma hybrid_search_candidates query_text query_vector top_k expr keywords w c :
  (exists cs, fst (VectorStore.hybrid_search query_text query_vector top_k expr keywords w) =
              Ok cs /\ In c cs) ->
  exists h, In h (index_answer query_vector top_k expr keywords w)
            /\ c = VectorStore.of_hit h
            /\ PrimFloat.ltb (Milvus.score h) 1.5%float = true.
Proof.
  intros (cs & Hrun & Hin). rewrite hybrid_search_result in Hrun.
  injection Hrun as <-. apply In_py_slice in Hin.
  unfold VectorStore.filtered_results in Hin.
  apply in_map_iff in Hin as (h & <- & Hh). apply filter_In in Hh as [Hh Hlt].
  now exists h.
Qed.

Lemma keywords_expr_not_empty keyword more :
  String.eqb (join " or " (map VectorStore.keyword_condition (keyword :: more))) "" = false.
Proof. destruct more; reflexivity. Qed.

(** X18: a hybrid search never raises and returns only entries at a
    distance below 1.5, whatever the filter and the keywords.  With one
    keyword or more, all plain texts without [%], and no filter of the
    caller, every entry returned has one of the keywords in its query text
    or in its result text; with the scope filter of a plain email and
    project id as the caller's filter, every entry returned is of that scope
    besides. *)
Theorem hybrid_search_keywords (query_text : string) (query_vector : list float)
  (top_k : Z) (keyword : string) (more : list string) (w : world) :
  (forall expr keywords,
     exists cs,
       fst (VectorStore.hybrid_search query_text query_vector top_k expr keywords w) = Ok cs
       /\ Forall (fun c => PrimFloat.ltb (VectorStore.score c) 1.5%float = true) cs)
  /\ (Forall (fun k => plain k = true) (keyword :: more) ->
      Forall (fun k => no_wildcard k = true) (keyword :: more) ->
  (exists cs,
     fst (VectorStore.hybrid_search query_text query_vector top_k None (keyword :: more) w) =
       Ok cs
     /\ Forall (fun c =>
                  PrimFloat.ltb (VectorStore.score c) 1.5%float = true
                  /\ exists k, In k (keyword :: more)
                               /\ (occurs_in k (VectorStore.query_text c)
                                   \/ occurs_in k (VectorStore.result_text c))) cs)
  /\ (forall email project_id,
        plain email = true -> plain project_id = true ->
        exists cs,
          fst (VectorStore.hybrid_search query_text query_vector top_k
                 (Some (CacheManager.scope_expr email project_id)) (keyword :: more) w) =
            Ok cs
          /\ Forall (fun c =>
                       PrimFloat.ltb (VectorStore.score c) 1.5%float = true
                       /\ VectorStore.email c = email
                       /\ VectorStore.project_id c = project_id
                       /\ exists k, In k (keyword :: more)
                                    /\ (occurs_in k (VectorStore.query_text c)
                                        \/ occurs_in k (VectorStore.result_text c))) cs)).
Proof.
  split.
  { intros expr keywords. eexists. split; [apply hybrid_search_result|].
    apply Forall_forall. intros c Hc.
    destruct (@hybrid_search_candidates query_text query_vector top_k expr keywords w c)
      as (h & _ & -> & Hlt).
    { eexists. split; [apply hybrid_search_result | exact Hc]. }
    exact Hlt. }
  intros Hplain Hwild. split.
  - eexists. split; [apply hybrid_search_result|].
    apply Forall_forall. intros c Hc.
    destruct (@hybrid_search_candidates query_text query_vector top_k None (keyword :: more) w c)
      as (h & Hh & -> & Hlt).
    { eexists. split; [apply hybrid_search_result | exact Hc]. }
    split; [exact Hlt|].
    pose proof (@index_answer_selected query_vector top_k None (keyword :: more) w _
                  (any_keyword keyword more)
                  (fun r => existsb (like_either r) (keyword :: more))
                  eq_refl (keywords_expr_not_empty keyword more)
                  (@parse_keywords keyword more Hplain)
                  (eval_any_keyword keyword more)) as Hsel.
    rewrite Forall_forall in Hsel. specialize (Hsel h Hh).
    exact (@like_either_mentions _ _ Hwild Hsel).
  - intros email project_id He Hp.
    eexists. split; [apply hybrid_search_result|].
    apply Forall_forall. intros c Hc.
    destruct (@hybrid_search_candidates query_text query_vector top_k
                (Some (CacheManager.scope_expr email project_id)) (keyword :: more) w c)
      as (h & Hh & -> & Hlt).
    { eexists. split; [apply hybrid_search_result | exact Hc]. }
    split; [exact Hlt|].
    pose proof (@index_answer_selected query_vector top_k
                  (Some (CacheManager.scope_expr email project_id)) (keyword :: more) w _
                  (Milvus.FAnd (any_keyword keyword more)
                     (Milvus.FAnd (Milvus.FCmp "email" Milvus.CEq email)
                                  (Milvus.FCmp "project_id" Milvus.CEq project_id)))
                  (fun r => existsb (like_either r) (keyword :: more)
                            && in_scope email project_id r)
                  eq_refl eq_refl
                  (@parse_keywords_in_scope keyword more email project_id Hplain He Hp)) as Hsel.
    assert (Heval : forall r,
              Milvus.eval
                (Milvus.FAnd (any_keyword keyword more)
                   (Milvus.FAnd (Milvus.FCmp "email" Milvus.CEq email)
                                (Milvus.FCmp "project_id" Milvus.CEq project_id))) r =
              Some (existsb (like_either r) (keyword :: more) && in_scope email project_id r)).
    { intro r. cbn [Milvus.eval]. rewrite eval_any_keyword. reflexivity. }
    specialize (Hsel Heval). rewrite Forall_forall in Hsel. specialize (Hsel h Hh).
    apply andb_prop in Hsel as [Hkw Hscope].
    unfold in_scope in Hscope. apply andb_prop in Hscope as [H1 H2].
    apply String.eqb_eq in H1, H2.
    split; [exact H1|]. split; [exact H2|].
    exact (@like_either_mentions _ _ Hwild Hkw).
Qed.

(** X18, witness: one keyword and the stored entry of the examples. *)
Lemma hybrid_search_keywords_witness :
  exists cs,
    fst (VectorStore.hybrid_search "q" (axis 2) 5 None ["r"] (one_entry "alice" "p")) = Ok cs
    /\ Forall (fun c =>
                 PrimFloat.ltb (VectorStore.score c) 1.5%float = true
                 /\ exists k, In k ["r"]
                              /\ (occurs_in k (VectorStore.query_text c)
                                  \/ occurs_in k (VectorStore.result_text c))) cs.
Proof.
  apply (proj1 (proj2 (@hybrid_search_keywords "q" (axis 2) 5 "r" [] (one_entry "alice" "p"))
                  ltac:(repeat constructor) ltac:(repeat constructor))).
Defined.

(** ** What a lookup leaves alone *)

Lemma update_keeps_all_but_metadata c expr m :
  without_metadata (Milvus.rows (snd (Milvus.update c expr m))) =
  without_metadata (Milvus.rows c).
Proof.
  unfold Milvus.update, Milvus.call, Milvus.tick.
  assert (Hmap : forall (f : Milvus.filter) l,
             without_metadata
               (map (fun r => match Milvus.eval f r with
                              | Some true => Milvus.set_metadata m r
                              | _ => r
                              end) l) = without_metadata l).
  { intros f l. unfold without_metadata. rewrite map_map. apply map_ext.
    intro r. now destruct (Milvus.eval f r) as [[|]|]. }
  destruct c as [rows [|[|] fs]]; cbn [Milvus.faults Milvus.rows snd]; try reflexivity;
    (destruct (Milvus.parse expr) as [f|]; [|reflexivity]);
    (destruct (Milvus.select f rows); [|reflexivity]);
    cbn [snd Milvus.rows]; apply Hmap.
Qed.

Lemma get_collection_keeps_rows w :
  exists w',
    VectorStore.get_collection w = (Ok tt, w')
    /\ Milvus.rows (coll w') = Milvus.rows (coll w)
    /\ clock_reads w' = clock_reads w.
Proof.
  unfold VectorStore.get_collection, try_except, bind, on_collection, ret.
  pose proof (load_keeps_rows (coll w)) as H1.
  destruct (Milvus.load (coll w)) as [[[]|e1] c1]; cbn [fst snd coll clock_reads] in *;
    [|eexists; split; [reflexivity|]; split; [exact H1 | reflexivity]].
  pose proof (num_entities_keeps_rows c1) as H2.
  destruct (Milvus.num_entities c1) as [[n|e2] c2]; cbn [fst snd coll clock_reads] in *;
    eexists; (split; [reflexivity|]); split; cbn [coll clock_reads];
    congruence || reflexivity.
Qed.

(** Whatever the store does, [increment_hit_count] returns a boolean, and
    changes at most the metadata of stored rows. *)
Lemma increment_hit_count_keeps_all_but_metadata entry_id w :
  exists b w',
    CacheManager.increment_hit_count entry_id w = (Ok b, w')
    /\ without_metadata (Milvus.rows (coll w')) = without_metadata (Milvus.rows (coll w))
    /\ clock_reads w' = clock_reads w.
Proof.
  unfold CacheManager.increment_hit_count, try_except, bind.
  destruct (get_collection_keeps_rows w) as (w0 & -> & H0 & Hc0).
  unfold on_collection, ret, lift_result.
  pose proof (load_keeps_rows (coll w0)) as H3.
  destruct (Milvus.load (coll w0)) as [[[]|e3] c3]; cbn [fst snd coll clock_reads] in *;
    [|do 2 eexists; split; [reflexivity|]; split; [cbn [coll]; congruence | exact Hc0]].
  pose proof (query_keeps_rows c3 (CacheManager.id_expr entry_id) None 0 false) as H4.
  destruct (Milvus.query c3 (CacheManager.id_expr entry_id) None 0 false)
    as [[[|first others]|e4] c4]; cbn [fst snd coll clock_reads] in *;
    try (do 2 eexists; split; [reflexivity|]; split; [cbn [coll]; congruence | exact Hc0]).
  destruct (CacheManager.incremented (Milvus.metadata first)) as [m|e5];
    [|do 2 eexists; split; [reflexivity|]; split; [cbn [coll]; congruence | exact Hc0]].
  pose proof (update_keeps_all_but_metadata c4 (CacheManager.id_expr entry_id) m) as H5.
  destruct (Milvus.update c4 (CacheManager.id_expr entry_id) m) as [[[]|e6] c6];
    cbn [fst snd coll clock_reads] in *;
    do 2 eexists; (split; [reflexivity|]); (split; [cbn [coll]; congruence | exact Hc0]).
Qed.

(** X19: a lookup never raises and never adds, removes, reorders or rewrites
    a stored entry apart from its metadata: in every state of the world and
    for every input [search_cache] returns a result, the rows afterwards are
    the rows before up to their metadata, and a result that reports no hit
    carries no entry.  The clock is read at most once. *)
Theorem lookup_changes_only_metadata (rt : Runtime) (query_text : string)
  (query_vector : list float) (email project_id : string) (cache_management : pyval)
  (w : world) :
  exists r w',
    CacheManager.search_cache rt query_text query_vector email project_id
      cache_management w = (Ok r, w')
    /\ without_metadata (Milvus.rows (coll w')) = without_metadata (Milvus.rows (coll w))
    /\ (clock_reads w' = clock_reads w \/ clock_reads w' = S (clock_reads w))
    /\ (Models.found r = false /\ Models.entry r = None
        \/ Models.found r = true /\ exists e, Models.entry r = Some e).
Proof.
  unfold CacheManager.search_cache, try_except, CacheManager.search_cache_body, bind.
  rewrite generate_embedding_run, search_similar_run.
  pose proof (search_keeps_rows (coll w) query_vector "query_vector" 5
                (Some (CacheManager.scope_expr email project_id))) as Hs.
  destruct (Milvus.search (coll w) query_vector "query_vector" 5
              (Some (CacheManager.scope_expr email project_id))) as [[[|h rest]|e0] c];
    cbn [map fst snd] in *;
    try (do 2 eexists; split; [reflexivity|]; cbn [coll clock_reads];
         split; [congruence|]; split; [now left | left; split; reflexivity]).
  cbn [VectorStore.score VectorStore.of_hit].
  destruct (PrimFloat.ltb (Milvus.score h) 0.7%float);
    [do 2 eexists; split; [reflexivity|]; cbn [coll clock_reads];
     split; [congruence|]; split; [now left | left; split; reflexivity]|].
  destruct (@increment_hit_count_keeps_all_but_metadata
              (VectorStore.id (VectorStore.of_hit h))
              {| coll := c; clock_reads := clock_reads w |}) as (b & w1 & -> & Hrows & Hclock).
  cbn [coll clock_reads] in Hrows, Hclock.
  unfold lift_result, ret, CacheManager.now.
  cbn [VectorStore.metadata VectorStore.created_at].
  repeat match goal with
         | |- context [match ?x with Ok _ => _ | Raise _ => _ end] =>
           destruct x
         | |- context [match ?x with Some _ => _ | None => _ end] =>
           destruct x
         end.
  all: do 2 eexists; (split; [reflexivity|]); cbn [coll clock_reads];
    (split; [congruence|]);
    split; [(left; congruence) || (right; congruence)
           |(left; split; reflexivity) || (right; split; [reflexivity | eexists; reflexivity])].
Qed.

(** X20: a lookup can count a hit and still report a miss.  When the index
    returns a best candidate at distance 0.7 or more, the hit accounting of
    its id succeeds, and then the construction of the entry raises (the
    candidate's metadata is no mapping, or its [created_at] does not parse),
    [search_cache] answers a miss while the stored metadata of the entry has
    been rewritten with the incremented hit count. *)
Theorem miss_after_counted_hit (rt : Runtime) (query_text : string)
  (query_vector : list float) (email project_id : string) (cache_management : pyval)
  (w : world) (h : Milvus.hit) (rest : list Milvus.hit) (c : Milvus.collection)
  (first : Milvus.row) (others : list Milvus.row) (m : pyval) :
  Milvus.search (coll w) query_vector "query_vector" 5
    (Some (CacheManager.scope_expr email project_id)) = (Ok (h :: rest), c) ->
  PrimFloat.ltb (Milvus.score h) 0.7%float = false ->
  plain (Milvus.hit_id h) = true ->
  Milvus.faults c = [] ->
  filter (has_id (Milvus.hit_id h)) (Milvus.rows c) = first :: others ->
  CacheManager.incremented (Milvus.metadata first) = Ok m ->
  (forall d, Milvus.metadata (Milvus.entity h) <> PyDict d)
  \/ fromisoformat rt (Milvus.created_at (Milvus.entity h)) = None ->
  CacheManager.search_cache rt query_text query_vector email project_id cache_management w =
  (Ok Models.miss,
   {| coll := {| Milvus.rows := map (fun r => if has_id (Milvus.hit_id h) r
                                             then Milvus.set_metadata m r else r)
                                    (Milvus.rows c);
                 Milvus.faults := [] |};
      clock_reads := clock_reads w |}).
Proof.
  intros Hs Hlt Hp Hf Hfirst Hm Hraise.
  unfold CacheManager.search_cache, try_except, CacheManager.search_cache_body, bind.
  rewrite generate_embedding_run, search_similar_run, Hs.
  cbn [map VectorStore.score VectorStore.of_hit VectorStore.id VectorStore.metadata
       VectorStore.created_at].
  rewrite Hlt.
  rewrite (@increment_hit_count_stores {| coll := c; clock_reads := clock_reads w |}
             (Milvus.hit_id h) first others m Hp Hf Hfirst Hm).
  cbn [coll clock_reads].
  unfold lift_result, ret, CacheManager.now, CacheManager.py_get.
  destruct Hraise as [Hnodict|Hiso].
  - destruct (Milvus.metadata (Milvus.entity h)) eqn:Hmeta; try reflexivity.
    now destruct (Hnodict _ eq_refl).
  - rewrite Hiso. now destruct (Milvus.metadata (Milvus.entity h)).
Qed.

(** X20, witness: a stored entry whose metadata is a list.  The lookup that
    matches it answers a miss and leaves [{"hit_count": 1}] as its
    metadata. *)
Lemma miss_after_counted_hit_witness :
  CacheManager.search_cache example_runtime "q" (axis 0) "alice" "p" (PyDict [])
    (world_of [stored_row "e1" (axis 2) "alice" "p" (PyList [])] []) =
  (Ok Models.miss,
   world_of [stored_row "e1" (axis 2) "alice" "p" (PyDict [("hit_count", PyInt 1)])] []).
Proof.
  exact (@miss_after_counted_hit example_runtime "q" (axis 0) "alice" "p" (PyDict [])
           (world_of [stored_row "e1" (axis 2) "alice" "p" (PyList [])] [])
           {| Milvus.hit_id := "e1"; Milvus.score := 4%float;
              Milvus.entity := stored_row "e1" (axis 2) "alice" "p" (PyList []) |}
           []
           {| Milvus.rows := [stored_row "e1" (axis 2) "alice" "p" (PyList [])];
              Milvus.faults := [] |}
           (stored_row "e1" (axis 2) "alice" "p" (PyList [])) []
           (PyDict [("hit_count", PyInt 1)])
           ltac:(vm_compute; reflexivity) ltac:(vm_compute; reflexivity) eq_refl eq_refl
           eq_refl eq_refl
           (or_introl (fun d (H : PyList [] = PyDict d) =>
                         eq_ind (PyList []) (fun v => match v with
                                                      | PyList _ => True
                                                      | _ => False
                                                      end) I (PyDict d) H))).
Defined.

(** ** The singleton client *)

Lemma keeps_class_kret {A} (a : A) : keeps_class (MilvusClient.kret a).
Proof. intro s. reflexivity. Qed.

Lemma keeps_class_kraise {A} e : keeps_class (@MilvusClient.kraise A e).
Proof. intro s. reflexivity. Qed.

Lemma keeps_class_kbind {A B} (m : MilvusClient.K A) (k : A -> MilvusClient.K B) :
  keeps_class m -> (forall a, keeps_class (k a)) -> keeps_class (MilvusClient.kbind m k).
Proof.
  intros Hm Hk s. unfold MilvusClient.kbind. specialize (Hm s).
  destruct (m s) as [[a|e] s']; cbn [snd] in *; [|exact Hm].
  now rewrite Hk.
Qed.

Lemma keeps_class_except {A} (m : MilvusClient.K A) h :
  keeps_class m -> (forall e, keeps_class (h e)) -> keeps_class (MilvusClient.except m h).
Proof.
  intros Hm Hh s. unfold MilvusClient.except. specialize (Hm s).
  destruct (m s) as [[a|e] s']; cbn [snd] in *; [exact Hm|].
  now rewrite Hh.
Qed.

Lemma keeps_class_remote {A} (body : MilvusClient.server -> (A + MilvusClient.failure) * MilvusClient.server) :
  keeps_class (MilvusClient.remote body).
Proof.
  intro s. unfold MilvusClient.remote.
  destruct (MilvusClient.faults (MilvusClient.srv s)) as [|[|] fs]; try reflexivity;
    now destruct (body _).
Qed.

Lemma keeps_class_local f : keeps_class (MilvusClient.local f).
Proof. intro s. reflexivity. Qed.

Lemma keeps_class_attr {A} self (get : MilvusClient.attributes -> A) :
  keeps_class (MilvusClient.attr self get).
Proof.
  intro s. unfold MilvusClient.attr.
  now destruct (nth_error (MilvusClient.heap s) self) as [[a|]|].
Qed.

Ltac keeps_class :=
  repeat first
    [ apply keeps_class_kbind; [|intro]
    | apply keeps_class_except; [|intro]
    | apply keeps_class_kret
    | apply keeps_class_kraise
    | apply keeps_class_remote
    | apply keeps_class_local
    | apply keeps_class_attr
    | match goal with
      | |- keeps_class (if ?b then _ else _) => destruct b
      end ].

Lemma keeps_class_connect self : keeps_class (MilvusClient._connect self).
Proof.
  unfold MilvusClient._connect, MilvusClient.disconnect, MilvusClient.connect,
    MilvusClient.list_collections.
  keeps_class.
Qed.

Lemma keeps_class_init_collection self : keeps_class (MilvusClient._init_collection self).
Proof.
  unfold MilvusClient._init_collection, MilvusClient.has_collection,
    MilvusClient.Collection_with_schema, MilvusClient.create_index.
  keeps_class.
  intro s. destruct (MilvusClient.cuda (MilvusClient.srv s)); apply keeps_class_remote.
Qed.

Lemma keeps_class_get_collection self : keeps_class (MilvusClient.get_collection self).
Proof.
  unfold MilvusClient.get_collection, MilvusClient.Collection_named, MilvusClient.load.
  keeps_class.
Qed.

(** The initialisation after the attributes are set: it changes the class
    only by setting [_initialized], and only when it returns. *)
Lemma initialisation_run self s :
  let out := (MilvusClient.kbind
                (MilvusClient.kbind (MilvusClient._connect self)
                   (fun _ => MilvusClient._init_collection self))
                (fun _ => MilvusClient.set_initialized true)) s in
  MilvusClient._instance (snd out) = MilvusClient._instance s
  /\ MilvusClient.heap (snd out) = MilvusClient.heap s
  /\ (forall u, fst out = inl u -> MilvusClient._initialized (snd out) = true)
  /\ (forall e, fst out = inr e ->
      MilvusClient._initialized (snd out) = MilvusClient._initialized s).
Proof.
  cbv zeta. unfold MilvusClient.kbind.
  pose proof (keeps_class_connect self s) as H1.
  destruct (MilvusClient._connect self s) as [[[]|e1] s1]; cbn [fst snd] in *.
  - pose proof (keeps_class_init_collection self s1) as H2.
    destruct (MilvusClient._init_collection self s1) as [[[]|e2] s2]; cbn [fst snd] in *;
      unfold class_of in *; cbn [MilvusClient.set_initialized fst snd
        MilvusClient._instance MilvusClient.heap MilvusClient._initialized];
      repeat split; try congruence; discriminate.
  - unfold class_of in *. repeat split; try congruence; discriminate.
Qed.

(** The state [__new__] leaves, and the object it returns. *)
Lemma new_run s :
  MilvusClient.__new__ s =
  (inl match MilvusClient._instance s with
       | None => List.length (MilvusClient.heap s)
       | Some self => self
       end,
   match MilvusClient._instance s with
   | None => {| MilvusClient._instance := Some (List.length (MilvusClient.heap s));
                MilvusClient._initialized := MilvusClient._initialized s;
                MilvusClient.heap := (MilvusClient.heap s ++ [None])%list;
                MilvusClient.srv := MilvusClient.srv s |}
   | Some _ => s
   end).
Proof. unfold MilvusClient.__new__. now destruct (MilvusClient._instance s). Qed.

Lemma init_facts self s :
  let out := MilvusClient.__init__ self s in
  MilvusClient._instance (snd out) = MilvusClient._instance s
  /\ MilvusClient.heap (snd out) =
     (if MilvusClient._initialized s then MilvusClient.heap s
      else MilvusClient.store (MilvusClient.heap s) self (Some MilvusClient.defaults))
  /\ (forall u, fst out = inl u -> MilvusClient._initialized (snd out) = true)
  /\ (forall e, fst out = inr e -> MilvusClient._initialized (snd out) = false).
Proof.
  cbv zeta. unfold MilvusClient.__init__.
  destruct (MilvusClient._initialized s) eqn:Hn.
  - cbn [fst snd]. repeat split; try congruence; discriminate.
  - change ((MilvusClient.kbind
               (MilvusClient.kbind
                  (MilvusClient.kbind
                     (MilvusClient.set_attributes self MilvusClient.defaults)
                     (fun _ => MilvusClient._connect self))
                  (fun _ => MilvusClient._init_collection self))
               (fun _ => MilvusClient.set_initialized true)) s)
      with ((MilvusClient.kbind
               (MilvusClient.kbind (MilvusClient._connect self)
                  (fun _ => MilvusClient._init_collection self))
               (fun _ => MilvusClient.set_initialized true))
              {| MilvusClient._instance := MilvusClient._instance s;
                 MilvusClient._initialized := MilvusClient._initialized s;
                 MilvusClient.heap :=
                   MilvusClient.store (MilvusClient.heap s) self (Some MilvusClient.defaults);
                 MilvusClient.srv := MilvusClient.srv s |}).
    match goal with
    | |- context [MilvusClient.kbind ?m ?k ?s2] =>
      destruct (initialisation_run self s2) as (Ha & Hb & Hc & Hd);
      destruct (MilvusClient.kbind m k s2) as [[[]|e] s3]
    end; cbn [fst snd MilvusClient._instance MilvusClient.heap
              MilvusClient._initialized] in *.
    + repeat split; try congruence; try discriminate. intros _ _. now apply (Hc tt).
    + repeat split; try congruence; try discriminate. intros e0 _.
      rewrite (Hd e eq_refl). exact Hn.
Qed.

Lemma construct_facts s :
  let self := match MilvusClient._instance s with
              | None => List.length (MilvusClient.heap s)
              | Some self => self
              end in
  let cells := match MilvusClient._instance s with
               | None => (MilvusClient.heap s ++ [None])%list
               | Some _ => MilvusClient.heap s
               end in
  let out := MilvusClient.construct s in
  MilvusClient._instance (snd out) = Some self
  /\ MilvusClient.heap (snd out) =
     (if MilvusClient._initialized s then cells
      else MilvusClient.store cells self (Some MilvusClient.defaults))
  /\ (forall i, fst out = inl i -> i = self /\ MilvusClient._initialized (snd out) = true)
  /\ (forall e, fst out = inr e -> MilvusClient._initialized (snd out) = false).
Proof.
  cbv zeta. unfold MilvusClient.construct, MilvusClient.kbind. rewrite new_run.
  set (self := match MilvusClient._instance s with
               | None => List.length (MilvusClient.heap s)
               | Some self => self
               end).
  set (s1 := match MilvusClient._instance s with
             | None => _
             | Some _ => s
             end).
  assert (Hi1 : MilvusClient._instance s1 = Some self).
  { subst s1 self. now destruct (MilvusClient._instance s) eqn:Hi. }
  assert (Hn1 : MilvusClient._initialized s1 = MilvusClient._initialized s).
  { subst s1. now destruct (MilvusClient._instance s). }
  assert (Hh1 : MilvusClient.heap s1 =
                match MilvusClient._instance s with
                | None => (MilvusClient.heap s ++ [None])%list
                | Some _ => MilvusClient.heap s
                end).
  { subst s1. now destruct (MilvusClient._instance s). }
  rewrite <- Hh1, <- Hn1. clearbody s1 self. clear Hh1 Hn1.
  destruct (init_facts self s1) as (Ha & Hb & Hc & Hd).
  destruct (MilvusClient.__init__ self s1) as [[[]|e] s2];
    cbn [fst snd MilvusClient.kret] in *.
  - repeat split; try congruence; try discriminate. now apply (Hc tt).
  - repeat split; try congruence; try discriminate. intros e0 _. now apply (Hd e).
Qed.

Lemma construct_initialized s self :
  MilvusClient._instance s = Some self ->
  MilvusClient._initialized s = true ->
  MilvusClient.construct s = (inl self, s).
Proof.
  intros Hi Hn. unfold MilvusClient.construct, MilvusClient.kbind.
  rewrite new_run, Hi. unfold MilvusClient.__init__. now rewrite Hn.
Qed.

Lemma get_instance_stored s self :
  MilvusClient._instance s = Some self ->
  MilvusClient.get_instance s = (inl self, s).
Proof. intro Hi. unfold MilvusClient.get_instance. now rewrite Hi. Qed.

(** X21: the client is constructed once.  After a construction that
    returned, in whatever state it started, every later construction and
    every [get_instance] returns the same object and changes nothing: the
    server is not contacted again. *)
Theorem construction_happens_once (s s' : MilvusClient.state) (self : nat)
  (rs : list MilvusClient.request) :
  MilvusClient.construct s = (inl self, s') ->
  Forall (fun r => r = MilvusClient.Construct \/ r = MilvusClient.GetInstance) rs ->
  MilvusClient._initialized s' = true
  /\ MilvusClient.run rs s' = (map (fun _ => inl (Some self)) rs, s').
Proof.
  intros Hrun Hrs.
  destruct (construct_facts s) as (Hi & _ & Hok & _).
  rewrite Hrun in Hi, Hok. cbn [fst snd] in Hi, Hok.
  destruct (Hok self eq_refl) as [Hself Hn]. rewrite <- Hself in Hi.
  split; [exact Hn|].
  induction Hrs as [|r rs [->| ->] _ IH]; [reflexivity| |]; cbn [MilvusClient.run map];
    unfold MilvusClient.serve, MilvusClient.kbind.
  - rewrite (@construct_initialized _ _ Hi Hn). cbn [MilvusClient.kret]. now rewrite IH.
  - rewrite (@get_instance_stored _ _ Hi). cbn [MilvusClient.kret]. now rewrite IH.
Qed.

(** X21, witness: a server that answers every call. *)
Lemma construction_happens_once_witness :
  exists s',
    MilvusClient.construct (MilvusClient.initial (empty_server [])) = (inl 0%nat, s')
    /\ MilvusClient.run [MilvusClient.GetInstance; MilvusClient.Construct] s' =
       ([inl (Some 0%nat); inl (Some 0%nat)], s').
Proof.
  eexists. split; [reflexivity|].
  exact (proj2 (@construction_happens_once
                  (MilvusClient.initial (empty_server [])) _ 0%nat
                  [MilvusClient.GetInstance; MilvusClient.Construct] eq_refl
                  (Forall_cons _ (or_intror eq_refl)
                     (Forall_cons _ (or_introl eq_refl) (Forall_nil _))))).
Defined.

(** What [get_collection] does to a client whose object is there. *)
Lemma get_collection_alive s :
  alive s ->
  let out := MilvusClient.get_collection 0 s in
  class_of (snd out) = class_of s
  /\ MilvusClient.connected (MilvusClient.srv (snd out)) =
     MilvusClient.connected (MilvusClient.srv s)
  /\ MilvusClient.collections (MilvusClient.srv (snd out)) =
     MilvusClient.collections (MilvusClient.srv s)
  /\ MilvusClient.indexes (MilvusClient.srv (snd out)) =
     MilvusClient.indexes (MilvusClient.srv s)
  /\ (MilvusClient.connected (MilvusClient.srv s)
      && MilvusClient.mem "logos_cache" (MilvusClient.collections (MilvusClient.srv s)) = false ->
      fst out = inr MilvusClient.MilvusError).
Proof.
  intros [Hh Hi]. cbv zeta.
  split; [apply keeps_class_get_collection|].
  destruct s as [i n h [c cols idx ld cu fs]].
  cbn [MilvusClient.heap MilvusClient._instance MilvusClient.srv MilvusClient.connected
       MilvusClient.collections MilvusClient.indexes] in *. subst h.
  unfold MilvusClient.get_collection, MilvusClient.except, MilvusClient.kbind,
    MilvusClient.attr, MilvusClient.Collection_named, MilvusClient.load, MilvusClient.remote.
  cbn [MilvusClient.heap nth_error MilvusClient.collection_name MilvusClient.defaults
       MilvusClient.srv MilvusClient.faults MilvusClient.set_faults MilvusClient.connected
       MilvusClient.collections].
  destruct (c && MilvusClient.mem "logos_cache" cols) eqn:Hc;
    destruct fs as [|[|] [|[|] fs]]; cbn; repeat split; try discriminate.
Qed.

(** X22: a construction that failed is never retried by [get_instance].
    When the first construction of the process raises, the object exists
    already: every [get_instance] afterwards returns it without contacting
    the server, [_initialized] stays false, no collection or index is ever
    created, and no connection is made; if the connection or the collection
    was missing when the construction failed, every [get_collection] on the
    object raises. *)
Theorem failed_construction_is_never_retried (v : MilvusClient.server)
  (e : MilvusClient.failure) (s1 : MilvusClient.state) (rs : list MilvusClient.request) :
  MilvusClient.construct (MilvusClient.initial v) = (inr e, s1) ->
  Forall (fun r => r = MilvusClient.GetInstance \/ r = MilvusClient.GetCollection 0) rs ->
  let out := MilvusClient.run rs s1 in
  MilvusClient._initialized (snd out) = false
  /\ Forall2 (fun r o => r = MilvusClient.GetInstance -> o = inl (Some 0%nat)) rs (fst out)
  /\ MilvusClient.connected (MilvusClient.srv (snd out)) =
     MilvusClient.connected (MilvusClient.srv s1)
  /\ MilvusClient.collections (MilvusClient.srv (snd out)) =
     MilvusClient.collections (MilvusClient.srv s1)
  /\ MilvusClient.indexes (MilvusClient.srv (snd out)) =
     MilvusClient.indexes (MilvusClient.srv s1)
  /\ (MilvusClient.connected (MilvusClient.srv s1)
      && MilvusClient.mem "logos_cache" (MilvusClient.collections (MilvusClient.srv s1)) = false ->
      Forall2 (fun r o => r = MilvusClient.GetCollection 0 -> o = inr MilvusClient.MilvusError)
        rs (fst out)).
Proof.
  intros Hrun Hrs.
  destruct (construct_facts (MilvusClient.initial v)) as (Hi & Hh & _ & Hraise).
  rewrite Hrun in Hi, Hh, Hraise. cbn [fst snd MilvusClient.initial MilvusClient._instance
    MilvusClient._initialized MilvusClient.heap app List.length MilvusClient.store] in Hi, Hh, Hraise.
  specialize (Hraise e eq_refl).
  assert (Halive : alive s1) by (split; assumption).
  clear Hrun Hi Hh. revert s1 Hraise Halive.
  induction Hrs as [|r rs [->| ->] _ IH]; intros s1 Hn Halive; cbv zeta.
  - cbn. repeat split; try assumption; intros; constructor.
  - cbn [MilvusClient.run]. unfold MilvusClient.serve, MilvusClient.kbind.
    rewrite (@get_instance_stored _ _ (proj2 Halive)). cbn [MilvusClient.kret].
    specialize (IH s1 Hn Halive). cbv zeta in IH.
    destruct (MilvusClient.run rs s1) as [os s2]. cbn [fst snd] in *.
    destruct IH as (H1 & H2 & H3 & H4 & H5 & H6).
    repeat split; try assumption.
    + constructor; [reflexivity | exact H2].
    + intro Hc. constructor; [discriminate | exact (H6 Hc)].
  - cbn [MilvusClient.run]. unfold MilvusClient.serve, MilvusClient.kbind.
    destruct (@get_collection_alive _ Halive) as (Hcls & Hc & Hcols & Hidx & Hfail).
    destruct (MilvusClient.get_collection 0 s1) as [[name|e1] s2]; cbn [fst snd] in *;
      cbn [MilvusClient.kret].
    all: assert (Hn2 : MilvusClient._initialized s2 = false)
        by (unfold class_of in Hcls; congruence).
    all: assert (Halive2 : alive s2)
        by (destruct Halive; unfold class_of in Hcls; split; congruence).
    all: specialize (IH s2 Hn2 Halive2); cbv zeta in IH;
      destruct (MilvusClient.run rs s2) as [os s3]; cbn [fst snd] in *;
      destruct IH as (H1 & H2 & H3 & H4 & H5 & H6);
      rewrite Hc, Hcols in H6.
    all: repeat split; try congruence.
    all: try (constructor; [discriminate | exact H2]).
    all: intro Hcond; constructor; [|exact (H6 Hcond)].
    + intros _. specialize (Hfail Hcond). discriminate.
    + intros _. specialize (Hfail Hcond). congruence.
Qed.

(** X22, witness: the server is unreachable when the process starts and
    answers afterwards. *)
Lemma failed_construction_is_never_retried_witness :
  exists s1 s2,
    MilvusClient.construct (MilvusClient.initial (empty_server [true])) =
    (inr MilvusClient.MilvusError, s1)
    /\ MilvusClient.run [MilvusClient.GetInstance; MilvusClient.GetCollection 0] s1 =
       ([inl (Some 0%nat); inr MilvusClient.MilvusError], s2)
    /\ MilvusClient._initialized s2 = false
    /\ MilvusClient.collections (MilvusClient.srv s2) = [].
Proof.
  do 2 eexists. split; [reflexivity|]. split; [reflexivity|].
  destruct (@failed_construction_is_never_retried (empty_server [true])
              MilvusClient.MilvusError _
              [MilvusClient.GetInstance; MilvusClient.GetCollection 0] eq_refl
              (Forall_cons _ (or_introl eq_refl)
                 (Forall_cons _ (or_intror eq_refl) (Forall_nil _))))
    as (Hn & _ & _ & Hcols & _).
  split; [exact Hn | exact Hcols].
Defined.

Lemma construct_settled s :
  settled s ->
  alive (snd (MilvusClient.construct s))
  /\ (forall self, fst (MilvusClient.construct s) = inl self -> self = 0%nat).
Proof.
  intro Hs. destruct (construct_facts s) as (Hi & Hh & Hok & _).
  destruct Hs as [(Hheap & Hinst & Hn)|[Hheap Hinst]];
    rewrite Hheap, Hinst in *; cbn [app List.length] in *.
  - rewrite Hn in Hh. cbn [MilvusClient.store] in Hh.
    split; [split; assumption|]. intros self H. now destruct (Hok self H).
  - assert (Hh' : MilvusClient.heap (snd (MilvusClient.construct s)) =
                  [Some MilvusClient.defaults])
      by (rewrite Hh; now destruct (MilvusClient._initialized s)).
    split; [split; assumption|]. intros self H. now destruct (Hok self H).
Qed.

Lemma serve_settled r s :
  settled s ->
  settled (snd (MilvusClient.serve r s))
  /\ (alive s -> alive (snd (MilvusClient.serve r s)))
  /\ (forall self, fst (MilvusClient.serve r s) = inl (Some self) ->
      self = 0%nat /\ alive (snd (MilvusClient.serve r s))).
Proof.
  intro Hs. destruct r as [| |self0]; unfold MilvusClient.serve, MilvusClient.kbind.
  - destruct (construct_settled Hs) as [Ha Hz].
    destruct (MilvusClient.construct s) as [[self|e] s1]; cbn [fst snd MilvusClient.kret] in *.
    + split; [now right|]. split; [auto|]. intros self' [= <-]. split; [now apply Hz | exact Ha].
    + split; [now right|]. split; [auto|]. discriminate.
  - unfold MilvusClient.get_instance.
    destruct (MilvusClient._instance s) as [self|] eqn:Hinst.
    + cbn [fst snd MilvusClient.kret].
      assert (Ha : alive s).
      { destruct Hs as [(_ & Hnone & _)|Ha]; [congruence | exact Ha]. }
      split; [exact Hs|]. split; [auto|]. intros self' [= <-].
      split; [|exact Ha]. destruct Ha as [_ Ha]. congruence.
    + unfold MilvusClient.kbind.
      destruct (construct_settled Hs) as [Ha Hz].
      destruct (MilvusClient.construct s) as [[self|e] s1];
        cbn [fst snd MilvusClient.kret MilvusClient.set_instance] in *.
      * specialize (Hz self eq_refl). subst self.
        assert (Ha' : alive {| MilvusClient._instance := Some 0%nat;
                               MilvusClient._initialized := MilvusClient._initialized s1;
                               MilvusClient.heap := MilvusClient.heap s1;
                               MilvusClient.srv := MilvusClient.srv s1 |})
          by (split; [exact (proj1 Ha) | reflexivity]).
        split; [now right|]. split; [auto|]. intros self' [= <-]. now split.
      * split; [now right|]. split; [auto|]. discriminate.
  - pose proof (keeps_class_get_collection self0 s) as Hcls. unfold class_of in Hcls.
    injection Hcls as Hi Hn Hh.
    destruct (MilvusClient.get_collection self0 s) as [[name|e] s1];
      cbn [fst snd MilvusClient.kret] in *.
    all: split; [destruct Hs as [(H1 & H2 & H3)|[H1 H2]];
                 [left; repeat split; congruence | right; split; congruence]|].
    all: split; [intros [H1 H2]; split; congruence | discriminate].
Qed.

Lemma run_settled rs s :
  settled s ->
  let out := MilvusClient.run rs s in
  settled (snd out)
  /\ (alive s -> alive (snd out))
  /\ Forall (fun o => forall self, o = inl (Some self) -> self = 0%nat) (fst out)
  /\ ((exists self, In (inl (Some self)) (fst out)) -> alive (snd out)).
Proof.
  revert s. induction rs as [|r rs IH]; intros s Hs; cbv zeta.
  - cbn. split; [exact Hs|]. split; [auto|]. split; [constructor|]. intros [self []].
  - cbn [MilvusClient.run].
    destruct (@serve_settled r s Hs) as (Hs1 & Ha1 & Hz1).
    destruct (MilvusClient.serve r s) as [o s1]; cbn [fst snd] in *.
    specialize (IH s1 Hs1). cbv zeta in IH.
    destruct (MilvusClient.run rs s1) as [os s2]; cbn [fst snd] in *.
    destruct IH as (Hs2 & Ha2 & Hz2 & Hin2).
    split; [exact Hs2|]. split; [auto|]. split.
    + constructor; [|exact Hz2]. intros self ->. now destruct (Hz1 self eq_refl).
    + intros [self [->|Hin]].
      * apply Ha2. now destruct (Hz1 self eq_refl).
      * apply Hin2. now exists self.
Qed.

(** X23: there is one client object at most.  Whatever the server does and
    whatever a program asks of the class (constructions, [get_instance],
    [get_collection], in any order, failing or not), one object at most is
    ever allocated, every construction and [get_instance] that returns
    returns that object, and the object has its attributes: once it has
    been handed out, [get_collection_name] on it answers ["logos_cache"]. *)
Theorem one_client_object (v : MilvusClient.server) (rs : list MilvusClient.request) :
  let out := MilvusClient.run rs (MilvusClient.initial v) in
  (List.length (MilvusClient.heap (snd out)) <= 1)%nat
  /\ Forall (fun o => forall self, o = inl (Some self) -> self = 0%nat) (fst out)
  /\ ((exists self, In (inl (Some self)) (fst out)) ->
      MilvusClient.get_collection_name 0 (snd out) = (inl "logos_cache", snd out)).
Proof.
  cbv zeta.
  assert (Hs : settled (MilvusClient.initial v)) by (left; repeat split).
  destruct (@run_settled rs _ Hs) as (Hs' & _ & Hz & Hin).
  split; [|split; [exact Hz|]].
  - destruct Hs' as [(-> & _)|[-> _]]; cbn; lia.
  - intro H. destruct (Hin H) as [Hh _].
    unfold MilvusClient.get_collection_name, MilvusClient.attr. now rewrite Hh.
Qed.

(** ** Indexes are made with the collection only *)

Lemma get_collection_keeps_catalogue self s :
  MilvusClient.collections (MilvusClient.srv (snd (MilvusClient.get_collection self s))) =
  MilvusClient.collections (MilvusClient.srv s)
  /\ MilvusClient.indexes (MilvusClient.srv (snd (MilvusClient.get_collection self s))) =
     MilvusClient.indexes (MilvusClient.srv s).
Proof.
  unfold MilvusClient.get_collection, MilvusClient.except, MilvusClient.kbind,
    MilvusClient.attr, MilvusClient.Collection_named, MilvusClient.load, MilvusClient.remote.
  destruct (nth_error (MilvusClient.heap s) self) as [[a|]|]; [|split; reflexivity..].
  destruct s as [i n h [c cols idx ld cu fs]].
  cbn [MilvusClient.srv MilvusClient.faults MilvusClient.set_faults MilvusClient.connected
       MilvusClient.collections].
  destruct (c && MilvusClient.mem (MilvusClient.collection_name a) cols);
    destruct fs as [|[|] [|[|] fs]]; cbn; split; reflexivity.
Qed.

(** The initialisation over a collection that is there: nothing is created. *)
Lemma initialisation_over_existing_collection s :
  MilvusClient.heap s = [Some MilvusClient.defaults] ->
  MilvusClient.mem "logos_cache" (MilvusClient.collections (MilvusClient.srv s)) = true ->
  let out := (MilvusClient.kbind
                (MilvusClient.kbind (MilvusClient._connect 0)
                   (fun _ => MilvusClient._init_collection 0))
                (fun _ => MilvusClient.set_initialized true)) s in
  MilvusClient.collections (MilvusClient.srv (snd out)) =
  MilvusClient.collections (MilvusClient.srv s)
  /\ MilvusClient.indexes (MilvusClient.srv (snd out)) =
     MilvusClient.indexes (MilvusClient.srv s)
  /\ (forallb negb (firstn 3 (MilvusClient.faults (MilvusClient.srv s))) = true ->
      fst out = inl tt).
Proof.
  destruct s as [i n h [c cols idx ld cu fs]].
  cbn [MilvusClient.heap MilvusClient.srv MilvusClient.collections MilvusClient.indexes
       MilvusClient.faults].
  intros -> Hmem. cbv zeta.
  unfold MilvusClient._connect, MilvusClient._init_collection, MilvusClient.except,
    MilvusClient.kbind, MilvusClient.disconnect, MilvusClient.local, MilvusClient.attr,
    MilvusClient.connect, MilvusClient.list_collections, MilvusClient.has_collection,
    MilvusClient.remote, MilvusClient.kret, MilvusClient.kraise, MilvusClient.set_initialized.
  destruct fs as [|[|] [|[|] [|[|] fs]]];
    cbn [MilvusClient.heap nth_error MilvusClient.srv MilvusClient.faults
         MilvusClient.set_faults MilvusClient.set_connected MilvusClient.on_server
         MilvusClient.collections MilvusClient.indexes MilvusClient.connected
         MilvusClient.loaded MilvusClient.cuda MilvusClient._instance
         MilvusClient._initialized MilvusClient.collection_name MilvusClient.dim
         MilvusClient.host MilvusClient.port MilvusClient.defaults fst snd];
    rewrite ?Hmem;
    cbn [negb MilvusClient.heap nth_error MilvusClient.srv MilvusClient.faults
         MilvusClient.set_faults MilvusClient.set_connected MilvusClient.on_server
         MilvusClient.collections MilvusClient.indexes MilvusClient.connected
         MilvusClient.loaded MilvusClient.cuda MilvusClient._instance
         MilvusClient._initialized fst snd firstn forallb andb];
    repeat split; discriminate.
Qed.

Lemma init_over_existing_collection s :
  MilvusClient.store (MilvusClient.heap s) 0 (Some MilvusClient.defaults) =
  [Some MilvusClient.defaults] ->
  MilvusClient.mem "logos_cache" (MilvusClient.collections (MilvusClient.srv s)) = true ->
  let out := MilvusClient.__init__ 0 s in
  MilvusClient.collections (MilvusClient.srv (snd out)) =
  MilvusClient.collections (MilvusClient.srv s)
  /\ MilvusClient.indexes (MilvusClient.srv (snd out)) =
     MilvusClient.indexes (MilvusClient.srv s)
  /\ (forallb negb (firstn 3 (MilvusClient.faults (MilvusClient.srv s))) = true ->
      fst out = inl tt).
Proof.
  intros Hstore Hmem. cbv zeta. unfold MilvusClient.__init__.
  destruct (MilvusClient._initialized s) eqn:Hn; [repeat split|].
  change ((MilvusClient.kbind
             (MilvusClient.kbind
                (MilvusClient.kbind (MilvusClient.set_attributes 0 MilvusClient.defaults)
                   (fun _ => MilvusClient._connect 0))
                (fun _ => MilvusClient._init_collection 0))
             (fun _ => MilvusClient.set_initialized true)) s)
    with ((MilvusClient.kbind
             (MilvusClient.kbind (MilvusClient._connect 0)
                (fun _ => MilvusClient._init_collection 0))
             (fun _ => MilvusClient.set_initialized true))
            {| MilvusClient._instance := MilvusClient._instance s;
               MilvusClient._initialized := MilvusClient._initialized s;
               MilvusClient.heap :=
                 MilvusClient.store (MilvusClient.heap s) 0 (Some MilvusClient.defaults);
               MilvusClient.srv := MilvusClient.srv s |}).
  match goal with
  | |- context [MilvusClient.kbind ?m ?k ?s2] =>
    exact (@initialisation_over_existing_collection s2 Hstore Hmem)
  end.
Qed.

Lemma construct_over_existing_collection s :
  settled s ->
  MilvusClient.mem "logos_cache" (MilvusClient.collections (MilvusClient.srv s)) = true ->
  let out := MilvusClient.construct s in
  MilvusClient.collections (MilvusClient.srv (snd out)) =
  MilvusClient.collections (MilvusClient.srv s)
  /\ MilvusClient.indexes (MilvusClient.srv (snd out)) =
     MilvusClient.indexes (MilvusClient.srv s)
  /\ (forallb negb (firstn 3 (MilvusClient.faults (MilvusClient.srv s))) = true ->
      fst out = inl 0%nat).
Proof.
  intros Hs Hmem. cbv zeta.
  unfold MilvusClient.construct, MilvusClient.kbind. rewrite !new_run.
  destruct Hs as [(Hheap & Hinst & Hn)|[Hheap Hinst]]; rewrite Hinst, ?Hheap;
    cbn [app List.length].
  - match goal with
    | |- context [MilvusClient.__init__ 0 ?s1] =>
      destruct (@init_over_existing_collection s1 eq_refl Hmem) as (H1 & H2 & H3);
      cbv zeta in H1, H2, H3;
      destruct (MilvusClient.__init__ 0 s1) as [[[]|e] s3]
    end; cbn [fst snd MilvusClient.kret MilvusClient.srv] in *.
    + repeat split; assumption.
    + repeat split; try assumption. intro Hf. specialize (H3 Hf). discriminate.
  - assert (Hstore : MilvusClient.store (MilvusClient.heap s) 0 (Some MilvusClient.defaults)
                     = [Some MilvusClient.defaults]) by now rewrite Hheap.
    destruct (@init_over_existing_collection s Hstore Hmem) as (H1 & H2 & H3);
      cbv zeta in H1, H2, H3;
      destruct (MilvusClient.__init__ 0 s) as [[[]|e] s3];
      cbn [fst snd MilvusClient.kret MilvusClient.srv] in *.
    + repeat split; assumption.
    + repeat split; try assumption. intro Hf. specialize (H3 Hf). discriminate.
Qed.

Lemma serve_over_existing_collection r s :
  settled s ->
  MilvusClient.mem "logos_cache" (MilvusClient.collections (MilvusClient.srv s)) = true ->
  MilvusClient.collections (MilvusClient.srv (snd (MilvusClient.serve r s))) =
  MilvusClient.collections (MilvusClient.srv s)
  /\ MilvusClient.indexes (MilvusClient.srv (snd (MilvusClient.serve r s))) =
     MilvusClient.indexes (MilvusClient.srv s).
Proof.
  intros Hs Hmem. destruct r as [| |self]; unfold MilvusClient.serve, MilvusClient.kbind.
  - destruct (@construct_over_existing_collection s Hs Hmem) as (H1 & H2 & _).
    cbv zeta in H1, H2.
    destruct (MilvusClient.construct s) as [[self|e] s1]; cbn [fst snd MilvusClient.kret] in *;
      split; assumption.
  - unfold MilvusClient.get_instance.
    destruct (MilvusClient._instance s) as [self|]; [split; reflexivity|].
    unfold MilvusClient.kbind.
    destruct (@construct_over_existing_collection s Hs Hmem) as (H1 & H2 & _).
    cbv zeta in H1, H2.
    destruct (MilvusClient.construct s) as [[self|e] s1];
      cbn [fst snd MilvusClient.kret MilvusClient.set_instance MilvusClient.srv] in *;
      split; assumption.
  - destruct (get_collection_keeps_catalogue self s) as [H1 H2].
    destruct (MilvusClient.get_collection self s) as [[name|e] s1];
      cbn [fst snd MilvusClient.kret] in *; split; assumption.
Qed.

Lemma run_over_existing_collection rs s :
  settled s ->
  MilvusClient.mem "logos_cache" (MilvusClient.collections (MilvusClient.srv s)) = true ->
  MilvusClient.collections (MilvusClient.srv (snd (MilvusClient.run rs s))) =
  MilvusClient.collections (MilvusClient.srv s)
  /\ MilvusClient.indexes (MilvusClient.srv (snd (MilvusClient.run rs s))) =
     MilvusClient.indexes (MilvusClient.srv s).
Proof.
  revert s. induction rs as [|r rs IH]; intros s Hs Hmem; [split; reflexivity|].
  cbn [MilvusClient.run].
  destruct (@serve_settled r s Hs) as (Hs1 & _).
  destruct (@serve_over_existing_collection r s Hs Hmem) as [H1 H2].
  destruct (MilvusClient.serve r s) as [o s1]; cbn [fst snd] in *.
  assert (Hmem1 : MilvusClient.mem "logos_cache"
                    (MilvusClient.collections (MilvusClient.srv s1)) = true)
    by now rewrite H1.
  destruct (IH s1 Hs1 Hmem1) as [H3 H4].
  destruct (MilvusClient.run rs s1) as [os s2]; cbn [fst snd] in *.
  split; congruence.
Qed.

(** X24: an initialisation interrupted between the creation of the
    collection and the creation of its first index is never completed.  On
    a server without the collection, when connecting, listing, the existence
    check and the creation succeed and the first [create_index] raises, the
    construction raises and leaves the collection without the index; no
    request made afterwards (constructions, [get_instance],
    [get_collection], in any order) creates an index, and the next
    construction, once its three calls to the server are answered, returns
    the client with [_initialized] set. *)
Theorem interrupted_initialisation_is_never_completed (v : MilvusClient.server)
  (fs : list bool) (rs : list MilvusClient.request) :
  MilvusClient.mem "logos_cache" (MilvusClient.collections v) = false ->
  MilvusClient.faults v = false :: false :: false :: false :: true :: fs ->
  exists s1,
    MilvusClient.construct (MilvusClient.initial v) = (inr MilvusClient.MilvusError, s1)
    /\ MilvusClient.collections (MilvusClient.srv s1) =
       "logos_cache" :: MilvusClient.collections v
    /\ MilvusClient.indexes (MilvusClient.srv s1) = MilvusClient.indexes v
    /\ MilvusClient.indexes (MilvusClient.srv (snd (MilvusClient.run rs s1))) =
       MilvusClient.indexes v
    /\ (forallb negb (firstn 3 fs) = true ->
        exists s2,
          MilvusClient.construct s1 = (inl 0%nat, s2)
          /\ MilvusClient._initialized s2 = true
          /\ MilvusClient.indexes (MilvusClient.srv s2) = MilvusClient.indexes v).
Proof.
  destruct v as [c cols idx ld cu f].
  cbn [MilvusClient.collections MilvusClient.faults MilvusClient.indexes].
  intros Hmem ->.
  assert (Hrun : MilvusClient.construct
                   (MilvusClient.initial
                      {| MilvusClient.connected := c; MilvusClient.collections := cols;
                         MilvusClient.indexes := idx; MilvusClient.loaded := ld;
                         MilvusClient.cuda := cu;
                         MilvusClient.faults := false :: false :: false :: false :: true :: fs |}) =
                 (inr MilvusClient.MilvusError,
                  {| MilvusClient._instance := Some 0%nat;
                     MilvusClient._initialized := false;
                     MilvusClient.heap := [Some MilvusClient.defaults];
                     MilvusClient.srv :=
                       {| MilvusClient.connected := true;
                          MilvusClient.collections := "logos_cache" :: cols;
                          MilvusClient.indexes := idx; MilvusClient.loaded := ld;
                          MilvusClient.cuda := cu; MilvusClient.faults := fs |} |})).
  { unfold MilvusClient.construct, MilvusClient.__new__, MilvusClient.__init__,
      MilvusClient._connect, MilvusClient._init_collection, MilvusClient.except,
      MilvusClient.kbind, MilvusClient.disconnect, MilvusClient.local, MilvusClient.attr,
      MilvusClient.connect, MilvusClient.list_collections, MilvusClient.has_collection,
      MilvusClient.Collection_with_schema, MilvusClient.create_index,
      MilvusClient.remote, MilvusClient.kret, MilvusClient.kraise,
      MilvusClient.set_initialized, MilvusClient.set_attributes, MilvusClient.initial.
    cbn [MilvusClient.heap nth_error MilvusClient.srv MilvusClient.faults
         MilvusClient.set_faults MilvusClient.set_connected MilvusClient.on_server
         MilvusClient.collections MilvusClient.indexes MilvusClient.connected
         MilvusClient.loaded MilvusClient.cuda MilvusClient._instance
         MilvusClient._initialized MilvusClient.collection_name MilvusClient.dim
         MilvusClient.host MilvusClient.port MilvusClient.defaults fst snd
         MilvusClient.store app List.length].
    rewrite Hmem.
    cbn [negb MilvusClient.heap nth_error MilvusClient.srv MilvusClient.faults
         MilvusClient.set_faults MilvusClient.set_connected MilvusClient.on_server
         MilvusClient.collections MilvusClient.indexes MilvusClient.connected
         MilvusClient.loaded MilvusClient.cuda MilvusClient._instance
         MilvusClient._initialized MilvusClient.collection_name MilvusClient.dim
         MilvusClient.host MilvusClient.port MilvusClient.defaults fst snd
         MilvusClient.add_collection].
    rewrite Hmem. reflexivity. }
  eexists. split; [exact Hrun|].
  match goal with
  | |- context [MilvusClient.run rs ?s1] =>
    assert (Hs1 : settled s1) by (right; split; reflexivity);
    assert (Hmem1 : MilvusClient.mem "logos_cache"
                      (MilvusClient.collections (MilvusClient.srv s1)) = true)
      by reflexivity;
    destruct (@run_over_existing_collection rs s1 Hs1 Hmem1) as [_ Hidx];
    destruct (@construct_over_existing_collection s1 Hs1 Hmem1) as (_ & Hidx2 & Hok);
    destruct (construct_facts s1) as (_ & _ & Hinit & _)
  end.
  cbv zeta in Hidx2, Hok, Hinit.
  cbn [MilvusClient.srv MilvusClient.collections MilvusClient.indexes MilvusClient.faults]
    in Hidx, Hidx2, Hok |- *.
  split; [reflexivity|]. split; [reflexivity|]. split; [exact Hidx|].
  intro Hf. specialize (Hok Hf).
  destruct (MilvusClient.construct _) as [[self|e] s2] eqn:Hc2 in Hok, Hidx2, Hinit |- *;
    cbn [fst snd] in *; [|discriminate].
  injection Hok as ->. exists s2. split; [reflexivity|].
  split; [now destruct (Hinit 0%nat eq_refl) | exact Hidx2].
Qed.

(** X24, witness: the server fails at its fifth call and answers every
    other. *)
Lemma interrupted_initialisation_is_never_completed_witness :
  exists s1 s2,
    MilvusClient.construct
      (MilvusClient.initial (empty_server [false; false; false; false; true])) =
    (inr MilvusClient.MilvusError, s1)
    /\ MilvusClient.construct s1 = (inl 0%nat, s2)
    /\ MilvusClient._initialized s2 = true
    /\ MilvusClient.indexes (MilvusClient.srv s2) = [].
Proof.
  destruct (@interrupted_initialisation_is_never_completed
              (empty_server [false; false; false; false; true]) [] [] eq_refl eq_refl)
    as (s1 & Hrun & _ & _ & _ & Hnext).
  destruct (Hnext eq_refl) as (s2 & Hrun2 & Hinit & Hidx).
  exists s1, s2. repeat split; assumption.
Defined.

(** X25: the first construction prepares the collection.  On a server
    without the collection that answers the seven calls of the
    initialisation, the construction returns the client with [_initialized]
    set, the connection made, the collection created with an index on
    [query_vector] and one on [result_vector], and the collection loaded;
    when the next two calls are answered too, [get_collection] on the client
    returns the collection. *)
Theorem construction_prepares_the_collection (v : MilvusClient.server) :
  MilvusClient.mem "logos_cache" (MilvusClient.collections v) = false ->
  forallb negb (firstn 9 (MilvusClient.faults v)) = true ->
  exists s1,
    MilvusClient.construct (MilvusClient.initial v) = (inl 0%nat, s1)
    /\ MilvusClient._initialized s1 = true
    /\ MilvusClient.connected (MilvusClient.srv s1) = true
    /\ MilvusClient.collections (MilvusClient.srv s1) =
       "logos_cache" :: MilvusClient.collections v
    /\ MilvusClient.indexes (MilvusClient.srv s1) =
       ("logos_cache", "result_vector") :: ("logos_cache", "query_vector")
       :: MilvusClient.indexes v
    /\ MilvusClient.loaded (MilvusClient.srv s1) = "logos_cache" :: MilvusClient.loaded v
    /\ fst (MilvusClient.get_collection 0 s1) = inl "logos_cache".
Proof.
  destruct v as [c cols idx ld cu f].
  cbn [MilvusClient.collections MilvusClient.faults MilvusClient.indexes MilvusClient.loaded].
  intros Hmem Hf.
  assert (Hmem' : MilvusClient.mem "logos_cache" ("logos_cache" :: cols) = true)
    by reflexivity.
  unfold MilvusClient.get_collection, MilvusClient.Collection_named, MilvusClient.load.
  unfold MilvusClient.construct, MilvusClient.__new__, MilvusClient.__init__,
    MilvusClient._connect, MilvusClient._init_collection, MilvusClient.except,
    MilvusClient.kbind, MilvusClient.disconnect, MilvusClient.local, MilvusClient.attr,
    MilvusClient.connect, MilvusClient.list_collections, MilvusClient.has_collection,
    MilvusClient.Collection_with_schema, MilvusClient.create_index, MilvusClient.load,
    MilvusClient.remote, MilvusClient.kret, MilvusClient.kraise,
    MilvusClient.set_initialized, MilvusClient.set_attributes, MilvusClient.initial.
  destruct f as [|[|] [|[|] [|[|] [|[|] [|[|] [|[|] [|[|] [|[|] [|[|] f]]]]]]]]];
    try discriminate Hf; clear Hf; destruct cu;
    cbn [MilvusClient.heap nth_error MilvusClient.srv MilvusClient.faults
         MilvusClient.set_faults MilvusClient.set_connected MilvusClient.on_server
         MilvusClient.collections MilvusClient.indexes MilvusClient.connected
         MilvusClient.loaded MilvusClient.cuda MilvusClient._instance
         MilvusClient._initialized MilvusClient.collection_name MilvusClient.dim
         MilvusClient.host MilvusClient.port MilvusClient.defaults fst snd
         MilvusClient.store app List.length];
    rewrite Hmem;
    cbn [negb MilvusClient.heap nth_error MilvusClient.srv MilvusClient.faults
         MilvusClient.set_faults MilvusClient.set_connected MilvusClient.on_server
         MilvusClient.collections MilvusClient.indexes MilvusClient.connected
         MilvusClient.loaded MilvusClient.cuda MilvusClient._instance
         MilvusClient._initialized MilvusClient.collection_name MilvusClient.dim
         MilvusClient.host MilvusClient.port MilvusClient.defaults fst snd
         MilvusClient.add_collection MilvusClient.add_index MilvusClient.add_loaded];
    rewrite ?Hmem;
    cbn [negb MilvusClient.heap nth_error MilvusClient.srv MilvusClient.faults
         MilvusClient.set_faults MilvusClient.set_connected MilvusClient.on_server
         MilvusClient.collections MilvusClient.indexes MilvusClient.connected
         MilvusClient.loaded MilvusClient.cuda MilvusClient._instance
         MilvusClient._initialized MilvusClient.collection_name MilvusClient.dim
         MilvusClient.host MilvusClient.port MilvusClient.defaults fst snd
         MilvusClient.add_collection MilvusClient.add_index MilvusClient.add_loaded];
    eexists; (split; [reflexivity|]);
    cbn [MilvusClient.heap nth_error MilvusClient.srv MilvusClient.faults
         MilvusClient.set_faults MilvusClient.on_server
         MilvusClient.collections MilvusClient.indexes MilvusClient.connected
         MilvusClient.loaded MilvusClient.cuda MilvusClient._instance
         MilvusClient._initialized MilvusClient.collection_name MilvusClient.defaults
         fst snd andb];
    rewrite ?Hmem';
    cbn [fst snd MilvusClient.srv MilvusClient.faults MilvusClient.set_faults
         MilvusClient.on_server];
    repeat split.
Qed.

(** X25, witness: an empty server that answers every call. *)
Lemma construction_prepares_the_collection_witness :
  exists s1,
    MilvusClient.construct (MilvusClient.initial (empty_server [])) = (inl 0%nat, s1)
    /\ MilvusClient.indexes (MilvusClient.srv s1) =
       [("logos_cache", "result_vector"); ("logos_cache", "query_vector")]
    /\ fst (MilvusClient.get_collection 0 s1) = inl "logos_cache".
Proof.
  destruct (@construction_prepares_the_collection (empty_server []) eq_refl eq_refl)
    as (s1 & Hrun & _ & _ & _ & Hidx & _ & Hget).
  exists s1. repeat split; assumption.
Defined.

(** ** Dropping the collection under a running client *)

Lemma mem_removed name l :
  MilvusClient.mem name (filter (fun n => negb (String.eqb n name)) l) = false.
Proof.
  unfold MilvusClient.mem. induction l as [|x l IH]; [reflexivity|]. cbn [filter].
  destruct (String.eqb_spec x name) as [->|Hne]; cbn [negb]; [exact IH|].
  cbn [existsb]. rewrite IH.
  destruct (String.eqb_spec name x) as [->|_]; [congruence | reflexivity].
Qed.

(** A drop that returns leaves no such collection, and says whether there
    was one. *)
Lemma drop_collection_returns name s b s1 :
  VectorStore.drop_collection name s = (inl b, s1) ->
  class_of s1 = class_of s
  /\ MilvusClient.mem name (MilvusClient.collections (MilvusClient.srv s1)) = false
  /\ b = MilvusClient.mem name (MilvusClient.collections (MilvusClient.srv s)).
Proof.
  destruct s as [i n h [c cols idx ld cu fs]].
  unfold VectorStore.drop_collection, MilvusClient.except, MilvusClient.kbind,
    MilvusClient.has_collection, MilvusClient.utility_drop_collection, MilvusClient.remote,
    MilvusClient.kret, MilvusClient.kraise.
  cbn [MilvusClient.srv MilvusClient.faults MilvusClient.collections].
  destruct fs as [|[|] [|[|] fs]];
    cbn [MilvusClient.srv MilvusClient.faults MilvusClient.collections MilvusClient.set_faults
         MilvusClient.on_server];
    try discriminate;
    destruct (MilvusClient.mem name cols) eqn:Hmem;
    cbn [MilvusClient.srv MilvusClient.faults MilvusClient.collections MilvusClient.set_faults
         MilvusClient.on_server MilvusClient.remove_collection];
    try discriminate;
    intros [= <- <-];
    cbn [MilvusClient.srv MilvusClient.collections];
    repeat split; try assumption; apply mem_removed.
Qed.

Lemma get_collection_of_absent self s :
  alive s ->
  MilvusClient.mem "logos_cache" (MilvusClient.collections (MilvusClient.srv s)) = false ->
  exists e, fst (MilvusClient.get_collection self s) = inr e.
Proof.
  intros Ha Hmem. destruct self as [|self].
  - exists MilvusClient.MilvusError.
    apply (@get_collection_alive s Ha). rewrite Hmem. apply Bool.andb_false_r.
  - exists MilvusClient.AttributeError. destruct Ha as [Hh _].
    unfold MilvusClient.get_collection, MilvusClient.except, MilvusClient.kbind,
      MilvusClient.attr. rewrite Hh. now destruct self.
Qed.

(** X26: a collection dropped under an initialised client is not made
    again.  When [drop_collection] of the client's collection returns, the
    collection is not there, and the answer says whether it was; in the
    process whose client was initialised, whatever is asked of the class
    afterwards, every construction and [get_instance] returns the client
    without contacting the server, every [get_collection] raises, and the
    collection stays away. *)
Theorem dropped_collection_is_not_recreated (s s1 : MilvusClient.state) (b : bool)
  (rs : list MilvusClient.request) :
  settled s ->
  MilvusClient._initialized s = true ->
  VectorStore.drop_collection "logos_cache" s = (inl b, s1) ->
  let out := MilvusClient.run rs s1 in
  b = MilvusClient.mem "logos_cache" (MilvusClient.collections (MilvusClient.srv s))
  /\ MilvusClient.mem "logos_cache"
       (MilvusClient.collections (MilvusClient.srv (snd out))) = false
  /\ Forall2 (fun r o => match r with
                         | MilvusClient.GetCollection _ => exists e, o = inr e
                         | _ => o = inl (Some 0%nat)
                         end) rs (fst out).
Proof.
  intros Hs Hn Hdrop. cbv zeta.
  destruct (drop_collection_returns _ _ Hdrop) as (Hcls & Hmem & Hb).
  split; [exact Hb|].
  assert (Ha : alive s).
  { destruct Hs as [(_ & _ & Hn')|Ha]; [congruence | exact Ha]. }
  assert (Ha1 : alive s1).
  { destruct Ha. unfold class_of in Hcls. split; congruence. }
  assert (Hn1 : MilvusClient._initialized s1 = true)
    by (unfold class_of in Hcls; congruence).
  clear Hdrop Hcls Hb Hs Hn Ha. revert s1 Hmem Ha1 Hn1.
  induction rs as [|r rs IH]; intros s1 Hmem Ha Hn; [split; [exact Hmem | constructor]|].
  cbn [MilvusClient.run].
  destruct r as [| |self]; unfold MilvusClient.serve, MilvusClient.kbind.
  - rewrite (@construct_initialized _ _ (proj2 Ha) Hn). cbn [MilvusClient.kret].
    destruct (IH s1 Hmem Ha Hn) as [H1 H2].
    destruct (MilvusClient.run rs s1) as [os s2]; cbn [fst snd] in *.
    split; [exact H1 | constructor; [reflexivity | exact H2]].
  - rewrite (@get_instance_stored _ _ (proj2 Ha)). cbn [MilvusClient.kret].
    destruct (IH s1 Hmem Ha Hn) as [H1 H2].
    destruct (MilvusClient.run rs s1) as [os s2]; cbn [fst snd] in *.
    split; [exact H1 | constructor; [reflexivity | exact H2]].
  - destruct (@get_collection_of_absent self s1 Ha Hmem) as [e He].
    destruct (get_collection_keeps_catalogue self s1) as [Hcols _].
    pose proof (keeps_class_get_collection self s1) as Hcls. unfold class_of in Hcls.
    destruct (MilvusClient.get_collection self s1) as [[name|e'] s2];
      cbn [fst snd] in *; [discriminate|].
    assert (Hmem2 : MilvusClient.mem "logos_cache"
                      (MilvusClient.collections (MilvusClient.srv s2)) = false)
      by now rewrite Hcols.
    assert (Ha2 : alive s2) by (destruct Ha; split; congruence).
    assert (Hn2 : MilvusClient._initialized s2 = true) by congruence.
    destruct (IH s2 Hmem2 Ha2 Hn2) as [H1 H2].
    destruct (MilvusClient.run rs s2) as [os s3]; cbn [fst snd] in *.
    split; [exact H1 | constructor; [now exists e' | exact H2]].
Qed.

(** X26, witness: the client is initialised on an empty server, the
    collection is dropped, and the client is asked for its collection. *)
Lemma dropped_collection_is_not_recreated_witness :
  exists s s1 s2,
    MilvusClient.construct (MilvusClient.initial (empty_server [])) = (inl 0%nat, s)
    /\ VectorStore.drop_collection "logos_cache" s = (inl true, s1)
    /\ MilvusClient.run [MilvusClient.GetInstance; MilvusClient.GetCollection 0] s1 =
       ([inl (Some 0%nat); inr MilvusClient.MilvusError], s2)
    /\ MilvusClient.mem "logos_cache" (MilvusClient.collections (MilvusClient.srv s2)) = false.
Proof.
  do 3 eexists. split; [reflexivity|]. split; [reflexivity|]. split; [reflexivity|].
  exact (proj1 (proj2 (@dropped_collection_is_not_recreated
                         (snd (MilvusClient.construct
                                 (MilvusClient.initial (empty_server [])))) _ true
                         [MilvusClient.GetInstance; MilvusClient.GetCollection 0]
                         (or_intror (conj eq_refl eq_refl)) eq_refl eq_refl))).
Defined.

(** ** The statistics screen *)

Lemma count_get_set d k n k' default :
  ManageCache.count_get (ManageCache.count_set d k n) k' default =
  if String.eqb k k' then n else ManageCache.count_get d k' default.
Proof.
  induction d as [|[k0 n0] d IH]; cbn [ManageCache.count_set ManageCache.count_get].
  - reflexivity.
  - destruct (String.eqb_spec k0 k) as [->|Hk]; cbn [ManageCache.count_get].
    + now destruct (String.eqb k k').
    + destruct (String.eqb_spec k0 k') as [->|Hk'].
      * destruct (String.eqb_spec k k'); [congruence | reflexivity].
      * exact IH.
Qed.

Lemma count_set_keys d k n :
  map fst (ManageCache.count_set d k n) =
  if existsb (String.eqb k) (map fst d) then map fst d else (map fst d ++ [k])%list.
Proof.
  induction d as [|[k0 n0] d IH]; cbn [ManageCache.count_set map fst existsb app].
  - reflexivity.
  - rewrite (String.eqb_sym k k0).
    destruct (String.eqb k0 k); cbn [map fst orb]; [reflexivity|].
    rewrite IH. now destruct (existsb (String.eqb k) (map fst d)).
Qed.

Lemma existsb_eqb_In x l : existsb (String.eqb x) l = true <-> In x l.
Proof.
  rewrite existsb_exists. split.
  - intros (y & Hin & Heq). apply String.eqb_eq in Heq. now subst.
  - intro Hin. exists x. split; [exact Hin | apply String.eqb_refl].
Qed.

(** Adding a text to a list without repetitions, as [count_set] does with
    its keys and [set_add] with its elements. *)
Lemma set_add_spec s x :
  NoDup s ->
  NoDup (ManageCache.set_add s x)
  /\ (forall y, In y (ManageCache.set_add s x) <-> In y s \/ y = x).
Proof.
  intro Hs. unfold ManageCache.set_add.
  destruct (existsb (String.eqb x) s) eqn:Hx.
  - apply existsb_eqb_In in Hx. split; [exact Hs|].
    intro y. split; [now left | intros [H| ->]; assumption].
  - assert (Hnin : ~ In x s).
    { intro Hin. apply existsb_eqb_In in Hin. congruence. }
    split.
    + apply NoDup_app; [exact Hs | constructor; [intros [] | constructor] |].
      intros y Hy [<-|[]]. contradiction.
    + intro y. rewrite in_app_iff. cbn [In]. intuition.
Qed.

Lemma count_set_keys_add d k n :
  map fst (ManageCache.count_set d k n) = ManageCache.set_add (map fst d) k.
Proof. apply count_set_keys. Qed.

Lemma occurrences_cons p x l :
  occurrences p (x :: l) = (if String.eqb p x then 1 else 0) + occurrences p l.
Proof.
  unfold occurrences. cbn [filter].
  destruct (String.eqb p x); cbn [List.length]; lia.
Qed.

(** The loop of [display_statistics], from any dictionary and set. *)
Lemma tally_fold rows :
  forall d u,
    NoDup (map fst d) -> NoDup u ->
    let out := fold_left
                 (fun (acc : list (string * Z) * list string) (entry : Milvus.row) =>
                    let (project_count, user_count) := acc in
                    (ManageCache.count_set project_count (Milvus.project_id entry)
                       (ManageCache.count_get project_count (Milvus.project_id entry) 0 + 1),
                     ManageCache.set_add user_count (Milvus.email entry)))
                 rows (d, u) in
    NoDup (map fst (fst out)) /\ NoDup (snd out)
    /\ (forall p, In p (map fst (fst out)) <->
                  In p (map fst d) \/ In p (map Milvus.project_id rows))
    /\ (forall e, In e (snd out) <-> In e u \/ In e (map Milvus.email rows))
    /\ (forall p, ManageCache.count_get (fst out) p 0 =
                  ManageCache.count_get d p 0 + occurrences p (map Milvus.project_id rows)).
Proof.
  induction rows as [|r rows IH]; intros d u Hd Hu; cbv zeta.
  - cbn [fold_left fst snd map]. repeat split; try assumption; try tauto.
    + intros [H|[]]; exact H.
    + intros [H|[]]; exact H.
    + intro p. unfold occurrences. cbn. lia.
  - cbn [fold_left].
    set (d1 := ManageCache.count_set d (Milvus.project_id r)
                 (ManageCache.count_get d (Milvus.project_id r) 0 + 1)).
    set (u1 := ManageCache.set_add u (Milvus.email r)).
    assert (Hkeys : map fst d1 = ManageCache.set_add (map fst d) (Milvus.project_id r))
      by apply count_set_keys_add.
    destruct (@set_add_spec (map fst d) (Milvus.project_id r) Hd) as [Hd1 Hin1].
    rewrite <- Hkeys in Hd1, Hin1.
    destruct (@set_add_spec u (Milvus.email r) Hu) as [Hu1 Hinu1]. fold u1 in Hu1, Hinu1.
    specialize (IH d1 u1 Hd1 Hu1). cbv zeta in IH.
    destruct IH as (H1 & H2 & H3 & H4 & H5).
    split; [exact H1|]. split; [exact H2|]. split; [|split].
    + intro p. rewrite H3, Hin1. cbn [map In]. intuition.
    + intro e. rewrite H4, Hinu1. cbn [map In]. intuition.
    + intro p. rewrite H5. subst d1. rewrite count_get_set. cbn [map].
      rewrite occurrences_cons. rewrite (String.eqb_sym p).
      destruct (String.eqb_spec (Milvus.project_id r) p) as [->|_]; lia.
Qed.

Lemma NoDup_same_length (l l' : list string) :
  NoDup l -> NoDup l' -> (forall x, In x l <-> In x l') ->
  List.length l = List.length l'.
Proof.
  intros Hl Hl' Hiff. apply Nat.le_antisymm; apply NoDup_incl_length; try assumption;
    intros x Hx; now apply Hiff.
Qed.

Lemma count_get_of_item d p c :
  NoDup (map fst d) -> In (p, c) d -> ManageCache.count_get d p 0 = c.
Proof.
  induction d as [|[k n] d IH]; intros Hd Hin; [destruct Hin|].
  cbn [map fst] in Hd. inversion Hd as [|? ? Hnin Hd']; subst.
  cbn [ManageCache.count_get]. destruct Hin as [[= -> ->]|Hin].
  - now rewrite String.eqb_refl.
  - destruct (String.eqb_spec k p) as [->|_]; [|now apply IH].
    exfalso. apply Hnin. change p with (fst (p, c)). now apply in_map.
Qed.

(** What the loop has counted when it is over. *)
Lemma tallied_spec rows :
  let projects := map Milvus.project_id rows in
  let emails := map Milvus.email rows in
  NoDup (map fst (fst (ManageCache.tallied rows)))
  /\ Z.of_nat (List.length (fst (ManageCache.tallied rows))) = distinct projects
  /\ Z.of_nat (List.length (snd (ManageCache.tallied rows))) = distinct emails
  /\ (forall p c, In (p, c) (fst (ManageCache.tallied rows)) <->
                  In p projects /\ c = occurrences p projects).
Proof.
  cbv zeta. unfold ManageCache.tallied.
  destruct (@tally_fold rows [] [] (NoDup_nil _) (NoDup_nil _)) as (H1 & H2 & H3 & H4 & H5).
  cbv zeta in H1, H2, H3, H4, H5.
  set (out := fold_left _ rows ([], [])) in *.
  split; [exact H1|]. split; [|split].
  - unfold distinct. f_equal. rewrite <- (length_map fst).
    apply NoDup_same_length; [exact H1 | apply NoDup_nodup |].
    intro p. rewrite H3, nodup_In. cbn [map In]. tauto.
  - unfold distinct. f_equal.
    apply NoDup_same_length; [exact H2 | apply NoDup_nodup |].
    intro e. rewrite H4, nodup_In. cbn [In]. tauto.
  - intros p c. split.
    + intro Hin. split.
      * assert (Hk : In p (map fst (fst out)))
          by (change p with (fst (p, c)); now apply in_map).
        apply H3 in Hk. destruct Hk as [[]|Hk]. exact Hk.
      * rewrite <- (@count_get_of_item _ p c H1 Hin). rewrite H5. cbn. lia.
    + intros [Hin ->].
      assert (Hk : In p (map fst (fst out))) by (apply H3; now right).
      apply in_map_iff in Hk. destruct Hk as ([p' c'] & Hfst & Hin').
      cbn [fst] in Hfst. subst p'.
      rewrite <- (@count_get_of_item _ p c' H1 Hin') in Hin'.
      rewrite H5 in Hin'. cbn [ManageCache.count_get] in Hin'.
      now replace (0 + occurrences p (map Milvus.project_id rows))
        with (occurrences p (map Milvus.project_id rows)) in Hin' by lia.
Qed.

Lemma insert_by_count_In x l y :
  In y (ManageCache.insert_by_count x l) <-> y = x \/ In y l.
Proof.
  induction l as [|z l IH]; cbn [ManageCache.insert_by_count].
  - cbn. intuition.
  - destruct (snd z <=? snd x); cbn [In]; [intuition|]. rewrite IH. intuition.
Qed.

Lemma insert_by_count_descending x l :
  descending l -> descending (ManageCache.insert_by_count x l).
Proof.
  induction l as [|z l IH]; intro Hl; cbn [ManageCache.insert_by_count].
  - cbn. split; [constructor | exact I].
  - destruct Hl as [Hz Hl]. destruct (Z.leb_spec (snd z) (snd x)) as [Hle|Hlt].
    + cbn [descending]. split; [|split; assumption].
      constructor; [exact Hle|]. eapply Forall_impl; [|exact Hz].
      cbn. intros b Hb. lia.
    + cbn [descending]. split; [|now apply IH].
      apply Forall_forall. intros b Hb. apply insert_by_count_In in Hb.
      destruct Hb as [->|Hb]; [lia|]. rewrite Forall_forall in Hz. now apply Hz.
Qed.

Lemma insert_by_count_keys x l :
  NoDup (map fst (x :: l)) -> NoDup (map fst (ManageCache.insert_by_count x l)).
Proof.
  induction l as [|z l IH]; intro Hn; cbn [ManageCache.insert_by_count]; [exact Hn|].
  destruct (snd z <=? snd x); [exact Hn|].
  cbn [map] in *. inversion Hn as [|? ? Hx Hzl]; subst.
  inversion Hzl as [|? ? Hz Hl]; subst.
  constructor.
  - intro Hin. apply in_map_iff in Hin. destruct Hin as (y & Hfst & Hy).
    apply insert_by_count_In in Hy. destruct Hy as [->|Hy].
    + apply Hx. left. symmetry. exact Hfst.
    + apply Hz. rewrite <- Hfst. now apply in_map.
  - apply IH. constructor; [|exact Hl]. intro Hin. apply Hx. now right.
Qed.

Lemma sorted_by_count_spec items :
  NoDup (map fst items) ->
  descending (ManageCache.sorted_by_count items)
  /\ NoDup (map fst (ManageCache.sorted_by_count items))
  /\ (forall y, In y (ManageCache.sorted_by_count items) <-> In y items).
Proof.
  unfold ManageCache.sorted_by_count.
  induction items as [|x items IH]; intro Hn; cbn [fold_right].
  - repeat split; auto; constructor.
  - cbn [map] in Hn. inversion Hn as [|? ? Hx Hitems]; subst.
    destruct (IH Hitems) as (Hd & Hk & Hin).
    split; [now apply insert_by_count_descending|]. split.
    + apply insert_by_count_keys. cbn [map]. constructor; [|exact Hk].
      intro H. apply Hx. apply in_map_iff in H. destruct H as (y & Hfst & Hy).
      apply Hin in Hy. rewrite <- Hfst. now apply in_map.
    + intro y. rewrite insert_by_count_In, Hin. cbn [In]. intuition.
Qed.

(** The three calls of [display_statistics] to a store that answers. *)
Lemma ask_num_entities rows reads shown :
  ManageCache.ask (on_collection Milvus.num_entities)
    {| ManageCache.store :=
         {| coll := {| Milvus.rows := rows; Milvus.faults := [] |}; clock_reads := reads |};
       ManageCache.printed := shown |} =
  (inl (Z.of_nat (List.length rows)),
   {| ManageCache.store :=
        {| coll := {| Milvus.rows := rows; Milvus.faults := [] |}; clock_reads := reads |};
      ManageCache.printed := shown |}).
Proof. reflexivity. Qed.

Lemma ask_query_all rows reads shown limit newest :
  ManageCache.ask (on_collection (fun c => Milvus.query c "" (Some limit) 0 newest))
    {| ManageCache.store :=
         {| coll := {| Milvus.rows := rows; Milvus.faults := [] |}; clock_reads := reads |};
       ManageCache.printed := shown |} =
  (inl (firstn (Z.to_nat limit)
          (if newest then fold_right Milvus.insert_newest [] rows else rows)),
   {| ManageCache.store :=
        {| coll := {| Milvus.rows := rows; Milvus.faults := [] |}; clock_reads := reads |};
      ManageCache.printed := shown |}).
Proof. reflexivity. Qed.

(** X27: on an empty cache the statistics screen ends in an error.  With a
    store that answers and holds no entry, [display_statistics] shows the
    three basic figures and then the error panel: the counting loop is
    skipped, so [project_count] is read without ever having been assigned.
    Nothing is raised to the caller and the store is as before. *)
Theorem statistics_of_an_empty_cache (collection_name : string) (dim : Z) (w : world)
  (shown : list ManageCache.panel) :
  Milvus.faults (coll w) = [] ->
  Milvus.rows (coll w) = [] ->
  ManageCache.display_statistics collection_name dim
    {| ManageCache.store := w; ManageCache.printed := shown |} =
  (inl tt,
   {| ManageCache.store := w;
      ManageCache.printed :=
        (shown ++ [ManageCache.CacheStatistics
                     [("Total Entries", "0"); ("Collection Name", collection_name);
                      ("Vector Dimension", str_of_int dim)];
                   ManageCache.ErrorPanel])%list |}).
Proof.
  destruct w as [[rows faults] reads]. cbn [coll Milvus.faults Milvus.rows].
  intros -> ->.
  unfold ManageCache.display_statistics, ManageCache.handle.
  unfold ManageCache.pbind at 1 2 3 4 5 6. rewrite ask_num_entities.
  rewrite ask_query_all. cbn [firstn List.length]. rewrite firstn_nil.
  cbn [ManageCache.print ManageCache.store ManageCache.printed].
  rewrite ask_query_all. cbn [fold_right]. rewrite firstn_nil.
  cbn [ManageCache.pret ManageCache.bound option_map ManageCache.print
       ManageCache.store ManageCache.printed].
  unfold ManageCache.print. cbn [ManageCache.store ManageCache.printed].
  rewrite <- app_assoc. reflexivity.
Qed.

(** X27, witness: an empty store that answers, and an empty screen. *)
Lemma statistics_of_an_empty_cache_witness :
  ManageCache.display_statistics "logos_cache" 768
    {| ManageCache.store := world_of [] []; ManageCache.printed := [] |} =
  (inl tt,
   {| ManageCache.store := world_of [] [];
      ManageCache.printed :=
        [ManageCache.CacheStatistics
           [("Total Entries", "0"); ("Collection Name", "logos_cache");
            ("Vector Dimension", "768")];
         ManageCache.ErrorPanel] |}).
Proof.
  exact (@statistics_of_an_empty_cache "logos_cache" 768 (world_of [] []) []
           eq_refl eq_refl).
Defined.

(** X28: the figures of the statistics screen.  With a store that answers
    and holds at least one entry, [display_statistics] shows three panels
    and no error.  Over the first 10000 rows the store returns, "Total
    Projects" is the number of different project ids and "Total Users" the
    number of different emails; "Recent Entries" has five rows, or as many
    as there are entries; "Top Projects" lists the first five of the
    projects ranked by their number of entries, highest first, each project
    once and with the number of rows that carry it.  The store is as
    before. *)
Theorem statistics_of_a_cache (collection_name : string) (dim : Z) (w : world)
  (shown : list ManageCache.panel) (first : Milvus.row) (others : list Milvus.row) :
  Milvus.faults (coll w) = [] ->
  Milvus.rows (coll w) = first :: others ->
  let sample := firstn (Z.to_nat 10000) (first :: others) in
  let projects := map Milvus.project_id sample in
  exists recent ranked rest,
    ManageCache.display_statistics collection_name dim
      {| ManageCache.store := w; ManageCache.printed := shown |} =
    (inl tt,
     {| ManageCache.store := w;
        ManageCache.printed :=
          (shown ++ [ManageCache.CacheStatistics
                       [("Total Entries",
                         str_of_int (Z.of_nat (List.length (first :: others))));
                        ("Collection Name", collection_name);
                        ("Vector Dimension", str_of_int dim);
                        ("Total Projects", str_of_int (distinct projects));
                        ("Total Users",
                         str_of_int (distinct (map Milvus.email sample)))];
                     ManageCache.RecentActivity recent;
                     ManageCache.TopProjects (map ManageCache.project_row ranked)])%list |})
    /\ List.length recent = Nat.min 5 (List.length (first :: others))
    /\ ranked = firstn 5 (ranked ++ rest)%list
    /\ descending (ranked ++ rest)%list
    /\ NoDup (map fst (ranked ++ rest)%list)
    /\ (forall p c, In (p, c) (ranked ++ rest)%list <->
                    In p projects /\ c = occurrences p projects).
Proof.
  destruct w as [[rows faults] reads]. cbn [coll Milvus.faults Milvus.rows].
  intros -> ->. cbv zeta.
  set (all := first :: others).
  set (sample := firstn (Z.to_nat 10000) all).
  destruct (tallied_spec sample) as (Hkeys & Hprojects & Husers & Hitems).
  cbv zeta in Hprojects, Husers, Hitems.
  destruct (@sorted_by_count_spec (fst (ManageCache.tallied sample)) Hkeys)
    as (Hdesc & Hnodup & Hin).
  assert (Hsample : exists others', sample = first :: others').
  { subst sample all. replace (Z.to_nat 10000) with (S (Z.to_nat 9999)) by lia.
    cbn [firstn]. eexists. reflexivity. }
  destruct Hsample as [others' Hsample].
  assert (Hcounted : exists item items, fst (ManageCache.tallied sample) = item :: items).
  { destruct (fst (ManageCache.tallied sample)) as [|item items] eqn:Ht;
      [|do 2 eexists; reflexivity].
    exfalso.
    assert (Hfirst : In (Milvus.project_id first,
                         occurrences (Milvus.project_id first)
                           (map Milvus.project_id sample)) []).
    { apply Hitems. split; [|reflexivity]. rewrite Hsample. now left. }
    destruct Hfirst. }
  destruct Hcounted as (item & items & Hcounted).
  set (newest := firstn (Z.to_nat 5) (fold_right Milvus.insert_newest [] all)).
  assert (Hlen : List.length newest = Nat.min 5 (List.length all)).
  { subst newest. rewrite length_firstn, newest_first_length. reflexivity. }
  assert (Hnewest : exists r rs, newest = r :: rs).
  { destruct newest as [|r rs]; [|do 2 eexists; reflexivity].
    subst all. cbn [List.length] in Hlen. discriminate. }
  destruct Hnewest as (r & rs & Hnewest).
  assert (Hq1 : forall shown',
             ManageCache.ask
               (on_collection (fun c => Milvus.query c "" (Some 10000) 0 false))
               {| ManageCache.store :=
                    {| coll := {| Milvus.rows := all; Milvus.faults := [] |};
                       clock_reads := reads |};
                  ManageCache.printed := shown' |} =
             (inl sample,
              {| ManageCache.store :=
                   {| coll := {| Milvus.rows := all; Milvus.faults := [] |};
                      clock_reads := reads |};
                 ManageCache.printed := shown' |}))
    by (intro; apply ask_query_all).
  assert (Hq2 : forall shown',
             ManageCache.ask
               (on_collection (fun c => Milvus.query c "" (Some 5) 0 true))
               {| ManageCache.store :=
                    {| coll := {| Milvus.rows := all; Milvus.faults := [] |};
                       clock_reads := reads |};
                  ManageCache.printed := shown' |} =
             (inl newest,
              {| ManageCache.store :=
                   {| coll := {| Milvus.rows := all; Milvus.faults := [] |};
                      clock_reads := reads |};
                 ManageCache.printed := shown' |}))
    by (intro; apply ask_query_all).
  exists (map ManageCache.recent_row newest),
         (firstn 5 (ManageCache.sorted_by_count (fst (ManageCache.tallied sample)))),
         (skipn 5 (ManageCache.sorted_by_count (fst (ManageCache.tallied sample)))).
  rewrite firstn_skipn.
  split; [|split; [now rewrite length_map | split; [reflexivity | split; [exact Hdesc|]]]].
  - rewrite <- Hprojects, <- Husers.
    clear Hkeys Hprojects Husers Hitems Hdesc Hnodup Hin Hlen.
    clearbody sample newest.
    unfold ManageCache.display_statistics, ManageCache.handle.
    unfold ManageCache.pbind at 1 2 3 4 5 6. rewrite ask_num_entities.
    rewrite Hq1. subst sample.
    destruct (ManageCache.tallied (first :: others')) as [project_count user_count].
    cbn [fst snd] in *. subst project_count.
    cbn [ManageCache.print ManageCache.store ManageCache.printed app].
    rewrite Hq2. subst newest.
    cbn [ManageCache.pret ManageCache.bound option_map ManageCache.print
         ManageCache.store ManageCache.printed fst].
    rewrite <- !app_assoc. reflexivity.
  - split; [exact Hnodup|]. intros p c. rewrite Hin. apply Hitems.
Qed.

(** X28, witness: the stored entry of the examples. *)
Lemma statistics_of_a_cache_witness :
  exists recent ranked rest,
    ManageCache.display_statistics "logos_cache" 768
      {| ManageCache.store := one_entry "alice" "p"; ManageCache.printed := [] |} =
    (inl tt,
     {| ManageCache.store := one_entry "alice" "p";
        ManageCache.printed :=
          [ManageCache.CacheStatistics
             [("Total Entries", "1"); ("Collection Name", "logos_cache");
              ("Vector Dimension", "768"); ("Total Projects", "1");
              ("Total Users", "1")];
           ManageCache.RecentActivity recent;
           ManageCache.TopProjects (map ManageCache.project_row ranked)] |})
    /\ (forall p c, In (p, c) (ranked ++ rest)%list <-> p = "p" /\ c = 1).
Proof.
  destruct (@statistics_of_a_cache "logos_cache" 768 (one_entry "alice" "p") []
              (stored_row "e1" (axis 2) "alice" "p" fresh_metadata) [] eq_refl eq_refl)
    as (recent & ranked & rest & Hrun & _ & _ & _ & _ & Hitems).
  exists recent, ranked, rest. split; [exact Hrun|].
  intros p c. rewrite Hitems. cbn. split.
  - intros [[Hp|[]] ->]. subst p. split; reflexivity.
  - intros [-> ->]. split; [now left | reflexivity].
Defined.
